(** * Oracle API bridge: the query-execution views

    A shallow embedding of [asd_api/views copy.py] (classes [BaseView],
    [QueryView], [DataTableView]) and of the older [asd_api/~views.py]
    ([OracleBaseView]), with the properties of the statement dispatcher,
    the parameter binder, the result projector, the output extractor and
    the request handler.

    Python values are an inductive type, [dict]s are insertion-ordered
    association lists, and the code that talks to the driver runs in a
    small monad: database state passed explicitly, an exception or a
    value as outcome, and the list of driver calls made as output. *)

From Stdlib Require Import List NArith ZArith Bool Ascii String.
From Stdlib Require Import Floats.PrimFloat.
Import ListNotations.
Local Open Scope string_scope.
Local Open Scope list_scope.

Set Implicit Arguments.
Set Warnings "-register-all".

(** ** Python strings

    A [str] is a sequence of Unicode code points, so that [len], slicing
    and [count] are those of Python also outside ASCII. *)

Definition char := N.
Definition str := list char.

(** Source literals are written as Rocq strings (UTF-8) and decoded:
    [py "CALL"] is the list of the four code points. *)
Fixpoint utf8_go (pending : nat) (acc : N) (bs : list N) : str :=
  match bs with
  | [] => []
  | b :: bs' =>
    match pending with
    | O =>
      if (b <? 128)%N then b :: utf8_go 0 0%N bs'
      else if (b <? 224)%N then utf8_go 1 (b - 192)%N bs'
      else if (b <? 240)%N then utf8_go 2 (b - 224)%N bs'
      else utf8_go 3 (b - 240)%N bs'
    | S O => (acc * 64 + (b - 128))%N :: utf8_go 0 0%N bs'
    | S p => utf8_go p (acc * 64 + (b - 128))%N bs'
    end
  end.

Definition utf8 (s : string) : str :=
  utf8_go 0 0%N (map N_of_ascii (list_ascii_of_string s)).

Notation "'py' s" :=
  (ltac:(let v := eval vm_compute in (utf8 s) in exact v))
  (at level 10, s at level 0, only parsing).

Definition char_eqb : char -> char -> bool := N.eqb.

Fixpoint str_eqb (a b : str) : bool :=
  match a, b with
  | [], [] => true
  | x :: a', y :: b' => char_eqb x y && str_eqb a' b'
  | _, _ => false
  end.

(** [s.startswith(p)] *)
Fixpoint startswith (s p : str) {struct p} : bool :=
  match p with
  | [] => true
  | c :: p' =>
    match s with
    | [] => false
    | d :: s' => char_eqb d c && startswith s' p'
    end
  end.

(** [s[n:]] for [n >= 0] *)
Definition slice_from (n : nat) (s : str) : str := skipn n s.

(** [s.count(c)] for a one-character [c] *)
Fixpoint count (c : char) (s : str) : nat :=
  match s with
  | [] => 0
  | d :: s' => (if char_eqb d c then 1 else 0) + count c s'
  end.

(** [len(s)] *)
Definition len (s : str) : nat := List.length s.

Definition hyphen : char := 45%N.
Definition colon : char := 58%N.
Definition space : char := 32%N.

(** ** Python values *)

(** [datetime.datetime], as [strptime] builds it (no time zone). *)
Record datetime := mkdatetime {
  year : Z; month : Z; day : Z; hour : Z; minute : Z; second : Z
}.

(** [oracledb.DbType]: the driver's type constants, told apart by [name]. *)
Record DbType := mkDbType { name : str }.

Definition DB_TYPE_CURSOR : DbType := mkDbType (py "DB_TYPE_CURSOR").

Definition DbType_eqb (a b : DbType) : bool := str_eqb (name a) (name b).

(** A cursor of the driver (the request's own, or the value of a REF
    CURSOR variable) and a bind variable made by [cursor.var]. *)
Definition Cursor := nat.

Record Var := mkVar { var_id : nat; var_type : DbType }.

Inductive value :=
| VNone
| VBool (b : bool)
| VInt (z : Z)
| VFloat (f : float)
| VStr (s : str)
| VList (l : list value)
| VDict (d : list (str * value))
| VDatetime (d : datetime)
| VVar (v : Var)
| VCursor (c : Cursor)
| VObject (id : N).

(** A [dict] with string keys: entries in insertion order, keys unique. *)
Definition dict (V : Type) := list (str * V).

Section Dict.
Variable V : Type.

(** [d.get(k)], [None] when absent *)
Fixpoint dict_find (d : dict V) (k : str) : option V :=
  match d with
  | [] => None
  | (k', v) :: d' => if str_eqb k' k then Some v else dict_find d' k
  end.

(** [d[k] = v]: an existing key keeps its place, a new one goes last *)
Fixpoint dict_set (d : dict V) (k : str) (v : V) : dict V :=
  match d with
  | [] => [(k, v)]
  | (k', v') :: d' =>
    if str_eqb k' k then (k', v) :: d' else (k', v') :: dict_set d' k v
  end.

Definition keys (d : dict V) : list str := map fst d.

(** [dict(pairs)] and dict comprehensions: insert in order *)
Definition dict_of (pairs : list (str * V)) : dict V :=
  fold_left (fun d kv => dict_set d (fst kv) (snd kv)) pairs [].

Definition wf_dict (d : dict V) : Prop := NoDup (keys d).
End Dict.

(** [d.get(k, default)] *)
Definition dict_get (d : dict value) (k : str) (default : value) : value :=
  match dict_find d k with
  | Some v => v
  | None => default
  end.

(** Truth value of an object, as [if x] and [not x] take it. *)
Definition truthy (v : value) : bool :=
  match v with
  | VNone => false
  | VBool b => b
  | VInt z => negb (z =? 0)%Z
  | VFloat f => negb (PrimFloat.eqb f 0%float)
  | VStr s => negb (Nat.eqb (len s) 0)
  | VList l => negb (Nat.eqb (List.length l) 0)
  | VDict d => negb (Nat.eqb (List.length d) 0)
  | VDatetime _ | VVar _ | VCursor _ | VObject _ => true
  end.

(** [type(v).__name__] *)
Definition type_name (v : value) : str :=
  match v with
  | VNone => py "NoneType"
  | VBool _ => py "bool"
  | VInt _ => py "int"
  | VFloat _ => py "float"
  | VStr _ => py "str"
  | VList _ => py "list"
  | VDict _ => py "dict"
  | VDatetime _ => py "datetime.datetime"
  | VVar _ => py "Var"
  | VCursor _ => py "Cursor"
  | VObject _ => py "object"
  end.

(** ** Exceptions

    The subclasses of [Exception] the views meet: what the driver
    reports, what the binder raises, and what Python raises on a value of
    the wrong type. *)
Inductive exn :=
| OracleError (detail : str)
| ValidationError (detail : str)
| ValueError (msg : str)
| AttributeError (msg : str)
| KeyError (key : str)
| TypeError (msg : str)
| OtherException (text : str).

(** [isinstance(e, oracledb.Error)] *)
Definition is_oracledb_Error (e : exn) : bool :=
  match e with
  | OracleError _ => true
  | _ => false
  end.

Inductive result (A : Type) :=
| Ok (a : A)
| Raise (e : exn).
Arguments Ok {A} a.
Arguments Raise {A} e.

(** What [getattr(oracledb, name)] can give: a type constant or some
    other attribute of the module (a function, a class, a submodule). *)
Inductive pyattr :=
| AttrDbType (t : DbType)
| AttrOther (what : str).

(** The [AttributeError] of [v.attr] on an object without that attribute. *)
Definition no_attribute (v : value) (attr : str) : exn :=
  AttributeError
    (py "'" ++ type_name v ++ py "' object has no attribute '" ++ attr
     ++ py "'").

(** One column of [cursor.description]: [col[0]] and [col[1]]. *)
Definition column := (str * DbType)%type.

(** The calls made on the driver and the logger, in order. *)
Inductive event :=
| EAcquire
| ERelease
| EOpenCursor
| ECloseCursor (c : Cursor)
| EExecute (c : Cursor) (sql : str) (params : value)
| ECallproc (c : Cursor) (proc_name : str) (args : list value)
| EFetchall (c : Cursor)
| EVar (c : Cursor) (t : pyattr)
| EGetvalue (v : Var)
| ECommit
| ELogError (msg : str).

(** ** The world outside the views

    The Python runtime, the standard library and the [oracledb] driver
    with the database behind it. [db] is the state of the session and of
    the database; every driver call may change it and may raise. *)
Record Env := mkEnv {
  db : Type;
  (** [datetime.strptime(s, fmt)]: the value or the text of the
      [ValueError] *)
  strptime : str -> str -> str + datetime;
  (** [str(e)] *)
  str_exn : exn -> str;
  (** [getattr(oracledb, name)], [None] for [AttributeError] *)
  oracledb_getattr : str -> option pyattr;
  (** [pool.acquire()] and the connection's [__exit__] *)
  pool_acquire : db -> result unit * db;
  connection_exit : db -> result unit * db;
  (** [connection.cursor()] and the cursor's [__exit__] *)
  connection_cursor : db -> result Cursor * db;
  cursor_exit : Cursor -> db -> result unit * db;
  connection_commit : db -> result unit * db;
  cursor_execute : Cursor -> str -> value -> db -> result unit * db;
  cursor_callproc : Cursor -> str -> list value -> db -> result unit * db;
  cursor_description : Cursor -> db -> option (list column);
  cursor_fetchall : Cursor -> db -> result (list (list value)) * db;
  cursor_var : Cursor -> pyattr -> db -> result Var * db;
  var_getvalue : Var -> db -> result value * db
}.

(** ** The monad of the views

    A computation takes the database state and gives its outcome, the
    new state and the calls it made. *)
Section Monad.
Variable E : Env.

Definition M (A : Type) : Type := db E -> result A * db E * list event.

Definition ret {A} (a : A) : M A := fun s => (Ok a, s, []).

Definition raise {A} (e : exn) : M A := fun s => (Raise e, s, []).

Definition bind {A B} (m : M A) (k : A -> M B) : M B :=
  fun s =>
    match m s with
    | (Ok a, s1, t1) =>
      match k a s1 with
      | (r, s2, t2) => (r, s2, t1 ++ t2)
      end
    | (Raise e, s1, t1) => (Raise e, s1, t1)
    end.

(** A call of the driver, recorded. *)
Definition call {A} (ev : event) (op : db E -> result A * db E) : M A :=
  fun s => match op s with (r, s1) => (r, s1, [ev]) end.

(** [with enter as x: body]: [exit] runs however the body ends, and an
    exception of [exit] replaces the body's outcome. *)
Definition with_ {X A} (enter : M X) (exit : X -> M unit)
    (body : X -> M A) : M A :=
  fun s =>
    match enter s with
    | (Raise e, s1, t1) => (Raise e, s1, t1)
    | (Ok x, s1, t1) =>
      match body x s1 with
      | (r, s2, t2) =>
        match exit x s2 with
        | (Ok _, s3, t3) => (r, s3, t1 ++ t2 ++ t3)
        | (Raise e, s3, t3) => (Raise e, s3, t1 ++ t2 ++ t3)
        end
      end
    end.

(** A loop [for x in xs: acc = body(acc, x)]. *)
Fixpoint for_each {A X} (xs : list X) (body : A -> X -> M A) (acc : A)
    : M A :=
  match xs with
  | [] => ret acc
  | x :: xs' => bind (body acc x) (for_each xs' body)
  end.
End Monad.

Arguments ret {E A} a.
Arguments raise {E A} e.
Arguments bind {E A B} m k.
Arguments call {E A} ev op.
Arguments with_ {E X A} enter exit body.
Arguments for_each {E A X} xs body acc.

Declare Scope py_scope.
Delimit Scope py_scope with py_do.
Notation "x <- m ;; k" := (bind m (fun x => k))
  (at level 61, m at next level, right associativity) : py_scope.
Notation "m ;; k" := (bind m (fun _ => k))
  (at level 61, right associativity) : py_scope.
Local Open Scope py_scope.

(** ** The views *)
Section Views.
Variable E : Env.

Definition lift {A} (r : result A) : M E A :=
  match r with
  | Ok a => ret a
  | Raise e => raise e
  end.

(** *** The driver's calls *)
Definition acquire : M E unit := call EAcquire (pool_acquire E).
Definition connection_close : M E unit := call ERelease (connection_exit E).
Definition open_cursor : M E Cursor :=
  call EOpenCursor (connection_cursor E).
Definition cursor_close (c : Cursor) : M E unit :=
  call (ECloseCursor c) (cursor_exit E c).
Definition commit : M E unit := call ECommit (connection_commit E).
Definition execute (c : Cursor) (sql : str) (params : value) : M E unit :=
  call (EExecute c sql params) (cursor_execute E c sql params).
Definition callproc (c : Cursor) (proc_name : str) (args : list value)
    : M E unit :=
  call (ECallproc c proc_name args) (cursor_callproc E c proc_name args).
Definition fetchall (c : Cursor) : M E (list (list value)) :=
  call (EFetchall c) (cursor_fetchall E c).
Definition make_var (c : Cursor) (t : pyattr) : M E Var :=
  call (EVar c t) (cursor_var E c t).
Definition getvalue (v : Var) : M E value :=
  call (EGetvalue v) (var_getvalue E v).
(** [cursor.description] is an attribute: read, not called. *)
Definition description (c : Cursor) : M E (option (list column)) :=
  fun s => (Ok (cursor_description E c s), s, []).

(** [cursor_out.description] as the comprehensions iterate it, and
    [cursor_out.fetchall()], on whatever [getvalue()] returned. *)
Definition description_of (cursor_out : value) : M E (list column) :=
  match cursor_out with
  | VCursor c =>
    d <- description c ;;
    match d with
    | Some cols => ret cols
    | None => raise (TypeError (py "'NoneType' object is not iterable"))
    end
  | _ => raise (no_attribute cursor_out (py "description"))
  end.

Definition fetchall_of (cursor_out : value) : M E (list (list value)) :=
  match cursor_out with
  | VCursor c => fetchall c
  | _ => raise (no_attribute cursor_out (py "fetchall"))
  end.

(** *** The two endpoints

    [QueryView] and [DataTableView] override [get_proc_output] and
    [execute_query]; [BaseView] calls them through [self]. *)
Record View := mkView {
  get_proc_output : Cursor -> dict Var -> M E (dict value);
  execute_query : Cursor -> str -> value -> M E value
}.

(** *** [BaseView.prepare_proc_params] *)

(** [isinstance(value, dict) and value.get('dir') == 'OUT']: the
    descriptor when the test holds. *)
Definition as_OUT (v : value) : option (dict value) :=
  match v with
  | VDict d =>
    match dict_find d (py "dir") with
    | Some (VStr s) => if str_eqb s (py "OUT") then Some d else None
    | _ => None
    end
  | _ => None
  end.

Definition is_OUT (v : value) : bool :=
  match as_OUT v with
  | Some _ => true
  | None => false
  end.

(** [getattr(oracledb, value['type'])] for a dict [value] *)
Definition resolve_type (descriptor : dict value) : result pyattr :=
  match dict_find descriptor (py "type") with
  | None => Raise (KeyError (py "type"))
  | Some (VStr n) =>
    match oracledb_getattr E n with
    | Some a => Ok a
    | None =>
      Raise (AttributeError
               (py "module 'oracledb' has no attribute '" ++ n ++ py "'"))
    end
  | Some v =>
    Raise (TypeError
             (py "attribute name must be string, not '" ++ type_name v
              ++ py "'"))
  end.

Definition date_shaped (s : str) : bool :=
  Nat.eqb (count hyphen s) 2 && Nat.eqb (len s) 10.

Definition datetime_shaped (s : str) : bool :=
  Nat.eqb (count hyphen s) 2 && Nat.eqb (count colon s) 2
  && Nat.eqb (len s) 19.

Definition date_error (key : str) (e : str) : exn :=
  ValidationError
    (py "Ошибка конвертации даты для параметра '" ++ key ++ py "': "
     ++ str_exn E (ValueError e)).

Definition datetime_error (key : str) (e : str) : exn :=
  ValidationError
    (py "Ошибка конвертации даты и времени для параметра '" ++ key
     ++ py "': " ++ str_exn E (ValueError e)).

(** The [else] branch of the loop, up to the [append]. *)
Definition convert_dates (key : str) (v : value) : result value :=
  match v with
  | VStr s =>
    if date_shaped s then
      match strptime E s (py "%Y-%m-%d") with
      | inr d => Ok (VDatetime d)
      | inl e => Raise (date_error key e)
      end
    else if datetime_shaped s then
      match strptime E s (py "%Y-%m-%d %H:%M:%S") with
      | inr d => Ok (VDatetime d)
      | inl e => Raise (datetime_error key e)
      end
    else Ok v
  | _ => Ok v
  end.

(** The body of the loop over [params.items()]. *)
Definition bind_param (cursor : Cursor)
    (acc : list value * dict Var) (item : str * value)
    : M E (list value * dict Var) :=
  let '(proc_params, proc_out_params) := acc in
  let '(key, v) := item in
  match as_OUT v with
  | Some descriptor =>
    t <- lift (resolve_type descriptor) ;;
    out_param <- make_var cursor t ;;
    ret (proc_params ++ [VVar out_param],
         dict_set proc_out_params key out_param)
  | None =>
    v' <- lift (convert_dates key v) ;;
    ret (proc_params ++ [v'], proc_out_params)
  end.

Definition prepare_proc_params (cursor : Cursor) (params : value)
    : M E (list value * dict Var) :=
  match params with
  | VDict d => for_each d (bind_param cursor) ([], [])
  | _ => raise (no_attribute params (py "items"))
  end.

(** *** [BaseView.call_procedure] and [BaseView.execute_sql] *)
Definition call_procedure (self : View) (cursor : Cursor)
    (proc_name : str) (params : value) : M E value :=
  pp <- prepare_proc_params cursor params ;;
  let '(proc_params, proc_out_params) := pp in
  callproc cursor proc_name proc_params ;;
  commit ;;
  let result :=
    [(py "message", VStr (py "Вызов процедуры выполнен успешно"))] in
  match proc_out_params with
  | _ :: _ =>
    output <- get_proc_output self cursor proc_out_params ;;
    ret (VDict (dict_set result (py "output") (VDict output)))
  | [] => ret (VDict result)
  end.

Definition execute_sql (self : View) (cursor : Cursor) (sql : value)
    (params : value) : M E value :=
  match sql with
  | VStr s =>
    if startswith s (py "CALL")
    then call_procedure self cursor (slice_from 5 s) params
    else execute_query self cursor s params
  | _ => raise (no_attribute sql (py "startswith"))
  end.

(** [dict(zip(columns, row))] *)
Definition row_dict (columns : list str) (row : list value) : value :=
  VDict (dict_of (combine columns row)).

(** *** [QueryView] *)
Definition QueryView_get_proc_output (cursor : Cursor)
    (proc_out_params : dict Var) : M E (dict value) :=
  for_each proc_out_params
    (fun output_data item =>
       let '(key, out_param) := item in
       if DbType_eqb (var_type out_param) DB_TYPE_CURSOR then
         cursor_out <- getvalue out_param ;;
         desc <- description_of cursor_out ;;
         let columns := map fst desc in
         rows <- fetchall_of cursor_out ;;
         ret (dict_set output_data key
                (VList (map (row_dict columns) rows)))
       else
         x <- getvalue out_param ;;
         ret (dict_set output_data key x))
    [].

Definition QueryView_execute_query (cursor : Cursor) (sql : str)
    (params : value) : M E value :=
  execute cursor sql params ;;
  d <- description cursor ;;
  match d with
  | Some ((_ :: _) as desc) =>
    let columns := map fst desc in
    rows <- fetchall cursor ;;
    ret (VList (map (row_dict columns) rows))
  | _ =>
    commit ;;
    ret (VList [])
  end.

Definition QueryView : View :=
  mkView QueryView_get_proc_output QueryView_execute_query.

(** *** [DataTableView] *)
Definition column_type_mapping : dict value :=
  [
    (py "DB_TYPE_VARCHAR", VList [VStr (py "string"); VStr (py "DB_TYPE_VARCHAR")]);
    (py "DB_TYPE_NVARCHAR", VList [VStr (py "string"); VStr (py "DB_TYPE_NVARCHAR")]);
    (py "DB_TYPE_NCHAR", VList [VStr (py "string"); VStr (py "DB_TYPE_NCHAR")]);
    (py "DB_TYPE_CHAR", VList [VStr (py "string"); VStr (py "DB_TYPE_CHAR")]);
    (py "DB_TYPE_NUMBER", VList [VStr (py "number"); VStr (py "DB_TYPE_NUMBER")]);
    (py "DB_TYPE_BINARY_FLOAT", VList [VStr (py "number"); VStr (py "DB_TYPE_BINARY_FLOAT")]);
    (py "DB_TYPE_BINARY_DOUBLE", VList [VStr (py "number"); VStr (py "DB_TYPE_BINARY_DOUBLE")]);
    (py "DB_TYPE_DATE", VList [VStr (py "date"); VStr (py "DB_TYPE_DATE")]);
    (py "DB_TYPE_TIMESTAMP", VList [VStr (py "date"); VStr (py "DB_TYPE_TIMESTAMP")]);
    (py "DB_TYPE_TIMESTAMP_WITH_TIMEZONE", VList [VStr (py "date"); VStr (py "DB_TYPE_TIMESTAMP_WITH_TIMEZONE")]);
    (py "DB_TYPE_TIMESTAMP_LTZ", VList [VStr (py "date"); VStr (py "DB_TYPE_TIMESTAMP_LTZ")]);
    (py "DB_TYPE_TIMESTAMP_TZ", VList [VStr (py "date"); VStr (py "DB_TYPE_TIMESTAMP_TZ")]);
    (py "DB_TYPE_TIMESTAMP_UTC", VList [VStr (py "date"); VStr (py "DB_TYPE_TIMESTAMP_UTC")]);
    (py "DB_TYPE_RAW", VList [VStr (py "string"); VStr (py "DB_TYPE_RAW")]);
    (py "DB_TYPE_LONG", VList [VStr (py "string"); VStr (py "DB_TYPE_LONG")]);
    (py "DB_TYPE_BLOB", VList [VStr (py "string"); VStr (py "DB_TYPE_BLOB")]);
    (py "DB_TYPE_CLOB", VList [VStr (py "string"); VStr (py "DB_TYPE_CLOB")]);
    (py "DB_TYPE_NCLOB", VList [VStr (py "string"); VStr (py "DB_TYPE_NCLOB")]);
    (py "DB_TYPE_BOOLEAN", VList [VStr (py "boolean"); VStr (py "DB_TYPE_BOOLEAN")]);
    (py "DB_TYPE_INT64", VList [VStr (py "number"); VStr (py "DB_TYPE_INT64")]);
    (py "DB_TYPE_INT32", VList [VStr (py "number"); VStr (py "DB_TYPE_INT32")]);
    (py "DB_TYPE_INT16", VList [VStr (py "number"); VStr (py "DB_TYPE_INT16")]);
    (py "DB_TYPE_INT8", VList [VStr (py "number"); VStr (py "DB_TYPE_INT8")]);
    (py "DB_TYPE_FLOAT", VList [VStr (py "number"); VStr (py "DB_TYPE_FLOAT")]);
    (py "DB_TYPE_DOUBLE", VList [VStr (py "number"); VStr (py "DB_TYPE_DOUBLE")]);
    (py "DB_TYPE_DECIMAL", VList [VStr (py "number"); VStr (py "DB_TYPE_DECIMAL")]);
    (py "DB_TYPE_BIGINT", VList [VStr (py "number"); VStr (py "DB_TYPE_BIGINT")]);
    (py "DB_TYPE_SMALLINT", VList [VStr (py "number"); VStr (py "DB_TYPE_SMALLINT")]);
    (py "DB_TYPE_TINYINT", VList [VStr (py "number"); VStr (py "DB_TYPE_TINYINT")]);
    (py "DB_TYPE_XML", VList [VStr (py "string"); VStr (py "DB_TYPE_XML")]);
    (py "DB_TYPE_REF_CURSOR", VList [VStr (py "string"); VStr (py "DB_TYPE_REF_CURSOR")]);
    (py "DB_TYPE_TIMESTAMP_WITH_LOCAL_TIME_ZONE", VList [VStr (py "date"); VStr (py "DB_TYPE_TIMESTAMP_WITH_LOCAL_TIME_ZONE")]);
    (py "DB_TYPE_TIMESTAMP_WITH_UTC_TIME_ZONE", VList [VStr (py "date"); VStr (py "DB_TYPE_TIMESTAMP_WITH_UTC_TIME_ZONE")]);
    (py "DB_TYPE_TIMESTAMP_WITH_TIME_ZONE", VList [VStr (py "date"); VStr (py "DB_TYPE_TIMESTAMP_WITH_TIME_ZONE")])
  ].

Definition get_column_type (column_type : DbType) : value :=
  dict_get column_type_mapping (name column_type) (VStr (py "string")).

(** [{col[0]: self.get_column_type(col[1]) for col in description}] *)
Definition column_types (desc : list column) : dict value :=
  dict_of (map (fun col => (fst col, get_column_type (snd col))) desc).

(** [{'columns': columns, 'rows': [list(row) for row in rows]}] *)
Definition table (columns : dict value) (rows : list (list value))
    : value :=
  VDict [(py "columns", VDict columns);
         (py "rows", VList (map VList rows))].

Definition DataTableView_get_proc_output (cursor : Cursor)
    (proc_out_params : dict Var) : M E (dict value) :=
  for_each proc_out_params
    (fun output_data item =>
       let '(key, out_param) := item in
       if DbType_eqb (var_type out_param) DB_TYPE_CURSOR then
         cursor_out <- getvalue out_param ;;
         desc <- description_of cursor_out ;;
         let columns := column_types desc in
         rows <- fetchall_of cursor_out ;;
         ret (dict_set output_data key (table columns rows))
       else
         x <- getvalue out_param ;;
         ret (dict_set output_data key x))
    [].

Definition DataTableView_execute_query (cursor : Cursor) (sql : str)
    (params : value) : M E value :=
  execute cursor sql params ;;
  d <- description cursor ;;
  match d with
  | Some ((_ :: _) as desc) =>
    let columns := column_types desc in
    rows <- fetchall cursor ;;
    ret (table columns rows)
  | _ =>
    commit ;;
    ret (table [] [])
  end.

Definition DataTableView : View :=
  mkView DataTableView_get_proc_output DataTableView_execute_query.

(** *** [BaseView.post] *)
Record Response := mkResponse { data : dict value; status : Z }.

Definition HTTP_200_OK : Z := 200.
Definition HTTP_400_BAD_REQUEST : Z := 400.

Definition error_response (message : str) : Response :=
  mkResponse [(py "error", VStr message)] HTTP_400_BAD_REQUEST.

Definition bad_format : Response :=
  error_response (py "Неверный формат данных").

Definition no_sql : Response :=
  error_response (py "SQL-запрос не предоставлен").

Definition database_error : Response :=
  error_response (py "Ошибка базы данных").

(** The body of [try:], both [with] blocks included. *)
Definition transaction (self : View) (sql params : value) : M E value :=
  with_ acquire (fun _ => connection_close) (fun _ =>
    with_ open_cursor cursor_close (fun cursor =>
      result <- execute_sql self cursor sql params ;;
      commit ;;
      ret result)).

(** The two [except] clauses. *)
Definition handle (e : exn) : Response * list event :=
  if is_oracledb_Error e then
    (database_error, [ELogError (py "Database error: " ++ str_exn E e)])
  else
    (error_response (str_exn E e),
     [ELogError (py "Unexpected error: " ++ str_exn E e)]).

(** What follows the [try:] body: the [return] after it, or a handler. *)
Definition respond (outcome : result value * db E * list event)
    : Response * db E * list event :=
  match outcome with
  | (Ok result, s1, t) =>
    (mkResponse [(py "data", result)] HTTP_200_OK, s1, t)
  | (Raise e, s1, t) => (fst (handle e), s1, t ++ snd (handle e))
  end.

Definition post (self : View) (request_data : value) (s : db E)
    : Response * db E * list event :=
  match request_data with
  | VDict body =>
    let sql := dict_get body (py "sql") VNone in
    let params := dict_get body (py "params") (VDict []) in
    if negb (truthy sql) then (no_sql, s, [])
    else respond (transaction self sql params s)
  | _ => (bad_format, s, [])
  end.

(** *** [OracleBaseView.execute_sql], the older module *)
Definition OracleBaseView_execute_sql (cursor : Cursor) (sql : str)
    (params : value) : M E value :=
  execute cursor sql params ;;
  d <- description cursor ;;
  match d with
  | Some ((_ :: _) as desc) =>
    let columns := map fst desc in
    rows <- fetchall cursor ;;
    ret (VDict [(py "columns", VList (map VStr columns));
                (py "rows", VList (map (row_dict columns) rows))])
  | _ =>
    commit ;;
    ret (VDict [(py "columns", VList []); (py "rows", VList [])])
  end.
End Views.

Arguments mkView {E} _ _.
Arguments date_error : simpl never.
Arguments datetime_error : simpl never.
Arguments no_attribute : simpl never.
Arguments get_proc_output {E} _ _ _ _.
Arguments execute_query {E} _ _ _ _ _.

(** ** The shapes the specification names

    [\d{4}-\d{2}-\d{2}] and [\d{4}-\d{2}-\d{2} \d{2}:\d{2}:\d{2}], over a
    class [digit] of characters: in Python [\d] on a [str] takes the
    decimal digits of all scripts, none of which is [-], [:] or a space. *)
Section Patterns.
Variable digit : char -> bool.

Definition is_char (c : char) : char -> bool := fun d => char_eqb d c.

(** A string matches a sequence of character classes, one each. *)
Fixpoint fullmatch (pat : list (char -> bool)) (s : str) : bool :=
  match pat, s with
  | [], [] => true
  | p :: pat', c :: s' => p c && fullmatch pat' s'
  | _, _ => false
  end.

Definition date_pattern : list (char -> bool) :=
  [digit; digit; digit; digit; is_char hyphen; digit; digit;
   is_char hyphen; digit; digit].

Definition datetime_pattern : list (char -> bool) :=
  date_pattern
  ++ [is_char space; digit; digit; is_char colon; digit; digit;
      is_char colon; digit; digit].

Definition matches_date (s : str) : bool := fullmatch date_pattern s.
Definition matches_datetime (s : str) : bool :=
  fullmatch datetime_pattern s.
End Patterns.

Definition ascii_digit (c : char) : bool := (48 <=? c)%N && (c <=? 57)%N.

(** ** A driver to run the views on

    A small stand-in for CPython and [oracledb], enough to evaluate the
    views on concrete requests. The theorems below hold for every [Env];
    this one gives them concrete instances. *)
Module Sample.

(** *** [datetime.strptime] for the two formats of the binder

    After [Lib/_strptime.py]: each directive is a regular expression
    with ordered alternatives, a blank of the format takes one or more
    blanks, the whole input must be consumed, and [datetime] then
    checks the ranges. ASCII input only. *)
Definition P := str -> option (Z * str).

Definition digit_in (lo hi : N) : P := fun s =>
  match s with
  | c :: r =>
    if ((48 + lo <=? c) && (c <=? 48 + hi))%N
    then Some (Z.of_N (c - 48), r) else None
  | [] => None
  end.

Definition two (a b : P) : P := fun s =>
  match a s with
  | Some (x, r) =>
    match b r with
    | Some (y, r') => Some (10 * x + y, r')%Z
    | None => None
    end
  | None => None
  end.

Definition alt (a b : P) : P := fun s =>
  match a s with
  | Some x => Some x
  | None => b s
  end.

Definition lit (c : char) (s : str) : option str :=
  match s with
  | d :: r => if char_eqb d c then Some r else None
  | [] => None
  end.

Definition blank (c : char) : bool :=
  ((9 <=? c) && (c <=? 13) || (28 <=? c) && (c <=? 32))%N.

Fixpoint skip_blanks (s : str) : str :=
  match s with
  | c :: r => if blank c then skip_blanks r else s
  | [] => []
  end.

(** [\s+] *)
Definition blanks (s : str) : option str :=
  match s with
  | c :: r => if blank c then Some (skip_blanks r) else None
  | [] => None
  end.

Definition after_blank (a : P) : P := fun s =>
  match lit space s with
  | Some r => a r
  | None => None
  end.

Definition pat_Y : P := fun s =>
  match two (digit_in 0 9) (digit_in 0 9) s with
  | Some (hi, r) =>
    match two (digit_in 0 9) (digit_in 0 9) r with
    | Some (lo, r') => Some (100 * hi + lo, r')%Z
    | None => None
    end
  | None => None
  end.
Definition pat_m : P :=
  alt (two (digit_in 1 1) (digit_in 0 2))
    (alt (two (digit_in 0 0) (digit_in 1 9)) (digit_in 1 9)).
Definition pat_d : P :=
  alt (two (digit_in 3 3) (digit_in 0 1))
    (alt (two (digit_in 1 2) (digit_in 0 9))
       (alt (two (digit_in 0 0) (digit_in 1 9))
          (alt (digit_in 1 9) (after_blank (digit_in 1 9))))).
Definition pat_H : P :=
  alt (two (digit_in 2 2) (digit_in 0 3))
    (alt (two (digit_in 0 1) (digit_in 0 9)) (digit_in 0 9)).
Definition pat_M : P :=
  alt (two (digit_in 0 5) (digit_in 0 9)) (digit_in 0 9).
Definition pat_S : P :=
  alt (two (digit_in 6 6) (digit_in 0 1))
    (alt (two (digit_in 0 5) (digit_in 0 9)) (digit_in 0 9)).

Definition is_leap (y : Z) : bool :=
  ((y mod 4 =? 0) && (negb (y mod 100 =? 0) || (y mod 400 =? 0)))%Z.

Definition days_in_month (y m : Z) : Z :=
  if (m =? 2)%Z then (if is_leap y then 29 else 28)
  else if ((m =? 4) || (m =? 6) || (m =? 9) || (m =? 11))%Z then 30
  else 31.

(** The constructor [datetime(y, m, d, hh, mi, ss)]. *)
Definition make_datetime (y m d hh mi ss : Z) : str + datetime :=
  if (y <? 1)%Z then inl (py "year is out of range")
  else if (days_in_month y m <? d)%Z
  then inl (py "day is out of range for month")
  else if (59 <? ss)%Z then inl (py "second must be in 0..59")
  else inr (mkdatetime y m d hh mi ss).

Definition no_match : str + datetime :=
  inl (py "time data does not match format").

Definition parse_date (s : str) : option (Z * Z * Z * str) :=
  match pat_Y s with
  | Some (y, r1) =>
    match lit hyphen r1 with
    | Some r2 =>
      match pat_m r2 with
      | Some (m, r3) =>
        match lit hyphen r3 with
        | Some r4 =>
          match pat_d r4 with
          | Some (d, r5) => Some (y, m, d, r5)
          | None => None
          end
        | None => None
        end
      | None => None
      end
    | None => None
    end
  | None => None
  end.

Definition parse_time (s : str) : option (Z * Z * Z * str) :=
  match pat_H s with
  | Some (hh, r1) =>
    match lit colon r1 with
    | Some r2 =>
      match pat_M r2 with
      | Some (mi, r3) =>
        match lit colon r3 with
        | Some r4 =>
          match pat_S r4 with
          | Some (ss, r5) => Some (hh, mi, ss, r5)
          | None => None
          end
        | None => None
        end
      | None => None
      end
    | None => None
    end
  | None => None
  end.

Definition unconverted : str + datetime :=
  inl (py "unconverted data remains").

Definition strptime (s fmt : str) : str + datetime :=
  if str_eqb fmt (py "%Y-%m-%d") then
    match parse_date s with
    | Some (y, m, d, []) => make_datetime y m d 0 0 0
    | Some (_, _, _, _ :: _) => unconverted
    | None => no_match
    end
  else if str_eqb fmt (py "%Y-%m-%d %H:%M:%S") then
    match parse_date s with
    | Some (y, m, d, r) =>
      match blanks r with
      | Some r' =>
        match parse_time r' with
        | Some (hh, mi, ss, []) => make_datetime y m d hh mi ss
        | Some (_, _, _, _ :: _) => unconverted
        | None => no_match
        end
      | None => no_match
      end
    | None => no_match
    end
  else no_match.

(** *** [str(e)]

    The text of a built-in exception is its message; a [KeyError] shows
    the key quoted; a [ValidationError] of the REST framework shows its
    list of details (here for a detail that [repr] puts between double
    quotes, as it does the binder's messages). *)
Definition double_quote : str := [34%N].

Definition str_exn (e : exn) : str :=
  match e with
  | OracleError d => d
  | ValidationError d =>
    py "[ErrorDetail(string=" ++ double_quote ++ d ++ double_quote
    ++ py ", code='invalid')]"
  | ValueError m => m
  | AttributeError m => m
  | KeyError k => py "'" ++ k ++ py "'"
  | TypeError m => m
  | OtherException t => t
  end.

(** *** The [oracledb] module and a session *)
Definition DB_TYPE_NUMBER : DbType := mkDbType (py "DB_TYPE_NUMBER").
Definition DB_TYPE_VARCHAR : DbType := mkDbType (py "DB_TYPE_VARCHAR").

Definition oracledb_namespace : dict pyattr :=
  [(py "DB_TYPE_CURSOR", AttrDbType DB_TYPE_CURSOR);
   (py "CURSOR", AttrDbType DB_TYPE_CURSOR);
   (py "DB_TYPE_NUMBER", AttrDbType DB_TYPE_NUMBER);
   (py "NUMBER", AttrDbType DB_TYPE_NUMBER);
   (py "DB_TYPE_VARCHAR", AttrDbType DB_TYPE_VARCHAR);
   (py "STRING", AttrDbType DB_TYPE_VARCHAR);
   (py "connect", AttrOther (py "function connect"))].

Definition result_set := (list column * list (list value))%type.

Record session := mksession {
  next_var : nat;
  commits : nat;
  fetched : option result_set
}.

Definition fresh : session := mksession 0 0 None.

(** The result set of every [SELECT] and of every REF CURSOR. *)
Definition people : result_set :=
  ([(py "ID", DB_TYPE_NUMBER); (py "NAME", DB_TYPE_VARCHAR)],
   [[VInt 1; VStr (py "Ann")]; [VInt 2; VStr (py "Bob")]]).

Definition cursor_execute (c : Cursor) (sql : str) (params : value)
    (s : session) : result unit * session :=
  if startswith sql (py "SELECT") then
    (Ok tt, mksession (next_var s) (commits s) (Some people))
  else if startswith sql (py "UPDATE") then
    (Ok tt, mksession (next_var s) (commits s) None)
  else (Raise (OracleError (py "ORA-00900: invalid SQL statement")), s).

Definition cursor_callproc (c : Cursor) (proc_name : str)
    (args : list value) (s : session) : result unit * session :=
  if str_eqb proc_name (py "my_proc") then (Ok tt, s)
  else (Raise (OracleError (py "ORA-06550: identifier must be declared")),
        s).

Definition cursor_description (c : Cursor) (s : session)
    : option (list column) :=
  match c with
  | O => option_map fst (fetched s)
  | S _ => Some (fst people)
  end.

Definition cursor_fetchall (c : Cursor) (s : session)
    : result (list (list value)) * session :=
  match c with
  | O =>
    match fetched s with
    | Some rs => (Ok (snd rs), s)
    | None => (Raise (OracleError (py "DPY-1003: not a query")), s)
    end
  | S _ => (Ok (snd people), s)
  end.

Definition cursor_var (c : Cursor) (t : pyattr) (s : session)
    : result Var * session :=
  match t with
  | AttrDbType ty =>
    (Ok (mkVar (next_var s) ty),
     mksession (S (next_var s)) (commits s) (fetched s))
  | AttrOther _ => (Raise (TypeError (py "expecting type")), s)
  end.

Definition var_getvalue (v : Var) (s : session) : result value * session :=
  if DbType_eqb (var_type v) DB_TYPE_CURSOR
  then (Ok (VCursor (S (var_id v))), s)
  else (Ok (VInt 7), s).

Definition connection_commit (s : session) : result unit * session :=
  (Ok tt, mksession (next_var s) (S (commits s)) (fetched s)).

Definition env : Env :=
  mkEnv strptime str_exn (dict_find oracledb_namespace)
    (fun s => (Ok tt, s)) (fun s => (Ok tt, s))
    (fun s => (Ok 0, s)) (fun _ s => (Ok tt, s))
    connection_commit cursor_execute cursor_callproc cursor_description
    cursor_fetchall cursor_var var_getvalue.
End Sample.

(** ** What the output extractor is meant to compute

    The specification's reading of [get_proc_output], to compare the two
    loops with: one value per OUT parameter, in order. *)
Section Extraction.
Variable E : Env.

Fixpoint map_M {X Y} (f : X -> M E Y) (xs : list X) : M E (list Y) :=
  match xs with
  | [] => ret []
  | x :: xs' => y <- f x ;; ys <- map_M f xs' ;; ret (y :: ys)
  end.

(** A cursor-typed OUT parameter as a nested table. *)
Definition nested_table (out_param : Var) : M E value :=
  cursor_out <- getvalue E out_param ;;
  desc <- description_of E cursor_out ;;
  rows <- fetchall_of E cursor_out ;;
  ret (table (column_types desc) rows).

(** A cursor-typed OUT parameter as a list of row objects. *)
Definition nested_rows (out_param : Var) : M E value :=
  cursor_out <- getvalue E out_param ;;
  desc <- description_of E cursor_out ;;
  rows <- fetchall_of E cursor_out ;;
  ret (VList (map (row_dict (map fst desc)) rows)).

Definition extract (nested : Var -> M E value) (item : str * Var)
    : M E (str * value) :=
  if DbType_eqb (var_type (snd item)) DB_TYPE_CURSOR then
    x <- nested (snd item) ;; ret (fst item, x)
  else
    x <- getvalue E (snd item) ;; ret (fst item, x).

(** Every call a computation makes satisfies [P]. *)
Definition emits {A} (P : event -> Prop) (m : M E A) : Prop :=
  forall s, Forall P (snd (m s)).

(** The binder without OUT descriptors, as a pure function. *)
Fixpoint convert_all (items : list (str * value)) : result (list value) :=
  match items with
  | [] => Ok []
  | (key, v) :: items' =>
    match convert_dates E key v with
    | Ok v' =>
      match convert_all items' with
      | Ok l => Ok (v' :: l)
      | Raise e => Raise e
      end
    | Raise e => Raise e
    end
  end.
End Extraction.

(** What the driver may be asked while [sql] is dispatched: a procedure
    call only for a text that starts with [CALL], and then of the text
    after the first five characters; an [execute] only for another text,
    and then of the whole text. *)
Definition dispatched (cursor : Cursor) (sql : str) (ev : event) : Prop :=
  match ev with
  | ECallproc c proc_name _ =>
    c = cursor /\ (exists rest, sql = py "CALL" ++ rest)
    /\ proc_name = skipn 5 sql
  | EExecute c text _ =>
    c = cursor /\ (forall rest, sql <> py "CALL" ++ rest) /\ text = sql
  | _ => True
  end.

(** The four semantic types of the specification. *)
Definition semantic_types : list str :=
  [py "string"; py "number"; py "date"; py "boolean"].

(** ** The older module: [OracleQueryView] and [OracleDataTableView]

    [asd_api/~views.py] opens a connection of its own for every request
    and runs the statement without dispatch. *)
Section Older.
Variable E : Env.

(** [OracleBaseView.get_connection]: [oracledb.connect(...)] from the
    settings, whatever it does and returns. *)
Variable get_connection : M E unit.

(** [cursor.execute(sql, params)] for a statement that is no [str]. *)
Variable execute_other : Cursor -> value -> value -> M E unit.

(** [str(x)], as an f-string shows a value that is no [str]. *)
Variable str_value : value -> str.

(** [OracleBaseView.execute_sql] after the [execute]. *)
Definition after_execute (cursor : Cursor) : M E value :=
  d <- description E cursor ;;
  match d with
  | Some ((_ :: _) as desc) =>
    let columns := map fst desc in
    rows <- fetchall E cursor ;;
    ret (VDict [(py "columns", VList (map VStr columns));
                (py "rows", VList (map (row_dict columns) rows))])
  | _ =>
    commit E ;;
    ret (VDict [(py "columns", VList []); (py "rows", VList [])])
  end.

(** [OracleBaseView.execute_sql] on whatever the request holds. *)
Definition OracleBaseView_execute_sql_of (cursor : Cursor) (sql : value)
    (params : value) : M E value :=
  match sql with
  | VStr s => OracleBaseView_execute_sql E cursor s params
  | _ => execute_other cursor sql params ;; after_execute cursor
  end.

(** The body of [try:] in both [post] methods. *)
Definition Oracle_transaction (sql params : value) : M E value :=
  with_ get_connection (fun _ => connection_close E) (fun _ =>
    with_ (open_cursor E) (cursor_close E) (fun cursor =>
      OracleBaseView_execute_sql_of cursor sql params)).

Definition OracleQueryView_post (request_data : value) (s : db E)
    : Response * db E * list event :=
  match request_data with
  | VDict body =>
    let sql := dict_get body (py "sql") VNone in
    let params := dict_get body (py "params") (VDict []) in
    if negb (truthy sql) then (no_sql, s, [])
    else respond E (Oracle_transaction sql params s)
  | _ => (bad_format, s, [])
  end.

Definition no_table_name : Response :=
  error_response (py "Имя таблицы не предоставлено").

(** [f"{x}"] *)
Definition format_value (v : value) : str :=
  match v with
  | VStr s => s
  | _ => str_value v
  end.

Definition OracleDataTableView_post (request_data : value) (s : db E)
    : Response * db E * list event :=
  match request_data with
  | VDict body =>
    let table_name := dict_get body (py "table_name") VNone in
    let params := dict_get body (py "params") (VDict []) in
    if negb (truthy table_name) then (no_table_name, s, [])
    else
      let sql := py "SELECT * FROM " ++ format_value table_name in
      respond E (Oracle_transaction (VStr sql) params s)
  | _ => (bad_format, s, [])
  end.
End Older.

(** What a query may ask of the driver after its [execute]. *)
Definition fetch_or_commit (cursor : Cursor) (ev : event) : Prop :=
  ev = EFetchall cursor \/ ev = ECommit.

(** No line is written to the log. *)
Definition not_logged (ev : event) : Prop :=
  match ev with
  | ELogError _ => False
  | _ => True
  end.

(** A call of [cursor.var] on the given cursor. *)
Definition is_var_call (cursor : Cursor) (ev : event) : Prop :=
  exists t, ev = EVar cursor t.

(** How one entry of the request's parameters shows in what the binder
    returns: an OUT descriptor as the variable kept under its name, any
    other value as the binder converts it. *)
Definition bound_as (E : Env) (outs : dict Var) (entry : str * value)
    (p : value) : Prop :=
  match as_OUT (snd entry) with
  | Some _ => exists o, p = VVar o /\ dict_find outs (fst entry) = Some o
  | None => convert_dates E (fst entry) (snd entry) = Ok p
  end.

(** Two outcomes agree when both are values or both are the same
    exception; two computations have the same effects when from every
    state they make the same calls, reach the same state and agree. *)
Definition agree {A B} (r1 : result A) (r2 : result B) : Prop :=
  match r1, r2 with
  | Ok _, Ok _ => True
  | Raise e1, Raise e2 => e1 = e2
  | _, _ => False
  end.

Definition same_effects {E : Env} {A B} (m1 : M E A) (m2 : M E B) : Prop :=
  forall s,
    snd (m1 s) = snd (m2 s)
    /\ snd (fst (m1 s)) = snd (fst (m2 s))
    /\ agree (fst (fst (m1 s))) (fst (fst (m2 s))).

(** The sample driver with procedures that leave their REF CURSOR
    unopened: the cursor of an OUT variable has no description. *)
Definition unopened_env : Env :=
  mkEnv Sample.strptime Sample.str_exn (dict_find Sample.oracledb_namespace)
    (fun s => (Ok tt, s)) (fun s => (Ok tt, s))
    (fun s => (Ok 0, s)) (fun _ s => (Ok tt, s))
    Sample.connection_commit Sample.cursor_execute Sample.cursor_callproc
    (fun c s => match c with
                | O => option_map fst (Sample.fetched s)
                | S _ => None
                end)
    Sample.cursor_fetchall Sample.cursor_var Sample.var_getvalue.

(** The older views on the sample driver: a connection that is made
    without a recorded call, a driver that refuses a statement that is no
    text, and a stand-in for [str] of values that are no text. *)
Definition sample_connect : M Sample.env unit := ret tt.

Definition sample_execute_other (c : Cursor) (sql params : value)
    : M Sample.env unit :=
  raise (TypeError (py "expecting string")).

Definition sample_str (v : value) : str := type_name v.

(** * Properties *)

(** ** The sample driver at work *)

Example sample_strptime_leap_day :
  Sample.strptime (py "2024-02-29") (py "%Y-%m-%d")
  = inr (mkdatetime 2024 2 29 0 0 0).
Proof. reflexivity. Qed.

Example sample_strptime_no_leap_day :
  Sample.strptime (py "2023-02-29") (py "%Y-%m-%d")
  = inl (py "day is out of range for month").
Proof. reflexivity. Qed.

Example sample_strptime_month_13 :
  Sample.strptime (py "2024-13-40") (py "%Y-%m-%d") = Sample.no_match.
Proof. reflexivity. Qed.

Example sample_strptime_datetime :
  Sample.strptime (py "2024-01-31 23:59:58") (py "%Y-%m-%d %H:%M:%S")
  = inr (mkdatetime 2024 1 31 23 59 58).
Proof. reflexivity. Qed.

Example sample_post_select :
  fst (fst (post (QueryView Sample.env)
              (VDict [(py "sql", VStr (py "SELECT * FROM people"))])
              Sample.fresh))
  = mkResponse
      [(py "data",
        VList [VDict [(py "ID", VInt 1); (py "NAME", VStr (py "Ann"))];
               VDict [(py "ID", VInt 2); (py "NAME", VStr (py "Bob"))]])]
      HTTP_200_OK.
Proof. reflexivity. Qed.

Example sample_post_call :
  post (DataTableView Sample.env)
    (VDict [(py "sql", VStr (py "CALL my_proc"));
            (py "params",
             VDict [(py "since", VStr (py "2024-02-29"));
                    (py "total",
                     VDict [(py "dir", VStr (py "OUT"));
                            (py "type", VStr (py "NUMBER"))])])])
    Sample.fresh
  = (mkResponse
       [(py "data",
         VDict [(py "message",
                 VStr (py "Вызов процедуры выполнен успешно"));
                (py "output", VDict [(py "total", VInt 7)])])]
       HTTP_200_OK,
     Sample.mksession 1 2 None,
     [EAcquire; EOpenCursor; EVar 0 (AttrDbType Sample.DB_TYPE_NUMBER);
      ECallproc 0 (py "my_proc")
        [VDatetime (mkdatetime 2024 2 29 0 0 0);
         VVar (mkVar 0 Sample.DB_TYPE_NUMBER)];
      ECommit; EGetvalue (mkVar 0 Sample.DB_TYPE_NUMBER); ECommit;
      ECloseCursor 0; ERelease]).
Proof. reflexivity. Qed.

(** ** Strings and dictionaries *)

Lemma str_eqb_eq (a b : str) : str_eqb a b = true <-> a = b.
Proof.
  revert b; induction a as [|x a IH]; intros [|y b]; simpl;
    try (split; [discriminate | discriminate]); try tauto.
  unfold char_eqb. rewrite andb_true_iff, N.eqb_eq, IH.
  split; [intros [-> ->]; reflexivity | intros H; inversion H; auto].
Qed.

Lemma str_eqb_refl (a : str) : str_eqb a a = true.
Proof. apply str_eqb_eq; reflexivity. Qed.

Lemma str_eqb_neq (a b : str) : str_eqb a b = false <-> a <> b.
Proof.
  rewrite <- str_eqb_eq. destruct (str_eqb a b); split; congruence.
Qed.

Lemma str_eqb_sym (a b : str) : str_eqb a b = str_eqb b a.
Proof.
  destruct (str_eqb a b) eqn:H1, (str_eqb b a) eqn:H2; try reflexivity.
  - apply str_eqb_eq in H1. subst. rewrite str_eqb_refl in H2. discriminate.
  - apply str_eqb_eq in H2. subst. rewrite str_eqb_refl in H1. discriminate.
Qed.

Lemma startswith_prefix (s p : str) :
  startswith s p = true <-> exists rest, s = p ++ rest.
Proof.
  revert s; induction p as [|c p IH]; intros s; simpl.
  - split; [intros _; exists s; reflexivity | reflexivity].
  - destruct s as [|d s].
    + split; [discriminate | intros [r H]; discriminate].
    + unfold char_eqb. rewrite andb_true_iff, N.eqb_eq, IH. split.
      * intros [-> [r ->]]. exists r; reflexivity.
      * intros [r H]. inversion H; subst. split; [reflexivity | eauto].
Qed.

Lemma dict_set_fresh V (d : dict V) k v :
  ~ In k (keys d) -> dict_set d k v = d ++ [(k, v)].
Proof.
  induction d as [|[k' v'] d IH]; simpl; intros H; [reflexivity|].
  destruct (str_eqb k' k) eqn:Heq.
  - apply str_eqb_eq in Heq. tauto.
  - rewrite IH by tauto. reflexivity.
Qed.

Lemma keys_dict_set V (d : dict V) k v :
  forall x, In x (keys (dict_set d k v)) <-> In x (keys d) \/ x = k.
Proof.
  induction d as [|[k' v'] d IH]; simpl; intros x.
  - intuition.
  - destruct (str_eqb k' k) eqn:Heq; simpl.
    + apply str_eqb_eq in Heq; subst. intuition.
    + rewrite IH. intuition.
Qed.

Lemma wf_dict_set V (d : dict V) k v : wf_dict d -> wf_dict (dict_set d k v).
Proof.
  unfold wf_dict. induction d as [|[k' v'] d IH]; simpl; intros H.
  - constructor; [intros []|constructor].
  - inversion H as [|? ? Hn Hd]; subst.
    destruct (str_eqb k' k) eqn:Heq; simpl.
    + constructor; assumption.
    + constructor; [|auto]. intros Hin.
      apply (keys_dict_set d k v) in Hin. destruct Hin as [Hin| ->].
      * contradiction.
      * rewrite str_eqb_refl in Heq. discriminate.
Qed.

Lemma dict_of_acc V (l : list (str * V)) :
  forall acc, NoDup (keys acc ++ map fst l) ->
    fold_left (fun d kv => dict_set d (fst kv) (snd kv)) l acc = acc ++ l.
Proof.
  induction l as [|[k v] l IH]; simpl; intros acc H.
  - rewrite app_nil_r; reflexivity.
  - assert (Hk : ~ In k (keys acc)).
    { intros Hin. apply NoDup_remove_2 in H. apply H.
      apply in_or_app; left; exact Hin. }
    rewrite dict_set_fresh by exact Hk. rewrite IH.
    + rewrite <- app_assoc; reflexivity.
    + unfold keys in *. rewrite map_app; simpl. rewrite <- app_assoc; exact H.
Qed.

(** A comprehension over distinct keys gives the entries as they come. *)
Lemma dict_of_NoDup V (l : list (str * V)) :
  NoDup (map fst l) -> dict_of l = l.
Proof. intros H. unfold dict_of. rewrite dict_of_acc; auto. Qed.

Lemma keys_fold_dict_set V (l : list (str * V)) :
  forall acc x,
    In x (keys (fold_left (fun d kv => dict_set d (fst kv) (snd kv)) l acc))
    <-> In x (keys acc) \/ In x (map fst l).
Proof.
  induction l as [|[k v] l IH]; simpl; intros acc x.
  - tauto.
  - rewrite IH, keys_dict_set. intuition.
Qed.

Lemma wf_fold_dict_set V (l : list (str * V)) :
  forall acc, wf_dict acc ->
    wf_dict (fold_left (fun d kv => dict_set d (fst kv) (snd kv)) l acc).
Proof.
  induction l as [|[k v] l IH]; simpl; intros acc H; auto using wf_dict_set.
Qed.

(** The keys of a comprehension are the keys it was given, once each. *)
Lemma keys_dict_of V (l : list (str * V)) :
  wf_dict (dict_of l)
  /\ forall x, In x (keys (dict_of l)) <-> In x (map fst l).
Proof.
  split.
  - apply wf_fold_dict_set. constructor.
  - intros x. unfold dict_of. rewrite keys_fold_dict_set. simpl. tauto.
Qed.

(** ** The monad *)
Section MonadFacts.
Variable E : Env.

Lemma bind_ret_l A B (a : A) (k : A -> M E B) s : bind (ret a) k s = k a s.
Proof.
  unfold bind, ret. destruct (k a s) as [[r s1] t1]. reflexivity.
Qed.

Lemma bind_raise A B e (k : A -> M E B) s :
  bind (raise e) k s = (Raise e, s, []).
Proof. reflexivity. Qed.

Lemma bind_ext A B (m : M E A) (k k' : A -> M E B) s :
  (forall a s1, k a s1 = k' a s1) -> bind m k s = bind m k' s.
Proof.
  intros H. unfold bind. destruct (m s) as [[[a|e] s1] t1]; [|reflexivity].
  rewrite H. reflexivity.
Qed.

Lemma bind_assoc A B C (m : M E A) (f : A -> M E B) (g : B -> M E C) s :
  bind (bind m f) g s = bind m (fun a => bind (f a) g) s.
Proof.
  unfold bind. destruct (m s) as [[[a|e] s1] t1]; [|reflexivity].
  destruct (f a s1) as [[[b|e] s2] t2]; [|reflexivity].
  destruct (g b s2) as [[r s3] t3]. rewrite app_assoc. reflexivity.
Qed.

Lemma for_each_app A X (body : A -> X -> M E A) (xs ys : list X) :
  forall acc s,
    for_each (xs ++ ys) body acc s
    = bind (for_each xs body acc) (for_each ys body) s.
Proof.
  induction xs as [|x xs IH]; intros acc s; simpl.
  - rewrite bind_ret_l. reflexivity.
  - rewrite bind_assoc. apply bind_ext. intros a s1. apply IH.
Qed.

Lemma emits_ret A (P : event -> Prop) (a : A) : emits (E:=E) P (ret a).
Proof. intros s; constructor. Qed.

Lemma emits_raise A (P : event -> Prop) e : emits (E:=E) (A:=A) P (raise e).
Proof. intros s; constructor. Qed.

Lemma emits_lift A (P : event -> Prop) (r : result A) :
  emits P (lift E r).
Proof. destruct r; [apply emits_ret | apply emits_raise]. Qed.

Lemma emits_call A (P : event -> Prop) ev (op : db E -> result A * db E) :
  P ev -> emits P (call ev op).
Proof.
  intros H s. unfold call. destruct (op s). simpl. auto.
Qed.

Lemma emits_bind A B (P : event -> Prop) (m : M E A) (k : A -> M E B) :
  emits P m -> (forall a, emits P (k a)) -> emits P (bind m k).
Proof.
  intros Hm Hk s. unfold bind. specialize (Hm s).
  destruct (m s) as [[[a|e] s1] t1]; simpl in *; [|assumption].
  specialize (Hk a s1). destruct (k a s1) as [[r s2] t2]; simpl in *.
  apply Forall_app; auto.
Qed.

Lemma emits_for_each A X (P : event -> Prop) (body : A -> X -> M E A) xs :
  (forall acc x, emits P (body acc x)) ->
  forall acc, emits P (for_each xs body acc).
Proof.
  intros Hb. induction xs as [|x xs IH]; intros acc; simpl.
  - apply emits_ret.
  - apply emits_bind; auto.
Qed.

Lemma emits_description (P : event -> Prop) c : emits P (description E c).
Proof. intros s; constructor. Qed.
End MonadFacts.

Create HintDb emits.
#[export] Hint Resolve emits_ret emits_raise emits_lift emits_call emits_bind
  emits_for_each emits_description : emits.

(** ** Which calls each method makes *)
Section Calls.
Variable E : Env.
Variable P : event -> Prop.

Lemma emits_description_of v : emits P (description_of E v).
Proof.
  destruct v; simpl; auto with emits.
  apply emits_bind; auto with emits. intros [cols|]; auto with emits.
Qed.

Lemma emits_fetchall_of v :
  (forall c, P (EFetchall c)) -> emits P (fetchall_of E v).
Proof.
  intros H. destruct v; simpl; auto with emits.
  apply emits_call, H.
Qed.

Lemma emits_bind_param cursor acc item :
  (forall t, P (EVar cursor t)) -> emits P (bind_param E cursor acc item).
Proof.
  intros H. destruct acc as [ps outs], item as [key v]. simpl.
  destruct (as_OUT v).
  - apply emits_bind; [apply emits_lift|]. intros t.
    apply emits_bind; [apply emits_call, H|]. intros out_param.
    apply emits_ret.
  - apply emits_bind; [apply emits_lift|]. intros v'. apply emits_ret.
Qed.

Lemma emits_prepare_proc_params cursor params :
  (forall t, P (EVar cursor t)) ->
  emits P (prepare_proc_params E cursor params).
Proof.
  intros H. destruct params; simpl; auto with emits.
  apply emits_for_each. intros; apply emits_bind_param, H.
Qed.

Hypothesis P_getvalue : forall v, P (EGetvalue v).
Hypothesis P_fetchall : forall c, P (EFetchall c).
Hypothesis P_commit : P ECommit.

Lemma emits_get_proc_output self cursor outs :
  self = QueryView E \/ self = DataTableView E ->
  emits P (get_proc_output self cursor outs).
Proof.
  intros [-> | ->]; simpl;
    [unfold QueryView_get_proc_output
    |unfold DataTableView_get_proc_output];
    apply emits_for_each; intros acc [key out_param];
    destruct (DbType_eqb _ _);
    repeat (first [ apply emits_bind; [|intros ?]
                  | apply emits_description_of
                  | apply emits_fetchall_of, P_fetchall
                  | apply emits_call, P_getvalue
                  | apply emits_ret ]).
Qed.

Lemma emits_call_procedure self cursor proc_name params :
  self = QueryView E \/ self = DataTableView E ->
  (forall t, P (EVar cursor t)) ->
  (forall args, P (ECallproc cursor proc_name args)) ->
  emits P (call_procedure self cursor proc_name params).
Proof.
  intros Hself Hvar Hcall. unfold call_procedure.
  apply emits_bind; [apply emits_prepare_proc_params, Hvar|].
  intros [ps outs].
  apply emits_bind; [apply emits_call, Hcall|]. intros _.
  apply emits_bind; [apply emits_call, P_commit|]. intros _.
  destruct outs; [apply emits_ret|].
  apply emits_bind; [apply emits_get_proc_output, Hself|].
  intros; apply emits_ret.
Qed.

Lemma emits_execute_query self cursor sql params :
  self = QueryView E \/ self = DataTableView E ->
  P (EExecute cursor sql params) ->
  emits P (execute_query self cursor sql params).
Proof.
  intros [-> | ->] Hex; simpl;
    [unfold QueryView_execute_query|unfold DataTableView_execute_query];
    (apply emits_bind; [apply emits_call, Hex|]; intros _;
     apply emits_bind; [apply emits_description|]; intros [[|col desc]|];
     repeat (first [ apply emits_bind; [|intros ?]
                   | apply emits_call; first [apply P_fetchall
                                             |apply P_commit]
                   | apply emits_ret ])).
Qed.
End Calls.

(** ** The statement dispatcher *)

Lemma not_startswith (s p : str) :
  startswith s p = false <-> forall rest, s <> p ++ rest.
Proof.
  split.
  - intros H rest Heq.
    assert (startswith s p = true) by (apply startswith_prefix; eauto).
    congruence.
  - intros H. destruct (startswith s p) eqn:Hs; [|reflexivity].
    apply startswith_prefix in Hs. destruct Hs as [rest Hs].
    destruct (H rest Hs).
Qed.

(** C1. [execute_sql] calls the procedure exactly when the text starts
    with the four characters [CALL] (upper case): the procedure's name is
    then the text without its first five characters, that is without the
    prefix and the one character after it. Every other text goes whole to
    [execute_query], also one with [CALL] further on, as
    ["SELECTCALL 1"]. The same holds of what reaches the driver. For a
    text that starts with [CALL], once the parameters are bound the next
    call is [callproc] with that name and the bound list; what
    [callproc] raises is passed on, and a call without OUT parameters
    that the driver accepts is committed and answered with the message.
    For any other text the first call of either endpoint is [execute]
    with the whole text and the parameters as they are; what [execute]
    raises is passed on, and a result set is fetched and returned in the
    endpoint's shape. No [callproc] is made for a text without the
    prefix and no [execute] for one with it. *)
Theorem execute_sql_dispatch (E : Env) (cursor : Cursor) (sql : str)
    (params : value) :
  (forall rest, sql = py "CALL" ++ rest ->
     forall self : View E,
       execute_sql self cursor (VStr sql) params
       = call_procedure self cursor (skipn 1 rest) params)
  /\ ((forall rest, sql <> py "CALL" ++ rest) ->
      forall self : View E,
        execute_sql self cursor (VStr sql) params
        = execute_query self cursor sql params)
  /\ (forall self : View E,
        self = QueryView E \/ self = DataTableView E ->
        emits (dispatched cursor sql)
          (execute_sql self cursor (VStr sql) params))
  /\ (forall rest, py "SELECTCALL 1" <> py "CALL" ++ rest)
  /\ skipn 5 (py "CALL my_proc") = py "my_proc"
  /\ (forall (self : View E) rest st ps outs s1 t1,
        sql = py "CALL" ++ rest ->
        prepare_proc_params E cursor params st = (Ok (ps, outs), s1, t1) ->
        (exists t,
           snd (execute_sql self cursor (VStr sql) params st)
           = t1 ++ ECallproc cursor (skipn 1 rest) ps :: t)
        /\ (forall e s2,
              cursor_callproc E cursor (skipn 1 rest) ps s1 = (Raise e, s2) ->
              execute_sql self cursor (VStr sql) params st
              = (Raise e, s2, t1 ++ [ECallproc cursor (skipn 1 rest) ps]))
        /\ (forall s2 s3,
              cursor_callproc E cursor (skipn 1 rest) ps s1 = (Ok tt, s2) ->
              connection_commit E s2 = (Ok tt, s3) ->
              outs = [] ->
              execute_sql self cursor (VStr sql) params st
              = (Ok (VDict [(py "message",
                             VStr (py "Вызов процедуры выполнен успешно"))]),
                 s3,
                 t1 ++ [ECallproc cursor (skipn 1 rest) ps; ECommit])))
  /\ (forall st,
        (forall rest, sql <> py "CALL" ++ rest) ->
        (forall self : View E,
           self = QueryView E \/ self = DataTableView E ->
           (exists t,
              snd (execute_sql self cursor (VStr sql) params st)
              = EExecute cursor sql params :: t)
           /\ forall e s1,
                cursor_execute E cursor sql params st = (Raise e, s1) ->
                execute_sql self cursor (VStr sql) params st
                = (Raise e, s1, [EExecute cursor sql params]))
        /\ (forall s1 col desc rows s2,
              cursor_execute E cursor sql params st = (Ok tt, s1) ->
              cursor_description E cursor s1 = Some (col :: desc) ->
              cursor_fetchall E cursor s1 = (Ok rows, s2) ->
              execute_sql (QueryView E) cursor (VStr sql) params st
              = (Ok (VList (map (row_dict (map fst (col :: desc))) rows)),
                 s2, [EExecute cursor sql params; EFetchall cursor])
              /\ execute_sql (DataTableView E) cursor (VStr sql) params st
                 = (Ok (VDict
                          [(py "columns", VDict (column_types (col :: desc)));
                           (py "rows", VList (map VList rows))]),
                    s2, [EExecute cursor sql params; EFetchall cursor]))).
Proof.
  split; [|split; [|split; [|split; [|split; [|split]]]]].
  - intros rest -> self. reflexivity.
  - intros H self. apply not_startswith in H.
    unfold execute_sql. rewrite H. reflexivity.
  - intros self Hself. unfold execute_sql.
    destruct (startswith sql (py "CALL")) eqn:Hs.
    + apply startswith_prefix in Hs.
      apply emits_call_procedure; simpl; auto.
    + pose proof (proj1 (not_startswith _ _) Hs) as Hn.
      apply emits_execute_query; simpl; auto.
  - intros rest H. discriminate H.
  - reflexivity.
  - intros self rest st ps outs s1 t1 -> Hprep.
    change (execute_sql self cursor (VStr (py "CALL" ++ rest)) params)
      with (call_procedure self cursor (skipn 1 rest) params).
    split; [|split].
    + unfold call_procedure. unfold bind at 1. rewrite Hprep.
      cbv beta iota zeta. unfold bind at 1. unfold callproc, call.
      cbv beta iota zeta.
      destruct (cursor_callproc E cursor (skipn 1 rest) ps s1)
        as [[[]|e] s2].
      * match goal with
        | |- context [bind ?m ?k s2] => destruct (bind m k s2) as [[r s3] t3]
        end.
        exists t3. reflexivity.
      * exists []. reflexivity.
    + intros e s2 Hcall.
      unfold call_procedure. unfold bind at 1. rewrite Hprep.
      cbv beta iota zeta. unfold bind at 1. unfold callproc, call.
      cbv beta iota zeta. rewrite Hcall. reflexivity.
    + intros s2 s3 Hcall Hcommit ->.
      unfold call_procedure. unfold bind at 1. rewrite Hprep.
      cbv beta iota zeta. unfold bind, callproc, commit, call.
      rewrite Hcall, Hcommit. reflexivity.
  - intros st Hnot. pose proof (proj2 (not_startswith _ _) Hnot) as Hs.
    split.
    + intros self Hself. unfold execute_sql. rewrite Hs.
      destruct Hself as [-> | ->]; simpl;
        [unfold QueryView_execute_query
        |unfold DataTableView_execute_query];
        (split;
         [unfold bind at 1; unfold execute, call;
          destruct (cursor_execute E cursor sql params st) as [[[]|e] s1];
          [match goal with
           | |- context [bind ?m ?k s1] =>
             destruct (bind m k s1) as [[r s2] t2]
           end; exists t2; reflexivity
          |exists []; reflexivity]
         |intros e s1 Hex; unfold bind at 1; unfold execute, call;
          rewrite Hex; reflexivity]).
    + intros s1 col desc rows s2 Hex Hdesc Hfetch.
      unfold execute_sql. rewrite Hs. simpl.
      unfold QueryView_execute_query, DataTableView_execute_query, bind,
        execute, call, description, fetchall.
      rewrite Hex, Hdesc. simpl. unfold call. rewrite Hfetch.
      split; reflexivity.
Qed.

(** On the sample driver: a call reaches [callproc] under the name
    [my_proc] and is committed; a query with [CALL] in the middle is
    executed whole and its rows fetched. *)
Lemma execute_sql_dispatch_witness :
  execute_sql (QueryView Sample.env) 0 (VStr (py "CALL my_proc")) (VDict [])
    Sample.fresh
  = (Ok (VDict [(py "message",
                 VStr (py "Вызов процедуры выполнен успешно"))]),
     Sample.mksession 0 1 None,
     [] ++ [ECallproc 0 (py "my_proc") []; ECommit])
  /\ execute_sql (QueryView Sample.env) 0 (VStr (py "SELECTCALL 1"))
       (VDict []) Sample.fresh
     = (Ok (VList (map (row_dict [py "ID"; py "NAME"]) (snd Sample.people))),
        Sample.mksession 0 0 (Some Sample.people),
        [EExecute 0 (py "SELECTCALL 1") (VDict []); EFetchall 0]).
Proof.
  split.
  - exact (proj2 (proj2
             (proj1 (proj2 (proj2 (proj2 (proj2 (proj2
                (execute_sql_dispatch Sample.env 0 (py "CALL my_proc")
                   (VDict []))))))) (QueryView Sample.env) (py " my_proc")
                Sample.fresh [] [] Sample.fresh [] eq_refl eq_refl))
             Sample.fresh (Sample.mksession 0 1 None) eq_refl eq_refl
             eq_refl).
  - refine (proj1
              (proj2
                 (proj2 (proj2 (proj2 (proj2 (proj2 (proj2
                    (execute_sql_dispatch Sample.env 0 (py "SELECTCALL 1")
                       (VDict [])))))))
                    Sample.fresh _)
                 (Sample.mksession 0 0 (Some Sample.people))
                 (py "ID", Sample.DB_TYPE_NUMBER)
                 [(py "NAME", Sample.DB_TYPE_VARCHAR)] (snd Sample.people)
                 (Sample.mksession 0 0 (Some Sample.people))
                 eq_refl eq_refl eq_refl)).
    intros rest H. discriminate H.
Defined.

(** ** The parameter binder *)
Section Shapes.
Variable digit : char -> bool.
Hypothesis digit_hyphen : digit hyphen = false.

Lemma digit_is_not (c x : char) :
  digit c = true -> digit x = false -> char_eqb c x = false.
Proof.
  intros Hc Hx. destruct (char_eqb c x) eqn:Heq; [|reflexivity].
  apply N.eqb_eq in Heq. congruence.
Qed.

Ltac split_classes H :=
  repeat match type of H with
         | (_ && _) = true =>
           let H1 := fresh "Hc" in
           apply andb_true_iff in H; destruct H as [H1 H]
         end.

Ltac next_char s H :=
  destruct s as [|? s]; simpl in H;
  [repeat rewrite andb_false_r in H; discriminate H|].

Ltac last_char s H :=
  destruct s as [|? s]; simpl in H;
  [|repeat rewrite andb_false_r in H; discriminate H].

Ltac count_chars :=
  repeat match goal with
         | H : digit ?c = true |- context [char_eqb ?c hyphen] =>
           rewrite (@digit_is_not c hyphen H) by assumption
         | H : digit ?c = true |- context [char_eqb ?c colon] =>
           rewrite (@digit_is_not c colon H) by assumption
         | H : is_char ?x ?c = true |- _ =>
           unfold is_char in H; apply N.eqb_eq in H; subst c
         end.

(** A string of the first pattern has ten characters, two of them
    hyphens. *)
Lemma matches_date_shaped (s : str) :
  matches_date digit s = true -> date_shaped s = true.
Proof.
  unfold matches_date, date_pattern. intros H.
  do 10 next_char s H. last_char s H.
  split_classes H. unfold date_shaped. simpl. count_chars. reflexivity.
Qed.

Hypothesis digit_colon : digit colon = false.

(** A string of the second pattern has nineteen characters, two of them
    hyphens and two colons. *)
Lemma matches_datetime_shaped (s : str) :
  matches_datetime digit s = true ->
  date_shaped s = false /\ datetime_shaped s = true.
Proof.
  unfold matches_datetime, datetime_pattern, date_pattern. intros H.
  do 19 next_char s H. last_char s H.
  split_classes H. unfold date_shaped, datetime_shaped. simpl.
  count_chars. split; reflexivity.
Qed.
End Shapes.

Section Binder.
Variable E : Env.

Lemma convert_dates_unshaped key v :
  (forall s, v = VStr s -> date_shaped s = false /\ datetime_shaped s = false)
  -> convert_dates E key v = Ok v.
Proof.
  intros H. destruct v; try reflexivity.
  destruct (H s eq_refl) as [H1 H2]. simpl. rewrite H1, H2. reflexivity.
Qed.

(** The binder raises nothing but its two [ValidationError]s, and only
    on a string of one of the two shapes that [strptime] refuses. *)
Lemma convert_dates_raises key v e :
  convert_dates E key v = Raise e ->
  exists s msg,
    v = VStr s
    /\ ((date_shaped s = true
         /\ strptime E s (py "%Y-%m-%d") = inl msg
         /\ e = date_error E key msg)
        \/ (date_shaped s = false /\ datetime_shaped s = true
            /\ strptime E s (py "%Y-%m-%d %H:%M:%S") = inl msg
            /\ e = datetime_error E key msg)).
Proof.
  destruct v; simpl; try discriminate.
  destruct (date_shaped s) eqn:H1.
  - destruct (strptime E s _) as [msg|d] eqn:Hp; [|discriminate].
    intros H; inversion H. exists s, msg. auto.
  - destruct (datetime_shaped s) eqn:H2; [|discriminate].
    destruct (strptime E s _) as [msg|d] eqn:Hp; [|discriminate].
    intros H; inversion H. exists s, msg. auto 6.
Qed.

Lemma bind_param_value cursor acc key v st :
  is_OUT v = false ->
  bind_param E cursor acc (key, v) st
  = (match convert_dates E key v with
     | Ok v' => Ok (fst acc ++ [v'], snd acc)
     | Raise e => Raise e
     end, st, []).
Proof.
  unfold is_OUT, bind_param. destruct acc as [ps outs].
  destruct (as_OUT v); [discriminate|]. intros _.
  destruct (convert_dates E key v); reflexivity.
Qed.

Lemma for_each_values cursor d :
  Forall (fun kv => is_OUT (snd kv) = false) d ->
  forall acc st,
    for_each d (bind_param E cursor) acc st
    = (match convert_all E d with
       | Ok l => Ok (fst acc ++ l, snd acc)
       | Raise e => Raise e
       end, st, []).
Proof.
  induction 1 as [|[key v] d Hv Hd IH]; intros acc st; simpl.
  - rewrite app_nil_r. destruct acc; reflexivity.
  - unfold bind. rewrite bind_param_value by exact Hv.
    destruct (convert_dates E key v) as [v'|e]; [|reflexivity].
    rewrite IH. simpl.
    destruct (convert_all E d); [|reflexivity].
    rewrite <- app_assoc. reflexivity.
Qed.

Lemma convert_all_Ok d l :
  convert_all E d = Ok l ->
  Forall2 (fun kv v' => convert_dates E (fst kv) (snd kv) = Ok v') d l.
Proof.
  revert l. induction d as [|[key v] d IH]; simpl; intros l H.
  - inversion H. constructor.
  - destruct (convert_dates E key v) as [v'|e] eqn:Hv; [|discriminate].
    destruct (convert_all E d) as [l'|e]; [|discriminate].
    inversion H. constructor; auto.
Qed.

Lemma convert_all_Raise d e :
  convert_all E d = Raise e ->
  exists key v, In (key, v) d /\ convert_dates E key v = Raise e.
Proof.
  induction d as [|[key v] d IH]; simpl; intros H; [discriminate|].
  destruct (convert_dates E key v) as [v'|e'] eqn:Hv.
  - destruct (convert_all E d) as [l'|e2]; [discriminate|].
    inversion H; subst. destruct (IH eq_refl) as (k & x & Hin & Hx).
    exists k, x. auto.
  - inversion H; subst. exists key, v. auto.
Qed.
End Binder.

(** C2. A parameter whose value is a string of the shape
    [\d{4}-\d{2}-\d{2}] is given to [strptime] with ["%Y-%m-%d"]: the
    binder appends the date it returns, and when [strptime] raises (the
    string is no calendar date) the binder raises a [ValidationError]
    whose text has the parameter's name in it. Stated for the body of the
    loop and for [prepare_proc_params] with the parameter anywhere in the
    mapping. *)
Theorem binder_converts_dates (E : Env) (digit : char -> bool)
    (cursor : Cursor) (key s : str) :
  digit hyphen = false ->
  matches_date digit s = true ->
  (forall acc st,
     bind_param E cursor acc (key, VStr s) st
     = match strptime E s (py "%Y-%m-%d") with
       | inr d => (Ok (fst acc ++ [VDatetime d], snd acc), st, [])
       | inl e => (Raise (date_error E key e), st, [])
       end)
  /\ (forall before after st,
        prepare_proc_params E cursor
          (VDict (before ++ (key, VStr s) :: after)) st
        = bind (prepare_proc_params E cursor (VDict before))
            (fun acc =>
               match strptime E s (py "%Y-%m-%d") with
               | inr d =>
                 for_each after (bind_param E cursor)
                   (fst acc ++ [VDatetime d], snd acc)
               | inl e => raise (date_error E key e)
               end) st)
  /\ (forall e, exists a b, date_error E key e = ValidationError (a ++ key ++ b)).
Proof.
  intros Hd Hm. apply (matches_date_shaped digit Hd) in Hm.
  assert (Hbody : forall acc st,
     bind_param E cursor acc (key, VStr s) st
     = match strptime E s (py "%Y-%m-%d") with
       | inr d => (Ok (fst acc ++ [VDatetime d], snd acc), st, [])
       | inl e => (Raise (date_error E key e), st, [])
       end).
  { intros acc st. rewrite bind_param_value by reflexivity.
    simpl. rewrite Hm. destruct (strptime E s _); reflexivity. }
  split; [exact Hbody|split].
  - intros before after st. simpl. rewrite for_each_app.
    apply bind_ext. intros acc s1. simpl. unfold bind.
    rewrite Hbody. destruct (strptime E s _) as [e|d]; [reflexivity|].
    simpl. destruct (for_each after _ _ s1) as [[r s2] t2]. reflexivity.
  - intros e. unfold date_error. eexists; eexists. reflexivity.
Qed.

(** On the sample driver: ["2024-13-40"] has the shape and is no date,
    ["2024-02-29"] is one. *)
Lemma binder_converts_dates_witness :
  prepare_proc_params Sample.env 0
    (VDict [(py "day", VStr (py "2024-13-40"))]) Sample.fresh
  = (Raise (date_error Sample.env (py "day")
              (py "time data does not match format")), Sample.fresh, [])
  /\ prepare_proc_params Sample.env 0
       (VDict [(py "day", VStr (py "2024-02-29"))]) Sample.fresh
     = (Ok ([VDatetime (mkdatetime 2024 2 29 0 0 0)], []), Sample.fresh, []).
Proof.
  split.
  - refine (eq_trans
              (proj1 (proj2 (@binder_converts_dates Sample.env ascii_digit 0
                               (py "day") (py "2024-13-40") eq_refl eq_refl))
                 [] [] Sample.fresh) _).
    reflexivity.
  - refine (eq_trans
              (proj1 (proj2 (@binder_converts_dates Sample.env ascii_digit 0
                               (py "day") (py "2024-02-29") eq_refl eq_refl))
                 [] [] Sample.fresh) _).
    reflexivity.
Defined.

(** C3, as the specification has it, fails: a string of ten characters
    with two hyphens that is not of the shape [\d{4}-\d{2}-\d{2}] is not
    passed through, and a string of the second shape that is no date-time
    is not converted. *)
Lemma binder_rejects_date_shaped_text :
  ~ (forall (E : Env) cursor key s acc st,
       matches_date ascii_digit s = false ->
       matches_datetime ascii_digit s = false ->
       bind_param E cursor acc (key, VStr s) st
       = (Ok (fst acc ++ [VStr s], snd acc), st, []))
  /\ ~ (forall (E : Env) cursor key s acc st,
          matches_datetime ascii_digit s = true ->
          exists d,
            bind_param E cursor acc (key, VStr s) st
            = (Ok (fst acc ++ [VDatetime d], snd acc), st, [])).
Proof.
  split.
  - intros H.
    specialize (H Sample.env 0 (py "p") (py "ab-cd-efgh") ([], [])
                  Sample.fresh eq_refl eq_refl).
    discriminate H.
  - intros H.
    destruct (H Sample.env 0 (py "p") (py "2024-13-40 25:61:61") ([], [])
                Sample.fresh eq_refl) as [d Hd].
    discriminate Hd.
Qed.

(** C3, amended. The binder looks at the length and at the number of
    hyphens and colons, not at the digits. A string that has neither ten
    characters with two hyphens, nor nineteen with two hyphens and two
    colons, is appended as it is. A string of the first kind goes to
    [strptime] with ["%Y-%m-%d"], one of the second kind with
    ["%Y-%m-%d %H:%M:%S"]: the binder appends the date-time returned, or
    raises its [ValidationError] when [strptime] raises. The strings of
    the shape [\d{4}-\d{2}-\d{2} \d{2}:\d{2}:\d{2}] are of the second
    kind. *)
Theorem binder_string_cases (E : Env) (cursor : Cursor) (key s : str)
    (acc : list value * dict Var) (st : db E) :
  (date_shaped s = false -> datetime_shaped s = false ->
   bind_param E cursor acc (key, VStr s) st
   = (Ok (fst acc ++ [VStr s], snd acc), st, []))
  /\ (date_shaped s = true ->
      bind_param E cursor acc (key, VStr s) st
      = match strptime E s (py "%Y-%m-%d") with
        | inr d => (Ok (fst acc ++ [VDatetime d], snd acc), st, [])
        | inl e => (Raise (date_error E key e), st, [])
        end)
  /\ (date_shaped s = false -> datetime_shaped s = true ->
      bind_param E cursor acc (key, VStr s) st
      = match strptime E s (py "%Y-%m-%d %H:%M:%S") with
        | inr d => (Ok (fst acc ++ [VDatetime d], snd acc), st, [])
        | inl e => (Raise (datetime_error E key e), st, [])
        end)
  /\ (forall digit, digit hyphen = false -> digit colon = false ->
      matches_datetime digit s = true ->
      date_shaped s = false /\ datetime_shaped s = true).
Proof.
  split; [|split; [|split]].
  - intros H1 H2. rewrite bind_param_value by reflexivity.
    simpl. rewrite H1, H2. reflexivity.
  - intros H1. rewrite bind_param_value by reflexivity.
    simpl. rewrite H1. destruct (strptime E s _); reflexivity.
  - intros H1 H2. rewrite bind_param_value by reflexivity.
    simpl. rewrite H1, H2. destruct (strptime E s _); reflexivity.
  - intros digit Hh Hc Hm. exact (matches_datetime_shaped digit Hh Hc s Hm).
Qed.

(** On the sample driver: a text that only looks like a date, a
    date-time, and a text of ten characters with two hyphens. *)
Lemma binder_string_cases_witness :
  bind_param Sample.env 0 ([], []) (py "p", VStr (py "2024-1-1")) Sample.fresh
  = (Ok ([VStr (py "2024-1-1")], []), Sample.fresh, [])
  /\ bind_param Sample.env 0 ([], [])
       (py "p", VStr (py "2024-01-31 23:59:58")) Sample.fresh
     = (Ok ([VDatetime (mkdatetime 2024 1 31 23 59 58)], []),
        Sample.fresh, [])
  /\ bind_param Sample.env 0 ([], []) (py "p", VStr (py "ab-cd-efgh"))
       Sample.fresh
     = (Raise (date_error Sample.env (py "p")
                 (py "time data does not match format")), Sample.fresh, [])
  /\ (date_shaped (py "2024-01-31 23:59:58") = false
      /\ datetime_shaped (py "2024-01-31 23:59:58") = true).
Proof.
  split; [|split; [|split]].
  - exact (proj1 (binder_string_cases Sample.env 0 (py "p") (py "2024-1-1")
                    ([], []) Sample.fresh) eq_refl eq_refl).
  - exact (proj1 (proj2 (proj2 (binder_string_cases Sample.env 0 (py "p")
                    (py "2024-01-31 23:59:58") ([], []) Sample.fresh)))
             eq_refl eq_refl).
  - exact (proj1 (proj2 (binder_string_cases Sample.env 0 (py "p")
                    (py "ab-cd-efgh") ([], []) Sample.fresh)) eq_refl).
  - exact (proj2 (proj2 (proj2 (binder_string_cases Sample.env 0 (py "p")
                    (py "2024-01-31 23:59:58") ([], []) Sample.fresh)))
             ascii_digit eq_refl eq_refl eq_refl).
Defined.

Lemma Forall2_nth_error A B (R : A -> B -> Prop) (l : list A) (l' : list B) :
  Forall2 R l l' ->
  forall i a, nth_error l i = Some a ->
    exists b, nth_error l' i = Some b /\ R a b.
Proof.
  induction 1 as [|x y l l' Hxy Hl IH]; intros [|i] a; simpl;
    try discriminate.
  - intros H; inversion H; subst. eauto.
  - apply IH.
Qed.

(** C4, as the specification has it, fails: without any OUT descriptor
    the binder may still return no list at all. *)
Lemma bind_without_OUT_may_raise :
  ~ (forall (E : Env) cursor d st,
       (forall key v, In (key, v) d -> is_OUT v = false) ->
       exists l outs st' t,
         prepare_proc_params E cursor (VDict d) st = (Ok (l, outs), st', t)
         /\ List.length l = List.length d).
Proof.
  intros H.
  destruct (H Sample.env 0 [(py "day", VStr (py "2024-13-40"))] Sample.fresh)
    as (l & outs & st' & t & Heq & _).
  - intros key v [Hin|[]]. inversion Hin. reflexivity.
  - discriminate Heq.
Qed.

(** C4, amended. For a mapping without OUT descriptors the binder calls
    nothing on the driver and leaves the session as it is. Either it
    raises the [ValidationError] of a string of one of the two date
    shapes that [strptime] refuses; or it returns no OUT variables and a
    list as long as the mapping, whose [i]-th element comes from the
    [i]-th entry: the date-time of a string of a date shape, and the
    value itself in every other case. *)
Theorem bind_without_OUT (E : Env) (cursor : Cursor) (d : dict value)
    (st : db E) :
  (forall key v, In (key, v) d -> is_OUT v = false) ->
  (exists l,
     prepare_proc_params E cursor (VDict d) st = (Ok (l, []), st, [])
     /\ List.length l = List.length d
     /\ Forall2 (fun kv v' => convert_dates E (fst kv) (snd kv) = Ok v') d l
     /\ (forall i key v,
           nth_error d i = Some (key, v) ->
           (forall s, v = VStr s ->
                      date_shaped s = false /\ datetime_shaped s = false) ->
           nth_error l i = Some v))
  \/ (exists key s msg,
        In (key, VStr s) d
        /\ ((date_shaped s = true
             /\ strptime E s (py "%Y-%m-%d") = inl msg
             /\ prepare_proc_params E cursor (VDict d) st
                = (Raise (date_error E key msg), st, []))
            \/ (date_shaped s = false /\ datetime_shaped s = true
                /\ strptime E s (py "%Y-%m-%d %H:%M:%S") = inl msg
                /\ prepare_proc_params E cursor (VDict d) st
                   = (Raise (datetime_error E key msg), st, [])))).
Proof.
  intros Hout.
  assert (Hall : Forall (fun kv => is_OUT (snd kv) = false) d).
  { apply Forall_forall. intros [key v] Hin. apply (Hout key v Hin). }
  simpl. rewrite (for_each_values E cursor Hall).
  destruct (convert_all E d) as [l|e] eqn:Hc.
  - left. exists l. pose proof (convert_all_Ok E d Hc) as HF.
    split; [reflexivity|split; [|split]].
    + symmetry. exact (Forall2_length HF).
    + exact HF.
    + intros i key v Hi Hv.
      destruct (Forall2_nth_error HF i Hi) as (v' & Hl & Hconv).
      simpl in Hconv. rewrite convert_dates_unshaped in Hconv by exact Hv.
      inversion Hconv; subst. exact Hl.
  - right. destruct (convert_all_Raise E d Hc) as (key & v & Hin & Hv).
    destruct (convert_dates_raises E key v Hv)
      as (s & msg & -> & [(H1 & Hp & ->) | (H1 & H2 & Hp & ->)]);
      exists key, s, msg; auto 7.
Qed.

(** On the sample driver: three values that stay and a date. *)
Lemma bind_without_OUT_witness :
  prepare_proc_params Sample.env 0
    (VDict [(py "a", VInt 5); (py "b", VStr (py "2024-02-29"));
            (py "c", VStr (py "x-y")); (py "d", VNone)]) Sample.fresh
  = (Ok ([VInt 5; VDatetime (mkdatetime 2024 2 29 0 0 0);
          VStr (py "x-y"); VNone], []), Sample.fresh, []).
Proof.
  destruct (@bind_without_OUT Sample.env 0
              [(py "a", VInt 5); (py "b", VStr (py "2024-02-29"));
               (py "c", VStr (py "x-y")); (py "d", VNone)] Sample.fresh)
    as [(l & Heq & _)
       | (key & s & msg & _ & [(_ & _ & Heq) | (_ & _ & _ & Heq)])].
  - intros key v [H|[H|[H|[H|[]]]]]; inversion H; reflexivity.
  - reflexivity.
  - discriminate Heq.
  - discriminate Heq.
Defined.

(** ** The result projector *)

Lemma dict_find_Forall V (P : str -> V -> Prop) (d : dict V) k v :
  Forall (fun kv => P (fst kv) (snd kv)) d ->
  dict_find d k = Some v -> P k v.
Proof.
  induction 1 as [|[k' v'] d Hkv Hd IH]; simpl; [discriminate|].
  destruct (str_eqb k' k) eqn:Heq.
  - apply str_eqb_eq in Heq. intros H; inversion H; subst. exact Hkv.
  - exact IH.
Qed.

Lemma dict_find_dict_set V (d : dict V) k v k' :
  dict_find (dict_set d k v) k'
  = if str_eqb k k' then Some v else dict_find d k'.
Proof.
  induction d as [|[k0 v0] d IH]; simpl.
  - reflexivity.
  - destruct (str_eqb k0 k) eqn:H0; simpl.
    + apply str_eqb_eq in H0; subst. destruct (str_eqb k k'); reflexivity.
    + rewrite IH. destruct (str_eqb k0 k') eqn:H1; [|reflexivity].
      apply str_eqb_eq in H1; subst.
      rewrite str_eqb_sym, H0. reflexivity.
Qed.

(** What a comprehension holds under a key is one of the values it was
    given for that key. *)
Lemma dict_find_fold V (l : list (str * V)) :
  forall acc k v,
    dict_find (fold_left (fun d kv => dict_set d (fst kv) (snd kv)) l acc) k
    = Some v ->
    In (k, v) l \/ dict_find acc k = Some v.
Proof.
  induction l as [|[k0 v0] l IH]; simpl; intros acc k v H; [auto|].
  apply IH in H. destruct H as [H|H]; [auto|].
  rewrite dict_find_dict_set in H.
  destruct (str_eqb k0 k) eqn:Heq; [|auto].
  apply str_eqb_eq in Heq. inversion H; subst. auto.
Qed.

Lemma dict_find_keys V (d : dict V) k :
  In k (keys d) -> exists v, dict_find d k = Some v.
Proof.
  induction d as [|[k0 v0] d IH]; simpl; [intros []|].
  destruct (str_eqb k0 k) eqn:Heq; [eauto|].
  intros [H|H]; [|auto]. subst. rewrite str_eqb_refl in Heq. discriminate.
Qed.

(** Every entry of the table is a pair: a semantic type and the key. *)
Lemma column_type_mapping_entries :
  Forall (fun kv =>
            exists sem, In sem semantic_types
                        /\ snd kv = VList [VStr sem; VStr (fst kv)])
         column_type_mapping.
Proof.
  unfold column_type_mapping, semantic_types.
  repeat (constructor;
          [eexists; split; [|reflexivity]; simpl; tauto|]).
  constructor.
Qed.

(** C5, as the specification has it, fails: the column of a NUMBER is
    not mapped to one of the four semantic types, but to a list. *)
Lemma get_column_type_not_semantic :
  ~ (forall column_type : DbType,
       exists sem, In sem semantic_types
                   /\ get_column_type column_type = VStr sem).
Proof.
  intros H.
  destruct (H (mkDbType (py "DB_TYPE_NUMBER"))) as (sem & _ & Heq).
  discriminate Heq.
Qed.

(** C5, amended. The table maps the name of a native type to a list of
    two strings, one of the four semantic types and that name; a native
    type the table lacks gets the bare string ["string"]. For a result
    set with a description, table mode returns [columns], with one key
    per column name and [get_column_type] of the column's type under it,
    and [rows], the fetched rows as lists in fetch order: for two columns
    of different names and two rows, exactly those two keys and those two
    rows. *)
Theorem table_projection (E : Env) :
  (forall column_type : DbType,
     (dict_find column_type_mapping (name column_type) = None
      /\ get_column_type column_type = VStr (py "string"))
     \/ (exists sem,
           In sem semantic_types
           /\ get_column_type column_type
              = VList [VStr sem; VStr (name column_type)]))
  /\ (forall cursor sql params st st1 st2 col desc rows,
        cursor_execute E cursor sql params st = (Ok tt, st1) ->
        cursor_description E cursor st1 = Some (col :: desc) ->
        cursor_fetchall E cursor st1 = (Ok rows, st2) ->
        DataTableView_execute_query E cursor sql params st
        = (Ok (VDict [(py "columns", VDict (column_types (col :: desc)));
                      (py "rows", VList (map VList rows))]),
           st2, [EExecute cursor sql params; EFetchall cursor])
        /\ wf_dict (column_types (col :: desc))
        /\ (forall k, In k (keys (column_types (col :: desc)))
                      <-> In k (map fst (col :: desc)))
        /\ (forall k, In k (keys (column_types (col :: desc))) ->
              exists t, In (k, t) (col :: desc)
                        /\ dict_find (column_types (col :: desc)) k
                           = Some (get_column_type t)))
  /\ (forall c1 c2 : column,
        fst c1 <> fst c2 ->
        column_types [c1; c2]
        = [(fst c1, get_column_type (snd c1));
           (fst c2, get_column_type (snd c2))])
  /\ (forall r1 r2 : list value,
        map VList [r1; r2] = [VList r1; VList r2]).
Proof.
  split; [|split; [|split]].
  - intros column_type. unfold get_column_type, dict_get.
    destruct (dict_find column_type_mapping (name column_type)) as [v|] eqn:Hf.
    + right.
      exact (dict_find_Forall
               (fun k v => exists sem, In sem semantic_types
                                       /\ v = VList [VStr sem; VStr k])
               _ column_type_mapping_entries Hf).
    + left. split; reflexivity.
  - intros cursor sql params st st1 st2 col desc rows Hex Hdesc Hfetch.
    split; [|split; [|split]].
    + unfold DataTableView_execute_query, bind, execute, call, description,
        fetchall.
      rewrite Hex, Hdesc. simpl. unfold call. rewrite Hfetch. reflexivity.
    + apply keys_dict_of.
    + intros k. unfold column_types.
      rewrite (proj2 (keys_dict_of _)), map_map. simpl. tauto.
    + intros k Hk. destruct (dict_find_keys _ k Hk) as [v Hv].
      unfold column_types, dict_of in *.
      destruct (dict_find_fold _ _ _ Hv) as [Hin|Hnil]; [|discriminate].
      apply in_map_iff in Hin. destruct Hin as ([k0 t] & Heq & Hin).
      inversion Heq; subst. exists t. split; [exact Hin|exact Hv].
  - intros c1 c2 Hne. unfold column_types. apply dict_of_NoDup. simpl.
    constructor; [intros [H|[]]; congruence|].
    constructor; [intros []|constructor].
  - reflexivity.
Qed.

(** On the sample driver: two columns, two rows. *)
Lemma table_projection_witness :
  DataTableView_execute_query Sample.env 0 (py "SELECT * FROM people")
    (VDict []) Sample.fresh
  = (Ok (VDict
           [(py "columns",
             VDict [(py "ID",
                     VList [VStr (py "number"); VStr (py "DB_TYPE_NUMBER")]);
                    (py "NAME",
                     VList [VStr (py "string");
                            VStr (py "DB_TYPE_VARCHAR")])]);
            (py "rows",
             VList [VList [VInt 1; VStr (py "Ann")];
                    VList [VInt 2; VStr (py "Bob")]])]),
     Sample.mksession 0 0 (Some Sample.people),
     [EExecute 0 (py "SELECT * FROM people") (VDict []); EFetchall 0])
  /\ column_types (fst Sample.people)
     = [(py "ID", get_column_type Sample.DB_TYPE_NUMBER);
        (py "NAME", get_column_type Sample.DB_TYPE_VARCHAR)].
Proof.
  split.
  - refine (eq_trans
              (proj1 (proj1 (proj2 (table_projection Sample.env))
                        0 (py "SELECT * FROM people") (VDict []) Sample.fresh
                        (Sample.mksession 0 0 (Some Sample.people))
                        (Sample.mksession 0 0 (Some Sample.people))
                        (py "ID", Sample.DB_TYPE_NUMBER)
                        [(py "NAME", Sample.DB_TYPE_VARCHAR)]
                        (snd Sample.people) eq_refl eq_refl eq_refl)) _).
    reflexivity.
  - apply (proj1 (proj2 (proj2 (table_projection Sample.env)))
             (py "ID", Sample.DB_TYPE_NUMBER)
             (py "NAME", Sample.DB_TYPE_VARCHAR)).
    simpl. discriminate.
Defined.

(** ** The output extractor *)
Section Extractor.
Variable E : Env.

Lemma bind_ret_r A (m : M E A) s : bind m ret s = m s.
Proof.
  unfold bind, ret. destruct (m s) as [[[a|e] s1] t1]; [|reflexivity].
  rewrite app_nil_r. reflexivity.
Qed.

Lemma bind_ext_l A B (m m' : M E A) (k : A -> M E B) s :
  m s = m' s -> bind m k s = bind m' k s.
Proof. intros H. unfold bind. rewrite H. reflexivity. Qed.

Lemma bind_Ok A B (m : M E A) (k : A -> M E B) s b s2 t :
  bind m k s = (Ok b, s2, t) ->
  exists a s1 t1 t2,
    m s = (Ok a, s1, t1) /\ k a s1 = (Ok b, s2, t2) /\ t = t1 ++ t2.
Proof.
  unfold bind. destruct (m s) as [[[a|e] s1] t1]; [|discriminate].
  destruct (k a s1) as [[r s3] t2] eqn:Hk. intros H. inversion H; subst.
  exists a, s1, t1, t2. auto.
Qed.

(** A loop that stores one value per item under the item's key is a
    map over the items, when the keys are distinct. *)
Lemma for_each_collect X (key : X -> str) (g : X -> M E value)
    (body : dict value -> X -> M E (dict value)) :
  (forall out item s,
     body out item s
     = bind (g item) (fun x => ret (dict_set out (key item) x)) s) ->
  forall xs acc s,
    NoDup (keys acc ++ map key xs) ->
    for_each xs body acc s
    = bind (map_M (fun item => x <- g item ;; ret (key item, x)) xs)
        (fun ys => ret (acc ++ ys)) s.
Proof.
  intros Hbody. induction xs as [|x xs IH]; intros acc s Hnd; simpl.
  - rewrite bind_ret_l, app_nil_r. reflexivity.
  - rewrite (@bind_ext_l _ _ _ _ _ _ (Hbody acc x s)).
    rewrite !bind_assoc. apply bind_ext. intros v s1.
    rewrite !bind_ret_l, bind_assoc.
    assert (Hfresh : ~ In (key x) (keys acc)).
    { intros Hin. apply NoDup_remove_2 in Hnd. apply Hnd.
      apply in_or_app; left; exact Hin. }
    rewrite dict_set_fresh by exact Hfresh. rewrite IH.
    + apply bind_ext. intros ys s2. rewrite bind_ret_l, <- app_assoc.
      reflexivity.
    + unfold keys. rewrite map_app, <- app_assoc. exact Hnd.
Qed.

Lemma DataTableView_body out (item : str * Var) s :
  (let '(key, out_param) := item in
   if DbType_eqb (var_type out_param) DB_TYPE_CURSOR then
     cursor_out <- getvalue E out_param ;;
     desc <- description_of E cursor_out ;;
     let columns := column_types desc in
     rows <- fetchall_of E cursor_out ;;
     ret (dict_set out key (table columns rows))
   else
     x <- getvalue E out_param ;;
     ret (dict_set out key x)) s
  = bind (if DbType_eqb (var_type (snd item)) DB_TYPE_CURSOR
          then nested_table E (snd item) else getvalue E (snd item))
      (fun x => ret (dict_set out (fst item) x)) s.
Proof.
  destruct item as [key out_param]. simpl.
  destruct (DbType_eqb _ _); [|reflexivity].
  unfold nested_table. rewrite !bind_assoc. apply bind_ext; intros c s1.
  rewrite !bind_assoc. apply bind_ext; intros desc s2.
  rewrite !bind_assoc. apply bind_ext; intros rows s3.
  rewrite bind_ret_l. reflexivity.
Qed.

Lemma QueryView_body out (item : str * Var) s :
  (let '(key, out_param) := item in
   if DbType_eqb (var_type out_param) DB_TYPE_CURSOR then
     cursor_out <- getvalue E out_param ;;
     desc <- description_of E cursor_out ;;
     let columns := map fst desc in
     rows <- fetchall_of E cursor_out ;;
     ret (dict_set out key (VList (map (row_dict columns) rows)))
   else
     x <- getvalue E out_param ;;
     ret (dict_set out key x)) s
  = bind (if DbType_eqb (var_type (snd item)) DB_TYPE_CURSOR
          then nested_rows E (snd item) else getvalue E (snd item))
      (fun x => ret (dict_set out (fst item) x)) s.
Proof.
  destruct item as [key out_param]. simpl.
  destruct (DbType_eqb _ _); [|reflexivity].
  unfold nested_rows. rewrite !bind_assoc. apply bind_ext; intros c s1.
  rewrite !bind_assoc. apply bind_ext; intros desc s2.
  rewrite !bind_assoc. apply bind_ext; intros rows s3.
  rewrite bind_ret_l. reflexivity.
Qed.

Lemma map_M_ext X Y (f f' : X -> M E Y) xs :
  (forall x s, f x s = f' x s) -> forall s, map_M f xs s = map_M f' xs s.
Proof.
  intros H. induction xs as [|x xs IH]; intros s; simpl; [reflexivity|].
  rewrite (@bind_ext_l _ _ _ _ _ _ (H x s)). apply bind_ext. intros y s1.
  apply bind_ext_l, IH.
Qed.

Lemma extract_unfold (nested : Var -> M E value) (item : str * Var) s :
  extract nested item s
  = bind (if DbType_eqb (var_type (snd item)) DB_TYPE_CURSOR
          then nested (snd item) else getvalue E (snd item))
      (fun x => ret (fst item, x)) s.
Proof. unfold extract. destruct (DbType_eqb _ _); reflexivity. Qed.

(** The keys of what a map over the OUT variables returns. *)
Lemma map_M_extract_keys (nested : Var -> M E value) outs :
  forall s out s' t,
    map_M (extract nested) outs s = (Ok out, s', t) ->
    keys out = keys outs.
Proof.
  induction outs as [|item outs IH]; simpl; intros s out s' t H.
  - inversion H. reflexivity.
  - apply bind_Ok in H. destruct H as (y & s1 & t1 & t2 & Hy & H & _).
    apply bind_Ok in H. destruct H as (ys & s2 & t3 & t4 & Hys & H & _).
    inversion H; subst. simpl. f_equal.
    + rewrite extract_unfold in Hy. apply bind_Ok in Hy.
      destruct Hy as (x & ? & ? & ? & _ & Hret & _).
      inversion Hret. reflexivity.
    + exact (IH _ _ _ _ Hys).
Qed.
End Extractor.

Section OutVariables.
Variable E : Env.
Variable cursor : Cursor.

Lemma bind_param_Ok acc key v st acc1 st1 t1 :
  bind_param E cursor acc (key, v) st = (Ok acc1, st1, t1) ->
  (is_OUT v = true /\ exists out_param,
      acc1 = (fst acc ++ [VVar out_param],
              dict_set (snd acc) key out_param))
  \/ (is_OUT v = false /\ exists v', acc1 = (fst acc ++ [v'], snd acc)).
Proof.
  destruct acc as [ps outs]. unfold bind_param, is_OUT.
  destruct (as_OUT v) as [descriptor|]; intros H.
  - left. split; [reflexivity|].
    apply bind_Ok in H. destruct H as (a & s1 & ? & ? & _ & H & _).
    apply bind_Ok in H. destruct H as (o & s2 & ? & ? & _ & H & _).
    inversion H. exists o. reflexivity.
  - right. split; [reflexivity|].
    apply bind_Ok in H. destruct H as (v' & s1 & ? & ? & _ & H & _).
    inversion H. exists v'. reflexivity.
Qed.

(** The OUT variables come out under the names of the OUT descriptors,
    in the order of the mapping. *)
Lemma for_each_out_keys d :
  forall acc st ps outs st' t,
    NoDup (keys (snd acc) ++ keys d) ->
    for_each d (bind_param E cursor) acc st = (Ok (ps, outs), st', t) ->
    keys outs
    = keys (snd acc) ++ map fst (filter (fun kv => is_OUT (snd kv)) d).
Proof.
  induction d as [|[key v] d IH]; intros acc st ps outs st' t Hnd H.
  - inversion H; subst. simpl. rewrite app_nil_r. reflexivity.
  - simpl in H. apply bind_Ok in H.
    destruct H as (acc1 & s1 & t1 & t2 & Hstep & Hrest & _).
    apply bind_param_Ok in Hstep.
    destruct Hstep as [[Hout [o ->]] | [Hout [v' ->]]]; simpl; rewrite Hout.
    + assert (Hfresh : ~ In key (keys (snd acc))).
      { intros Hin. apply NoDup_remove_2 in Hnd. apply Hnd.
        apply in_or_app; left; exact Hin. }
      rewrite dict_set_fresh in Hrest by exact Hfresh.
      assert (Hnd' : NoDup (keys (snd acc ++ [(key, o)]) ++ keys d)).
      { unfold keys. rewrite map_app, <- app_assoc. exact Hnd. }
      rewrite (IH (fst acc ++ [VVar o], snd acc ++ [(key, o)]) s1 ps outs
                 st' t2 Hnd' Hrest). simpl.
      unfold keys. rewrite map_app, <- app_assoc. reflexivity.
    + apply (IH (fst acc ++ [v'], snd acc) s1 ps outs st' t2);
        [|exact Hrest].
      simpl. apply NoDup_remove_1 in Hnd. exact Hnd.
Qed.
End OutVariables.

(** The names of the OUT descriptors of a request are distinct. *)
Lemma out_names_distinct (d : dict value) :
  wf_dict d -> NoDup (map fst (filter (fun kv => is_OUT (snd kv)) d)).
Proof.
  unfold wf_dict, keys.
  induction d as [|[name v] d IH]; simpl; intros Hwf; [constructor|].
  inversion Hwf as [|? ? Hnew Hrest]; subst.
  destruct (is_OUT v); simpl; [|auto].
  constructor; [|auto]. intros Hin. apply Hnew.
  apply in_map_iff in Hin. destruct Hin as (entry & Hname & Hin).
  apply filter_In in Hin. apply in_map_iff. exists entry. tauto.
Qed.

(** C6, as the specification has it, fails. On the row-list endpoint a
    cursor-typed OUT parameter comes back as a list of row objects, not
    as a table; and on the table endpoint the columns of the nested table
    are not under semantic types but under what [get_column_type]
    returns. *)
Lemma cursor_output_not_always_a_table :
  ~ (forall (E : Env) (self : View E) cursor key out_param st out st' t,
       self = QueryView E \/ self = DataTableView E ->
       var_type out_param = DB_TYPE_CURSOR ->
       get_proc_output self cursor [(key, out_param)] st = (Ok out, st', t) ->
       exists columns rows, dict_find out key = Some (table columns rows))
  /\ ~ (forall (E : Env) cursor key out_param st out st' t,
          var_type out_param = DB_TYPE_CURSOR ->
          DataTableView_get_proc_output E cursor [(key, out_param)] st
          = (Ok out, st', t) ->
          exists columns rows,
            dict_find out key = Some (table columns rows)
            /\ forall k v, In (k, v) columns ->
                 exists sem, In sem semantic_types /\ v = VStr sem).
Proof.
  split.
  - intros H.
    destruct (H Sample.env (QueryView Sample.env) 0 (py "c")
                (mkVar 0 DB_TYPE_CURSOR) Sample.fresh _ _ _
                (or_introl eq_refl) eq_refl eq_refl)
      as (columns & rows & Heq).
    discriminate Heq.
  - intros H.
    destruct (H Sample.env 0 (py "c") (mkVar 0 DB_TYPE_CURSOR) Sample.fresh
                _ _ _ eq_refl eq_refl)
      as (columns & rows & Heq & Hsem).
    inversion Heq; subst.
    destruct (Hsem _ _ (or_introl eq_refl)) as (sem & _ & Hv).
    discriminate Hv.
Qed.

(** C6, amended. After the call each endpoint returns one entry per OUT
    variable, under the variable's name and in the order of the OUT
    variables, which is the order of the OUT descriptors in the request.
    Under a variable that is not of the cursor type stands its value. Under
    one of the cursor type stands, on the table endpoint, the nested
    [{columns, rows}] with [get_column_type] of each column's type, and on
    the row-list endpoint the list of the rows as objects keyed by column
    name. If the driver raises on the way, so does the extractor. *)
Theorem get_proc_output_extracts (E : Env) :
  (forall cursor outs st,
     wf_dict outs ->
     DataTableView_get_proc_output E cursor outs st
     = map_M (extract (nested_table E)) outs st)
  /\ (forall cursor outs st,
        wf_dict outs ->
        QueryView_get_proc_output E cursor outs st
        = map_M (extract (nested_rows E)) outs st)
  /\ (forall (nested : Var -> M E value) outs st out st' t,
        map_M (extract nested) outs st = (Ok out, st', t) ->
        keys out = keys outs)
  /\ (forall cursor d st ps outs st' t,
        wf_dict d ->
        prepare_proc_params E cursor (VDict d) st = (Ok (ps, outs), st', t) ->
        keys outs = map fst (filter (fun kv => is_OUT (snd kv)) d)
        /\ wf_dict outs).
Proof.
  split; [|split; [|split]].
  - intros cursor outs st Hwf. unfold DataTableView_get_proc_output.
    rewrite (for_each_collect fst _ _ (DataTableView_body E)) by exact Hwf.
    rewrite bind_ret_r. apply map_M_ext. intros item s.
    symmetry. apply extract_unfold.
  - intros cursor outs st Hwf. unfold QueryView_get_proc_output.
    rewrite (for_each_collect fst _ _ (QueryView_body E)) by exact Hwf.
    rewrite bind_ret_r. apply map_M_ext. intros item s.
    symmetry. apply extract_unfold.
  - intros nested outs st out st' t H.
    exact (map_M_extract_keys nested outs st H).
  - intros cursor d st ps outs st' t Hwf H.
    assert (Hk : keys outs = map fst (filter (fun kv => is_OUT (snd kv)) d)).
    { exact (for_each_out_keys E cursor d ([], []) st Hwf H). }
    split; [exact Hk|]. unfold wf_dict. rewrite Hk.
    apply out_names_distinct. exact Hwf.
Qed.

(** On the sample driver: a number and a cursor, on the table endpoint;
    and the names under which the binder keeps the two variables. *)
Lemma get_proc_output_extracts_witness :
  DataTableView_get_proc_output Sample.env 0
    [(py "total", mkVar 0 Sample.DB_TYPE_NUMBER);
     (py "people", mkVar 1 DB_TYPE_CURSOR)] Sample.fresh
  = (Ok [(py "total", VInt 7);
         (py "people",
          table (column_types (fst Sample.people)) (snd Sample.people))],
     Sample.fresh,
     [EGetvalue (mkVar 0 Sample.DB_TYPE_NUMBER);
      EGetvalue (mkVar 1 DB_TYPE_CURSOR); EFetchall 2])
  /\ (exists ps outs st' t,
        prepare_proc_params Sample.env 0
          (VDict [(py "in", VInt 1);
                  (py "total",
                   VDict [(py "dir", VStr (py "OUT"));
                          (py "type", VStr (py "NUMBER"))]);
                  (py "people",
                   VDict [(py "dir", VStr (py "OUT"));
                          (py "type", VStr (py "CURSOR"))])]) Sample.fresh
        = (Ok (ps, outs), st', t)
        /\ keys outs = [py "total"; py "people"]).
Proof.
  assert (Hwf : wf_dict [(py "total", VNone); (py "people", VNone)]).
  { constructor; [intros [H|[]]; discriminate H|].
    constructor; [intros []|constructor]. }
  split.
  - refine (eq_trans
              (proj1 (get_proc_output_extracts Sample.env) 0
                 [(py "total", mkVar 0 Sample.DB_TYPE_NUMBER);
                  (py "people", mkVar 1 DB_TYPE_CURSOR)] Sample.fresh Hwf) _).
    reflexivity.
  - pose (d := [(py "in", VInt 1);
                (py "total",
                 VDict [(py "dir", VStr (py "OUT"));
                        (py "type", VStr (py "NUMBER"))]);
                (py "people",
                 VDict [(py "dir", VStr (py "OUT"));
                        (py "type", VStr (py "CURSOR"))])]).
    assert (Hd : wf_dict d).
    { constructor; [intros [H|[H|[]]]; discriminate H|].
      constructor; [intros [H|[]]; discriminate H|].
      constructor; [intros []|constructor]. }
    do 4 eexists. split; [reflexivity|].
    exact (proj1 (proj2 (proj2 (proj2 (get_proc_output_extracts Sample.env)))
                    0 d Sample.fresh _ _ _ _ Hd eq_refl)).
Defined.

(** ** Statements without a result set *)

(** C7. When the statement was executed and [cursor.description] is
    [None], table mode calls [commit] and then returns
    [{'columns': {}, 'rows': []}]: nothing is fetched, and the commit is
    the last call before the return (if the commit raises, so does the
    method). The older [OracleBaseView.execute_sql] commits in the same
    way and returns its own empty shape, with [columns] an empty list. *)
Theorem no_result_set_commits (E : Env) (cursor : Cursor) (sql : str)
    (params : value) (st st1 : db E) :
  cursor_execute E cursor sql params st = (Ok tt, st1) ->
  cursor_description E cursor st1 = None ->
  DataTableView_execute_query E cursor sql params st
  = (match fst (connection_commit E st1) with
     | Ok _ => Ok (VDict [(py "columns", VDict []); (py "rows", VList [])])
     | Raise e => Raise e
     end,
     snd (connection_commit E st1),
     [EExecute cursor sql params; ECommit])
  /\ OracleBaseView_execute_sql E cursor sql params st
     = (match fst (connection_commit E st1) with
        | Ok _ => Ok (VDict [(py "columns", VList []); (py "rows", VList [])])
        | Raise e => Raise e
        end,
        snd (connection_commit E st1),
        [EExecute cursor sql params; ECommit]).
Proof.
  intros Hex Hdesc. split.
  - unfold DataTableView_execute_query, bind, execute, call, description,
      commit.
    rewrite Hex, Hdesc. unfold call.
    destruct (connection_commit E st1) as [[[]|e] st2]; reflexivity.
  - unfold OracleBaseView_execute_sql, bind, execute, call, description,
      commit.
    rewrite Hex, Hdesc. unfold call.
    destruct (connection_commit E st1) as [[[]|e] st2]; reflexivity.
Qed.

(** On the sample driver: an UPDATE, committed once. *)
Lemma no_result_set_commits_witness :
  DataTableView_execute_query Sample.env 0 (py "UPDATE people SET id = 1")
    (VDict []) Sample.fresh
  = (Ok (VDict [(py "columns", VDict []); (py "rows", VList [])]),
     Sample.mksession 0 1 None,
     [EExecute 0 (py "UPDATE people SET id = 1") (VDict []); ECommit]).
Proof.
  exact (proj1 (@no_result_set_commits Sample.env 0
                  (py "UPDATE people SET id = 1") (VDict []) Sample.fresh
                  (Sample.mksession 0 0 None) eq_refl eq_refl)).
Defined.

(** ** The request handler *)
Section Handler.
Variable E : Env.
Variable self : View E.

Lemma transaction_starts sql params st :
  exists t, snd (transaction self sql params st) = EAcquire :: t.
Proof.
  unfold transaction, with_ at 1, acquire, call.
  destruct (pool_acquire E st) as [[[]|e] s1]; [|eexists; reflexivity].
  match goal with
  | |- context [with_ ?a ?b ?c s1] => destruct (with_ a b c s1) as [[r s2] t2]
  end.
  destruct (connection_close E s2) as [[[[]|e] s3] t3];
    eexists; reflexivity.
Qed.

Lemma respond_events outcome :
  exists t, snd (respond E outcome) = snd outcome ++ t.
Proof.
  destruct outcome as [[[v|e] s] t]; simpl.
  - exists []. rewrite app_nil_r. reflexivity.
  - eexists. reflexivity.
Qed.

Lemma respond_shape outcome :
  (exists result,
     fst (fst (respond E outcome))
     = mkResponse [(py "data", result)] HTTP_200_OK)
  \/ (exists message,
        fst (fst (respond E outcome)) = error_response message).
Proof.
  destruct outcome as [[[v|e] s] t]; simpl.
  - left. eexists. reflexivity.
  - right. unfold handle. destruct (is_oracledb_Error e); eexists;
      reflexivity.
Qed.
End Handler.

(** How the two [with] blocks run once the session is acquired and the
    cursor open. *)
Section Session.
Variable E : Env.
Variable self : View E.

(** The statements inside the two [with] blocks. *)
Let work (cursor : Cursor) (sql params : value) : M E value :=
  result <- execute_sql self cursor sql params ;;
  commit E ;;
  ret result.

Lemma transaction_opened sql params st s1 c s2 :
  pool_acquire E st = (Ok tt, s1) ->
  connection_cursor E s1 = (Ok c, s2) ->
  transaction self sql params st
  = (match fst (connection_exit E
                  (snd (cursor_exit E c (snd (fst (work c sql params s2))))))
     with
     | Raise e => Raise e
     | Ok _ =>
       match fst (cursor_exit E c (snd (fst (work c sql params s2)))) with
       | Raise e => Raise e
       | Ok _ => fst (fst (work c sql params s2))
       end
     end,
     snd (connection_exit E
            (snd (cursor_exit E c (snd (fst (work c sql params s2)))))),
     EAcquire :: EOpenCursor
     :: snd (work c sql params s2) ++ [ECloseCursor c; ERelease]).
Proof.
  intros Hacq Hcur.
  unfold transaction, with_, acquire, open_cursor, connection_close,
    cursor_close, call.
  rewrite Hacq, Hcur. fold (work c sql params).
  destruct (work c sql params s2) as [[r s3] t3]. simpl.
  destruct (cursor_exit E c s3) as [[[]|e1] s4]; simpl;
    destruct (connection_exit E s4) as [[[]|e2] s5]; simpl;
    rewrite <- ?app_assoc; reflexivity.
Qed.
End Session.

(** C8. Whatever exception the body of [try] ends with, [post] returns
    the response [{'error': message}] with status 400 and writes one
    line to the log. For an [oracledb.Error] the message is the fixed
    text ['Ошибка базы данных'] and the driver's detail goes to the log
    only; for every other exception, the binder's [ValidationError]
    among them, the message is [str(e)]. The two rejections before [try]
    are [{'error': ...}] with their own texts and status 400. Every
    request gets a response: [{'data': ...}] with status 200 or
    [{'error': ...}] with status 400. *)
Theorem post_reports_errors (E : Env) (self : View E) :
  (forall body st e st1 t,
     truthy (dict_get body (py "sql") VNone) = true ->
     transaction self (dict_get body (py "sql") VNone)
       (dict_get body (py "params") (VDict [])) st = (Raise e, st1, t) ->
     post self (VDict body) st
     = (mkResponse
          [(py "error",
            VStr match e with
                 | OracleError _ => py "Ошибка базы данных"
                 | _ => str_exn E e
                 end)] 400,
        st1,
        t ++ [ELogError
                (match e with
                 | OracleError _ => py "Database error: "
                 | _ => py "Unexpected error: "
                 end ++ str_exn E e)]))
  /\ (forall body st detail st1 t,
        truthy (dict_get body (py "sql") VNone) = true ->
        transaction self (dict_get body (py "sql") VNone)
          (dict_get body (py "params") (VDict [])) st
        = (Raise (OracleError detail), st1, t) ->
        post self (VDict body) st
        = (mkResponse [(py "error", VStr (py "Ошибка базы данных"))] 400,
           st1,
           t ++ [ELogError
                   (py "Database error: " ++ str_exn E (OracleError detail))]))
  /\ (forall body st detail st1 t,
        truthy (dict_get body (py "sql") VNone) = true ->
        transaction self (dict_get body (py "sql") VNone)
          (dict_get body (py "params") (VDict [])) st
        = (Raise (ValidationError detail), st1, t) ->
        post self (VDict body) st
        = (mkResponse
             [(py "error", VStr (str_exn E (ValidationError detail)))] 400,
           st1,
           t ++ [ELogError
                   (py "Unexpected error: "
                    ++ str_exn E (ValidationError detail))]))
  /\ (forall request st,
        (forall body, request <> VDict body) ->
        post self request st
        = (mkResponse [(py "error", VStr (py "Неверный формат данных"))] 400,
           st, []))
  /\ (forall body st,
        truthy (dict_get body (py "sql") VNone) = false ->
        post self (VDict body) st
        = (mkResponse
             [(py "error", VStr (py "SQL-запрос не предоставлен"))] 400,
           st, []))
  /\ (forall request st,
        (exists result,
           fst (fst (post self request st))
           = mkResponse [(py "data", result)] 200)
        \/ (exists message,
              fst (fst (post self request st))
              = mkResponse [(py "error", VStr message)] 400)).
Proof.
  assert (Hany : forall body st e st1 t,
     truthy (dict_get body (py "sql") VNone) = true ->
     transaction self (dict_get body (py "sql") VNone)
       (dict_get body (py "params") (VDict [])) st = (Raise e, st1, t) ->
     post self (VDict body) st
     = (mkResponse
          [(py "error",
            VStr match e with
                 | OracleError _ => py "Ошибка базы данных"
                 | _ => str_exn E e
                 end)] 400,
        st1,
        t ++ [ELogError
                (match e with
                 | OracleError _ => py "Database error: "
                 | _ => py "Unexpected error: "
                 end ++ str_exn E e)])).
  { intros body st e st1 t Hsql Hrun. unfold post. rewrite Hsql. simpl.
    rewrite Hrun. destruct e; reflexivity. }
  split; [exact Hany|split; [|split; [|split; [|split]]]].
  - intros body st detail st1 t Hsql Hrun.
    exact (Hany body st _ st1 t Hsql Hrun).
  - intros body st detail st1 t Hsql Hrun.
    exact (Hany body st _ st1 t Hsql Hrun).
  - intros request st Hnot. destruct request; try reflexivity.
    destruct (Hnot d eq_refl).
  - intros body st Hsql. unfold post. rewrite Hsql. reflexivity.
  - intros request st. destruct request;
      try (right; eexists; reflexivity).
    unfold post.
    destruct (truthy (dict_get d (py "sql") VNone)); simpl.
    + destruct (transaction self (dict_get d (py "sql") VNone)
                  (dict_get d (py "params") (VDict [])) st)
        as [[[result|e] st1] t]; simpl.
      * left. eexists. reflexivity.
      * right. destruct e; eexists; reflexivity.
    + right. eexists. reflexivity.
Qed.

(** On the sample driver: a statement the database refuses is answered
    with the fixed text, its detail in the log; a call with a date that
    is none is answered with the text of the binder's error. *)
Lemma post_reports_errors_witness :
  post (QueryView Sample.env)
    (VDict [(py "sql", VStr (py "DROP TABLE people"))]) Sample.fresh
  = (mkResponse [(py "error", VStr (py "Ошибка базы данных"))] 400,
     Sample.fresh,
     [EAcquire; EOpenCursor; EExecute 0 (py "DROP TABLE people") (VDict []);
      ECloseCursor 0; ERelease]
     ++ [ELogError (py "Database error: ORA-00900: invalid SQL statement")])
  /\ post (QueryView Sample.env)
       (VDict [(py "sql", VStr (py "CALL my_proc"));
               (py "params", VDict [(py "day", VStr (py "2024-13-40"))])])
       Sample.fresh
     = (mkResponse
          [(py "error",
            VStr (py "[ErrorDetail(string=" ++ Sample.double_quote
                  ++ py "Ошибка конвертации даты для параметра 'day': time data does not match format"
                  ++ Sample.double_quote ++ py ", code='invalid')]"))] 400,
        Sample.fresh,
        [EAcquire; EOpenCursor; ECloseCursor 0; ERelease]
        ++ [ELogError
              (py "Unexpected error: [ErrorDetail(string="
               ++ Sample.double_quote
               ++ py "Ошибка конвертации даты для параметра 'day': time data does not match format"
               ++ Sample.double_quote ++ py ", code='invalid')]")]).
Proof.
  split.
  - exact (proj1 (proj2 (post_reports_errors (QueryView Sample.env)))
             [(py "sql", VStr (py "DROP TABLE people"))] Sample.fresh
             (py "ORA-00900: invalid SQL statement") Sample.fresh
             [EAcquire; EOpenCursor;
              EExecute 0 (py "DROP TABLE people") (VDict []);
              ECloseCursor 0; ERelease] eq_refl eq_refl).
  - exact (proj1 (proj2 (proj2 (post_reports_errors (QueryView Sample.env))))
             [(py "sql", VStr (py "CALL my_proc"));
              (py "params", VDict [(py "day", VStr (py "2024-13-40"))])]
             Sample.fresh
             (py "Ошибка конвертации даты для параметра 'day': time data does not match format")
             Sample.fresh
             [EAcquire; EOpenCursor; ECloseCursor 0; ERelease]
             eq_refl eq_refl).
Defined.

(** ** OUT descriptors with a type the driver lacks *)

(** C9, as the specification has it, fails. The binder has no check of
    its own for the type of an OUT descriptor: a name the driver module
    lacks ends the binding with Python's [AttributeError], not with the
    binder's [ValidationError]; and this happens while the request is
    executed, with the session acquired and the cursor open, and is
    reported as an unexpected error. *)
Lemma unresolved_type_is_a_runtime_error :
  ~ (forall (E : Env) cursor acc key descriptor n st,
       dict_find descriptor (py "dir") = Some (VStr (py "OUT")) ->
       dict_find descriptor (py "type") = Some (VStr n) ->
       oracledb_getattr E n = None ->
       exists detail,
         fst (fst (bind_param E cursor acc (key, VDict descriptor) st))
         = Raise (ValidationError detail))
  /\ post (QueryView Sample.env)
       (VDict [(py "sql", VStr (py "CALL my_proc"));
               (py "params",
                VDict [(py "total",
                        VDict [(py "dir", VStr (py "OUT"));
                               (py "type", VStr (py "NOPE"))])])])
       Sample.fresh
     = (mkResponse
          [(py "error",
            VStr (py "module 'oracledb' has no attribute 'NOPE'"))] 400,
        Sample.fresh,
        [EAcquire; EOpenCursor; ECloseCursor 0; ERelease;
         ELogError
           (py "Unexpected error: module 'oracledb' has no attribute 'NOPE'")]).
Proof.
  split.
  - intros H.
    destruct (H Sample.env 0 ([], []) (py "total")
                [(py "dir", VStr (py "OUT")); (py "type", VStr (py "NOPE"))]
                (py "NOPE") Sample.fresh eq_refl eq_refl eq_refl)
      as [detail Hd].
    discriminate Hd.
  - reflexivity.
Qed.

(** C9, amended. The type of an OUT descriptor is looked up in the
    driver module when the parameter is bound, inside the request's
    transaction. For a name the module lacks the lookup raises
    [AttributeError], for a descriptor without ['type'] it raises
    [KeyError]. In both cases no variable is made for the descriptor,
    the parameters after it are not looked at, and the procedure is not
    called: the only calls made are the [cursor.var] of the parameters
    before it. And when the closing of the cursor and the return of the
    session do not raise themselves, [post] answers
    [{'error': str(e)}] with status 400 and logs the exception as an
    unexpected error. *)
Theorem unresolved_type_raises_at_bind (E : Env) (cursor : Cursor)
    (key : str) (descriptor : dict value) (e : exn) :
  dict_find descriptor (py "dir") = Some (VStr (py "OUT")) ->
  (exists n,
     dict_find descriptor (py "type") = Some (VStr n)
     /\ oracledb_getattr E n = None
     /\ e = AttributeError
              (py "module 'oracledb' has no attribute '" ++ n ++ py "'"))
  \/ (dict_find descriptor (py "type") = None
      /\ e = KeyError (py "type")) ->
  (forall acc st,
     bind_param E cursor acc (key, VDict descriptor) st = (Raise e, st, []))
  /\ (forall (self : View E) proc_name before after st acc st1 t1,
        prepare_proc_params E cursor (VDict before) st = (Ok acc, st1, t1) ->
        prepare_proc_params E cursor
          (VDict (before ++ (key, VDict descriptor) :: after)) st
        = (Raise e, st1, t1)
        /\ call_procedure self cursor proc_name
             (VDict (before ++ (key, VDict descriptor) :: after)) st
           = (Raise e, st1, t1)
        /\ Forall (fun ev => exists t, ev = EVar cursor t) t1)
  /\ (forall (self : View E) body rest before after st s1 s2 acc s3 t1 s4 s5,
        dict_get body (py "sql") VNone = VStr (py "CALL" ++ rest) ->
        dict_get body (py "params") (VDict [])
        = VDict (before ++ (key, VDict descriptor) :: after) ->
        pool_acquire E st = (Ok tt, s1) ->
        connection_cursor E s1 = (Ok cursor, s2) ->
        prepare_proc_params E cursor (VDict before) s2 = (Ok acc, s3, t1) ->
        cursor_exit E cursor s3 = (Ok tt, s4) ->
        connection_exit E s4 = (Ok tt, s5) ->
        post self (VDict body) st
        = (mkResponse [(py "error", VStr (str_exn E e))] 400,
           s5,
           (EAcquire :: EOpenCursor :: t1 ++ [ECloseCursor cursor; ERelease])
           ++ [ELogError (py "Unexpected error: " ++ str_exn E e)])).
Proof.
  intros Hdir He.
  assert (Hbody : forall acc st,
            bind_param E cursor acc (key, VDict descriptor) st
            = (Raise e, st, [])).
  { intros [ps outs] st. unfold bind_param, as_OUT. rewrite Hdir. simpl.
    unfold resolve_type.
    destruct He as [(n & Htype & Hattr & ->) | (Htype & ->)].
    - rewrite Htype, Hattr. reflexivity.
    - rewrite Htype. reflexivity. }
  assert (Hcall : forall (self : View E) proc_name before after st acc st1 t1,
            prepare_proc_params E cursor (VDict before) st = (Ok acc, st1, t1) ->
            prepare_proc_params E cursor
              (VDict (before ++ (key, VDict descriptor) :: after)) st
            = (Raise e, st1, t1)
            /\ call_procedure self cursor proc_name
                 (VDict (before ++ (key, VDict descriptor) :: after)) st
               = (Raise e, st1, t1)
            /\ Forall (fun ev => exists t, ev = EVar cursor t) t1).
  { intros self proc_name before after st acc st1 t1 Hpre.
    assert (Hprep : prepare_proc_params E cursor
                      (VDict (before ++ (key, VDict descriptor) :: after)) st
                    = (Raise e, st1, t1)).
    { simpl in *. rewrite for_each_app. unfold bind at 1. rewrite Hpre.
      simpl. unfold bind. rewrite Hbody. rewrite app_nil_r. reflexivity. }
    split; [exact Hprep|split].
    - unfold call_procedure, bind at 1. rewrite Hprep. reflexivity.
    - pose proof (@emits_prepare_proc_params E
                    (fun ev => exists t, ev = EVar cursor t) cursor
                    (VDict before) (fun t => ex_intro _ t eq_refl) st) as Hev.
      rewrite Hpre in Hev. exact Hev. }
  split; [exact Hbody|split; [exact Hcall|]].
  intros self body rest before after st s1 s2 acc s3 t1 s4 s5
    Hsql Hparams Hacq Hcur Hpre Hcx Hrx.
  destruct (Hcall self (skipn 1 rest) before after s2 acc s3 t1 Hpre)
    as (_ & Hrun & _).
  unfold post. rewrite Hsql, Hparams.
  change (truthy (VStr (py "CALL" ++ rest))) with true.
  cbv beta iota zeta delta [negb].
  rewrite (transaction_opened self _ _ st Hacq Hcur).
  change (execute_sql self cursor (VStr (py "CALL" ++ rest))
            (VDict (before ++ (key, VDict descriptor) :: after)))
    with (call_procedure self cursor (skipn 1 rest)
            (VDict (before ++ (key, VDict descriptor) :: after))).
  assert (Hwork : (result <- call_procedure self cursor (skipn 1 rest)
                               (VDict (before ++ (key, VDict descriptor)
                                       :: after)) ;;
                   commit E ;; ret result) s2
                  = (Raise e, s3, t1)).
  { unfold bind at 1. rewrite Hrun. reflexivity. }
  rewrite Hwork. cbn [fst snd]. rewrite Hcx. cbn [fst snd]. rewrite Hrx.
  destruct He as [(n & _ & _ & ->) | (_ & ->)]; reflexivity.
Qed.

(** On the sample driver: the second descriptor names no type of the
    driver; the first variable is made, the procedure is not called, and
    the request is answered with the text of the [AttributeError]. *)
Lemma unresolved_type_raises_at_bind_witness :
  post (QueryView Sample.env)
    (VDict [(py "sql", VStr (py "CALL my_proc"));
            (py "params",
             VDict ([(py "total",
                      VDict [(py "dir", VStr (py "OUT"));
                             (py "type", VStr (py "NUMBER"))])]
                    ++ (py "people",
                        VDict [(py "dir", VStr (py "OUT"));
                               (py "type", VStr (py "NOPE"))]) :: []))])
    Sample.fresh
  = (mkResponse
       [(py "error",
         VStr (py "module 'oracledb' has no attribute 'NOPE'"))] 400,
     Sample.mksession 1 0 None,
     (EAcquire :: EOpenCursor
      :: [EVar 0 (AttrDbType Sample.DB_TYPE_NUMBER)]
         ++ [ECloseCursor 0; ERelease])
     ++ [ELogError
           (py "Unexpected error: module 'oracledb' has no attribute 'NOPE'")]).
Proof.
  refine (proj2 (proj2
            (@unresolved_type_raises_at_bind Sample.env 0 (py "people")
               [(py "dir", VStr (py "OUT")); (py "type", VStr (py "NOPE"))]
               (AttributeError
                  (py "module 'oracledb' has no attribute 'NOPE'"))
               eq_refl _))
            (QueryView Sample.env)
            [(py "sql", VStr (py "CALL my_proc"));
             (py "params",
              VDict ([(py "total",
                       VDict [(py "dir", VStr (py "OUT"));
                              (py "type", VStr (py "NUMBER"))])]
                     ++ (py "people",
                         VDict [(py "dir", VStr (py "OUT"));
                                (py "type", VStr (py "NOPE"))]) :: []))]
            (py " my_proc")
            [(py "total",
              VDict [(py "dir", VStr (py "OUT"));
                     (py "type", VStr (py "NUMBER"))])] []
            Sample.fresh Sample.fresh Sample.fresh
            ([VVar (mkVar 0 Sample.DB_TYPE_NUMBER)],
             [(py "total", mkVar 0 Sample.DB_TYPE_NUMBER)])
            (Sample.mksession 1 0 None)
            [EVar 0 (AttrDbType Sample.DB_TYPE_NUMBER)]
            (Sample.mksession 1 0 None) (Sample.mksession 1 0 None)
            eq_refl eq_refl eq_refl eq_refl eq_refl eq_refl eq_refl).
  left. exists (py "NOPE"). repeat split; reflexivity.
Defined.

(** ** Requests without parameters *)

(** C10. A request that is a dict with a true ['sql'] and no ['params']
    is not rejected: [post] runs the transaction with the empty dict as
    parameters, beginning with the acquisition of a session, and answers
    with its outcome. [post] answers with one of its two rejections,
    without any call, exactly when the request is no dict or its ['sql']
    is missing or false. *)
Theorem post_defaults_params (E : Env) (self : View E) (st : db E) :
  (forall body sql,
     dict_find body (py "sql") = Some sql ->
     truthy sql = true ->
     dict_find body (py "params") = None ->
     post self (VDict body) st
     = respond E (transaction self sql (VDict []) st)
     /\ exists t, snd (post self (VDict body) st) = EAcquire :: t)
  /\ (forall request,
        (post self request st = (bad_format, st, [])
         \/ post self request st = (no_sql, st, []))
        <-> ((forall body, request <> VDict body)
             \/ exists body,
                  request = VDict body
                  /\ truthy (dict_get body (py "sql") VNone) = false)).
Proof.
  assert (Hrun : forall sql params,
            exists t, snd (respond E (transaction self sql params st))
                      = EAcquire :: t).
  { intros sql params.
    destruct (transaction_starts self sql params st) as [t Ht].
    destruct (respond_events E (transaction self sql params st)) as [t' Ht'].
    rewrite Ht'. rewrite Ht. simpl. eexists. reflexivity. }
  split.
  - intros body sql Hsql Htruthy Hparams.
    assert (Heq : post self (VDict body) st
                  = respond E (transaction self sql (VDict []) st)).
    { unfold post, dict_get. rewrite Hsql, Hparams, Htruthy. reflexivity. }
    split; [exact Heq|]. rewrite Heq. apply Hrun.
  - intros request. split.
    + intros Hrej. destruct request;
        try (left; intros body Hb; discriminate Hb).
      right. exists d. split; [reflexivity|].
      destruct (truthy (dict_get d (py "sql") VNone)) eqn:Htruthy;
        [|reflexivity].
      exfalso. unfold post in Hrej. rewrite Htruthy in Hrej. simpl in Hrej.
      destruct (Hrun (dict_get d (py "sql") VNone)
                  (dict_get d (py "params") (VDict []))) as [t Ht].
      destruct Hrej as [Hrej|Hrej]; rewrite Hrej in Ht; discriminate Ht.
    + intros [Hnot | (body & -> & Hfalse)].
      * left. destruct request; try reflexivity. destruct (Hnot d eq_refl).
      * right. unfold post. rewrite Hfalse. reflexivity.
Qed.

(** On the sample driver: a query without ['params']. *)
Lemma post_defaults_params_witness :
  post (DataTableView Sample.env)
    (VDict [(py "sql", VStr (py "UPDATE people SET id = 1"))]) Sample.fresh
  = (mkResponse
       [(py "data",
         VDict [(py "columns", VDict []); (py "rows", VList [])])]
       HTTP_200_OK,
     Sample.mksession 0 2 None,
     [EAcquire; EOpenCursor;
      EExecute 0 (py "UPDATE people SET id = 1") (VDict []);
      ECommit; ECommit; ECloseCursor 0; ERelease]).
Proof.
  rewrite (proj1 (proj1 (post_defaults_params (DataTableView Sample.env)
                           Sample.fresh)
                    [(py "sql", VStr (py "UPDATE people SET id = 1"))]
                    (VStr (py "UPDATE people SET id = 1"))
                    eq_refl eq_refl eq_refl)).
  reflexivity.
Defined.

(** * Further properties of the views *)

(** ** Rows as objects and the columns of a table *)

Lemma dict_find_fold_other V (l : list (str * V)) :
  forall acc k,
    ~ In k (map fst l) ->
    dict_find (fold_left (fun d kv => dict_set d (fst kv) (snd kv)) l acc) k
    = dict_find acc k.
Proof.
  induction l as [|[k0 v0] l IH]; simpl; intros acc k Hk; [reflexivity|].
  rewrite IH by tauto. rewrite dict_find_dict_set.
  destruct (str_eqb k0 k) eqn:Heq; [|reflexivity].
  apply str_eqb_eq in Heq. tauto.
Qed.

Lemma later_key_absent V (cs : list str) (xs : list V) c :
  (forall j, nth_error cs j <> Some c) -> ~ In c (map fst (combine cs xs)).
Proof.
  intros Hlater Hin. apply in_map_iff in Hin.
  destruct Hin as ([c' x'] & Hc & Hin). simpl in Hc; subst c'.
  apply in_combine_l in Hin. apply In_nth_error in Hin.
  destruct Hin as [j Hj]. exact (Hlater j Hj).
Qed.

Lemma zip_lookup V (columns : list str) :
  forall (row : list V) i c x acc,
    nth_error columns i = Some c ->
    nth_error row i = Some x ->
    (forall j, i < j -> nth_error columns j <> Some c) ->
    dict_find
      (fold_left (fun d kv => dict_set d (fst kv) (snd kv))
         (combine columns row) acc) c
    = Some x.
Proof.
  induction columns as [|c0 cs IH]; intros row i c x acc Hc Hx Hlast.
  - destruct i; discriminate Hc.
  - destruct row as [|x0 xs]; [destruct i; discriminate Hx|].
    destruct i as [|i]; simpl in *.
    + inversion Hc; inversion Hx; subst.
      rewrite dict_find_fold_other.
      * rewrite dict_find_dict_set, str_eqb_refl. reflexivity.
      * apply later_key_absent. intros j Hj.
        apply (Hlast (S j)); [apply PeanoNat.Nat.lt_0_succ|exact Hj].
    + apply (IH xs i c x); [exact Hc|exact Hx|].
      intros j Hij Hj.
      apply (Hlast (S j)); [apply (proj1 (PeanoNat.Nat.succ_lt_mono i j) Hij)
                           |exact Hj].
Qed.

(** X1. [dict(zip(columns, row))]: the value of a column is found under
    the column's name, provided no later column has the same name (of
    columns with one name the last one is kept); and for distinct names
    and a row as long as the description the object has the columns in
    the driver's order. *)
Theorem row_dict_lookup (columns : list str) (row : list value) :
  (forall i c x,
     nth_error columns i = Some c ->
     nth_error row i = Some x ->
     (forall j, i < j -> nth_error columns j <> Some c) ->
     exists d, row_dict columns row = VDict d /\ dict_find d c = Some x)
  /\ (NoDup columns -> List.length row = List.length columns ->
      row_dict columns row = VDict (combine columns row)
      /\ keys (combine columns row) = columns).
Proof.
  split.
  - intros i c x Hc Hx Hlast. eexists. split; [reflexivity|].
    unfold dict_of. exact (@zip_lookup _ columns row i c x [] Hc Hx Hlast).
  - intros Hnd Hlen.
    assert (Hk : map fst (combine columns row) = columns).
    { clear Hnd. revert row Hlen.
      induction columns as [|c cs IH]; intros [|x xs] Hlen; simpl in *;
        try reflexivity; try discriminate Hlen.
      f_equal. apply IH. inversion Hlen. reflexivity. }
    split; [|exact Hk]. unfold row_dict. f_equal.
    apply dict_of_NoDup. rewrite Hk. exact Hnd.
Qed.

(** A row of two columns, and one whose two columns share a name. *)
Lemma row_dict_lookup_witness :
  (exists d,
     row_dict [py "ID"; py "NAME"] [VInt 1; VStr (py "Ann")] = VDict d
     /\ dict_find d (py "NAME") = Some (VStr (py "Ann")))
  /\ (exists d,
        row_dict [py "A"; py "A"] [VInt 1; VInt 2] = VDict d
        /\ dict_find d (py "A") = Some (VInt 2))
  /\ row_dict [py "ID"; py "NAME"] [VInt 1; VStr (py "Ann")]
     = VDict [(py "ID", VInt 1); (py "NAME", VStr (py "Ann"))].
Proof.
  split; [|split].
  - apply (proj1 (row_dict_lookup [py "ID"; py "NAME"]
                    [VInt 1; VStr (py "Ann")]) 1 (py "NAME")
             (VStr (py "Ann")) eq_refl eq_refl).
    intros j Hj H.
    destruct j as [|[|j]];
      [inversion Hj | exact (PeanoNat.Nat.lt_irrefl 1 Hj)
      | destruct j; discriminate H].
  - apply (proj1 (row_dict_lookup [py "A"; py "A"] [VInt 1; VInt 2])
             1 (py "A") (VInt 2) eq_refl eq_refl).
    intros j Hj H.
    destruct j as [|[|j]];
      [inversion Hj | exact (PeanoNat.Nat.lt_irrefl 1 Hj)
      | destruct j; discriminate H].
  - apply (proj2 (row_dict_lookup [py "ID"; py "NAME"]
                    [VInt 1; VStr (py "Ann")])).
    + constructor; [intros [H|[]]; discriminate H|].
      constructor; [intros []|constructor].
    + reflexivity.
Defined.

Lemma combine_map_map A B C (f : A -> B) (g : A -> C) (l : list A) :
  combine (map f l) (map g l) = map (fun a => (f a, g a)) l.
Proof.
  induction l as [|a l IH]; simpl; [reflexivity|]. rewrite IH. reflexivity.
Qed.

Lemma dict_of_length V (l : list (str * V)) :
  List.length (dict_of l) <= List.length l
  /\ (List.length (dict_of l) = List.length l <-> NoDup (map fst l)).
Proof.
  destruct (keys_dict_of l) as [Hwf Hkeys].
  assert (Hlen : List.length (keys (dict_of l)) = List.length (dict_of l))
    by apply length_map.
  assert (Hlen' : List.length (map fst l) = List.length l)
    by apply length_map.
  split.
  - rewrite <- Hlen, <- Hlen'. apply NoDup_incl_length; [exact Hwf|].
    intros k Hk. apply Hkeys. exact Hk.
  - split.
    + intros Heq. apply (NoDup_incl_NoDup Hwf).
      * rewrite Hlen, Hlen', Heq. apply le_n.
      * intros k Hk. apply Hkeys. exact Hk.
    + intros Hnd. rewrite (dict_of_NoDup l Hnd). reflexivity.
Qed.

(** X2. The [columns] of a table, [{col[0]: get_column_type(col[1]) ...}]:
    it has at most one entry per column, and as many entries as the
    description has columns exactly when the column names are distinct
    (otherwise the rows are longer than [columns]); under a name stands
    the type of the last column of that name. *)
Theorem column_types_entries (desc : list column) :
  List.length (column_types desc) <= List.length desc
  /\ (List.length (column_types desc) = List.length desc
      <-> NoDup (map fst desc))
  /\ (forall i c t,
        nth_error desc i = Some (c, t) ->
        (forall j t', i < j -> nth_error desc j <> Some (c, t')) ->
        dict_find (column_types desc) c = Some (get_column_type t)).
Proof.
  unfold column_types.
  pose proof (dict_of_length
                (map (fun col : column =>
                        (fst col, get_column_type (snd col))) desc))
    as [Hle Hiff].
  rewrite length_map, map_map in *. simpl in Hiff.
  split; [exact Hle|split; [exact Hiff|]].
  intros i c t Hi Hlast.
  rewrite <- (combine_map_map fst (fun col => get_column_type (snd col))).
  unfold dict_of.
  apply (@zip_lookup _ (map fst desc)
           (map (fun col => get_column_type (snd col)) desc) i c
           (get_column_type t) []).
  - rewrite nth_error_map. unfold column in *. rewrite Hi. reflexivity.
  - rewrite nth_error_map. unfold column in *. rewrite Hi. reflexivity.
  - intros j Hij Hj. rewrite nth_error_map in Hj. unfold column in *.
    destruct (nth_error desc j) as [[c' t']|] eqn:Hd; [|discriminate Hj].
    simpl in Hj. inversion Hj; subst. exact (Hlast j t' Hij Hd).
Qed.

(** Two columns of one name: one entry, with the second column's type. *)
Lemma column_types_entries_witness :
  dict_find
    (column_types [(py "A", Sample.DB_TYPE_NUMBER);
                   (py "A", Sample.DB_TYPE_VARCHAR)]) (py "A")
  = Some (get_column_type Sample.DB_TYPE_VARCHAR)
  /\ NoDup (map fst (fst Sample.people)).
Proof.
  split.
  - apply (proj2 (proj2 (column_types_entries
                           [(py "A", Sample.DB_TYPE_NUMBER);
                            (py "A", Sample.DB_TYPE_VARCHAR)]))
             1 (py "A") Sample.DB_TYPE_VARCHAR eq_refl).
    intros j t' Hj H.
    destruct j as [|[|j]];
      [inversion Hj | exact (PeanoNat.Nat.lt_irrefl 1 Hj)
      | destruct j; discriminate H].
  - apply (proj1 (proj1 (proj2 (column_types_entries (fst Sample.people))))).
    reflexivity.
Defined.

(** ** The two endpoints toward the database *)
Section SameEffects.
Variable E : Env.

Lemma same_ret A B (a : A) (b : B) : same_effects (E:=E) (ret a) (ret b).
Proof. intros s. simpl. auto. Qed.

Lemma same_raise A B e : same_effects (E:=E) (A:=A) (B:=B) (raise e) (raise e).
Proof. intros s. simpl. auto. Qed.

Lemma same_bind A B A' B' (m1 : M E A) (m2 : M E A') (k1 : A -> M E B)
    (k2 : A' -> M E B') :
  same_effects m1 m2 ->
  (forall a a', same_effects (k1 a) (k2 a')) ->
  same_effects (bind m1 k1) (bind m2 k2).
Proof.
  intros Hm Hk s. unfold bind. destruct (Hm s) as (Ht & Hs & Hr).
  destruct (m1 s) as [[[a|e] s1] t1], (m2 s) as [[[a'|e'] s1'] t1'];
    simpl in *; subst; try contradiction; auto.
  destruct (Hk a a' s1') as (Ht2 & Hs2 & Hr2).
  destruct (k1 a s1') as [[r2 s2] t2], (k2 a' s1') as [[r2' s2'] t2'].
  simpl in *. subst. auto.
Qed.

Lemma same_bind_eq A B B' (m : M E A) (k1 : A -> M E B) (k2 : A -> M E B') :
  (forall a, same_effects (k1 a) (k2 a)) ->
  same_effects (bind m k1) (bind m k2).
Proof.
  intros Hk s. unfold bind. destruct (m s) as [[[a|e] s1] t1]; simpl; auto.
  destruct (Hk a s1) as (Ht2 & Hs2 & Hr2).
  destruct (k1 a s1) as [[r2 s2] t2], (k2 a s1) as [[r2' s2'] t2'].
  simpl in *. subst. auto.
Qed.

Lemma same_for_each A B X (body1 : A -> X -> M E A) (body2 : B -> X -> M E B)
    xs :
  (forall acc1 acc2 x, same_effects (body1 acc1 x) (body2 acc2 x)) ->
  forall acc1 acc2,
    same_effects (for_each xs body1 acc1) (for_each xs body2 acc2).
Proof.
  intros Hb. induction xs as [|x xs IH]; intros acc1 acc2; simpl.
  - apply same_ret.
  - apply same_bind; [apply Hb|]. intros a a'. apply IH.
Qed.

Lemma same_with X A B (enter : M E X) (exit : X -> M E unit)
    (body1 : X -> M E A) (body2 : X -> M E B) :
  (forall x, same_effects (body1 x) (body2 x)) ->
  same_effects (with_ enter exit body1) (with_ enter exit body2).
Proof.
  intros Hb s. unfold with_.
  destruct (enter s) as [[[x|e] s1] t1]; simpl; auto.
  destruct (Hb x s1) as (Ht2 & Hs2 & Hr2).
  destruct (body1 x s1) as [[r2 s2] t2], (body2 x s1) as [[r2' s2'] t2'].
  simpl in *. subst.
  destruct (exit x s2') as [[[[]|e3] s3] t3]; simpl; auto.
Qed.

Lemma same_get_proc_output cursor outs :
  same_effects (QueryView_get_proc_output E cursor outs)
    (DataTableView_get_proc_output E cursor outs).
Proof.
  apply same_for_each. intros acc1 acc2 [key out_param].
  destruct (DbType_eqb _ _).
  - apply same_bind_eq; intros cursor_out.
    apply same_bind_eq; intros desc.
    apply same_bind_eq; intros rows. apply same_ret.
  - apply same_bind_eq; intros x. apply same_ret.
Qed.

Lemma same_execute_query cursor sql params :
  same_effects (QueryView_execute_query E cursor sql params)
    (DataTableView_execute_query E cursor sql params).
Proof.
  apply same_bind_eq; intros _. apply same_bind_eq; intros [[|col desc]|].
  - apply same_bind_eq; intros _. apply same_ret.
  - apply same_bind_eq; intros rows. apply same_ret.
  - apply same_bind_eq; intros _. apply same_ret.
Qed.

Lemma same_execute_sql cursor sql params :
  same_effects (execute_sql (QueryView E) cursor sql params)
    (execute_sql (DataTableView E) cursor sql params).
Proof.
  destruct sql; try apply same_raise. unfold execute_sql.
  destruct (startswith s (py "CALL")); [|apply same_execute_query].
  unfold call_procedure. apply same_bind_eq; intros [ps outs].
  apply same_bind_eq; intros _. apply same_bind_eq; intros _.
  destruct outs; [apply same_ret|].
  apply same_bind; [apply same_get_proc_output|]. intros; apply same_ret.
Qed.

Lemma same_transaction sql params :
  same_effects (transaction (QueryView E) sql params)
    (transaction (DataTableView E) sql params).
Proof.
  apply same_with; intros _. apply same_with; intros cursor.
  apply same_bind; [apply same_execute_sql|]. intros a a'.
  apply same_bind_eq; intros _. apply same_ret.
Qed.
End SameEffects.

(** X3. The two endpoints differ in the shape of their answer only: for
    every request and every behaviour of the driver, [QueryView.post] and
    [DataTableView.post] make the same calls in the same order, leave
    the session in the same state, answer with the same status, and when
    that status is 400 with the same response. *)
Theorem endpoints_same_effects (E : Env) (request_data : value) (st : db E) :
  snd (post (QueryView E) request_data st)
  = snd (post (DataTableView E) request_data st)
  /\ snd (fst (post (QueryView E) request_data st))
     = snd (fst (post (DataTableView E) request_data st))
  /\ status (fst (fst (post (QueryView E) request_data st)))
     = status (fst (fst (post (DataTableView E) request_data st)))
  /\ (status (fst (fst (post (QueryView E) request_data st)))
      = HTTP_400_BAD_REQUEST ->
      fst (fst (post (QueryView E) request_data st))
      = fst (fst (post (DataTableView E) request_data st))).
Proof.
  destruct request_data; simpl; auto.
  destruct (truthy (dict_get d (py "sql") VNone)); simpl; auto.
  destruct (same_transaction E (dict_get d (py "sql") VNone)
              (dict_get d (py "params") (VDict [])) st) as (Ht & Hs & Hr).
  destruct (transaction (QueryView E) _ _ st) as [[[r1|e1] s1] t1],
           (transaction (DataTableView E) _ _ st) as [[[r2|e2] s2] t2];
    simpl in *; subst; try contradiction.
  - repeat split; auto. intros H. discriminate H.
  - repeat split; auto.
Qed.

(** On the sample driver: a statement the database refuses gets the same
    answer from both endpoints. *)
Lemma endpoints_same_effects_witness :
  fst (fst (post (QueryView Sample.env)
              (VDict [(py "sql", VStr (py "DROP TABLE people"))])
              Sample.fresh))
  = fst (fst (post (DataTableView Sample.env)
                (VDict [(py "sql", VStr (py "DROP TABLE people"))])
                Sample.fresh)).
Proof.
  exact (proj2 (proj2 (proj2
           (endpoints_same_effects Sample.env
              (VDict [(py "sql", VStr (py "DROP TABLE people"))])
              Sample.fresh))) eq_refl).
Defined.

(** ** Row-list mode *)

(** X4. [QueryView.execute_query]. If [execute] raises, nothing else is
    called. For a result set the method fetches once, does not commit,
    and returns one object per fetched row, in fetch order, each made of
    the column names and that row. With no description, or an empty one,
    it commits and returns the empty list. A failing [fetchall] is
    passed on. *)
Theorem QueryView_execute_query_rows (E : Env) (cursor : Cursor) (sql : str)
    (params : value) (st : db E) :
  (forall e st1,
     cursor_execute E cursor sql params st = (Raise e, st1) ->
     QueryView_execute_query E cursor sql params st
     = (Raise e, st1, [EExecute cursor sql params]))
  /\ (forall st1 col desc,
        cursor_execute E cursor sql params st = (Ok tt, st1) ->
        cursor_description E cursor st1 = Some (col :: desc) ->
        (forall rows st2,
           cursor_fetchall E cursor st1 = (Ok rows, st2) ->
           exists l,
             QueryView_execute_query E cursor sql params st
             = (Ok (VList l), st2, [EExecute cursor sql params; EFetchall cursor])
             /\ List.length l = List.length rows
             /\ forall i row,
                  nth_error rows i = Some row ->
                  nth_error l i
                  = Some (row_dict (map fst (col :: desc)) row))
        /\ (forall e st2,
              cursor_fetchall E cursor st1 = (Raise e, st2) ->
              QueryView_execute_query E cursor sql params st
              = (Raise e, st2,
                 [EExecute cursor sql params; EFetchall cursor])))
  /\ (forall st1,
        cursor_execute E cursor sql params st = (Ok tt, st1) ->
        cursor_description E cursor st1 = None
        \/ cursor_description E cursor st1 = Some [] ->
        QueryView_execute_query E cursor sql params st
        = (match fst (connection_commit E st1) with
           | Ok _ => Ok (VList [])
           | Raise e => Raise e
           end, snd (connection_commit E st1),
           [EExecute cursor sql params; ECommit])).
Proof.
  split; [|split].
  - intros e st1 Hex.
    unfold QueryView_execute_query, bind, execute, call. rewrite Hex.
    reflexivity.
  - intros st1 col desc Hex Hdesc. split.
    + intros rows st2 Hfetch. eexists. split; [|split].
      * unfold QueryView_execute_query, bind, execute, call, description,
          fetchall.
        rewrite Hex, Hdesc. simpl. unfold call. rewrite Hfetch. reflexivity.
      * apply length_map.
      * intros i row Hi. rewrite nth_error_map, Hi. reflexivity.
    + intros e st2 Hfetch.
      unfold QueryView_execute_query, bind, execute, call, description,
        fetchall.
      rewrite Hex, Hdesc. simpl. unfold call. rewrite Hfetch. reflexivity.
  - intros st1 Hex Hdesc.
    unfold QueryView_execute_query, bind, execute, call, description, commit.
    rewrite Hex. destruct Hdesc as [-> | ->]; unfold call;
      destruct (connection_commit E st1) as [[[]|e] st2]; reflexivity.
Qed.

(** On the sample driver: two rows, as objects. *)
Lemma QueryView_execute_query_rows_witness :
  exists l,
    QueryView_execute_query Sample.env 0 (py "SELECT * FROM people")
      (VDict []) Sample.fresh
    = (Ok (VList l), Sample.mksession 0 0 (Some Sample.people),
       [EExecute 0 (py "SELECT * FROM people") (VDict []); EFetchall 0])
    /\ List.length l = 2.
Proof.
  destruct (proj1 (proj1 (proj2
              (QueryView_execute_query_rows Sample.env 0
                 (py "SELECT * FROM people") (VDict []) Sample.fresh))
              (Sample.mksession 0 0 (Some Sample.people))
              (py "ID", Sample.DB_TYPE_NUMBER)
              [(py "NAME", Sample.DB_TYPE_VARCHAR)] eq_refl eq_refl)
              (snd Sample.people) (Sample.mksession 0 0 (Some Sample.people))
              eq_refl) as (l & Hrun & Hlen & _).
  exists l. split; [exact Hrun|exact Hlen].
Defined.

(** ** The binder, with OUT descriptors *)

Lemma convert_dates_value (E : Env) key v v' :
  convert_dates E key v = Ok v' ->
  (exists d, v' = VDatetime d) \/ v' = v.
Proof.
  destruct v; simpl; intros H; try (inversion H; auto; fail).
  destruct (date_shaped s).
  - destruct (strptime E s _); inversion H. eauto.
  - destruct (datetime_shaped s); [|inversion H; auto].
    destruct (strptime E s _); inversion H. eauto.
Qed.

(** X5. Date conversion is idempotent: what the binder has converted
    once it leaves alone when given it again, under any parameter
    name. *)
Theorem convert_dates_idempotent (E : Env) (key key' : str) (v v' : value) :
  convert_dates E key v = Ok v' -> convert_dates E key' v' = Ok v'.
Proof.
  intros H. destruct (convert_dates_value E key v H) as [[d ->] | ->].
  - reflexivity.
  - destruct v; try reflexivity. simpl in *.
    destruct (date_shaped s).
    + destruct (strptime E s _); discriminate H.
    + destruct (datetime_shaped s); [|reflexivity].
      destruct (strptime E s _); discriminate H.
Qed.

(** On the sample driver: a date, converted, stays as it is. *)
Lemma convert_dates_idempotent_witness :
  convert_dates Sample.env (py "again")
    (VDatetime (mkdatetime 2024 2 29 0 0 0))
  = Ok (VDatetime (mkdatetime 2024 2 29 0 0 0)).
Proof.
  exact (@convert_dates_idempotent Sample.env (py "day") (py "again")
           (VStr (py "2024-02-29")) _ eq_refl).
Defined.

Section BinderPositions.
Variable E : Env.
Variable cursor : Cursor.

Lemma bind_param_run acc key v st acc1 st1 t1 :
  bind_param E cursor acc (key, v) st = (Ok acc1, st1, t1) ->
  (exists descriptor a o,
      as_OUT v = Some descriptor
      /\ cursor_var E cursor a st = (Ok o, st1)
      /\ acc1 = (fst acc ++ [VVar o], dict_set (snd acc) key o)
      /\ t1 = [EVar cursor a])
  \/ (as_OUT v = None
      /\ exists v', convert_dates E key v = Ok v'
                    /\ acc1 = (fst acc ++ [v'], snd acc)
                    /\ st1 = st /\ t1 = []).
Proof.
  destruct acc as [ps outs]. unfold bind_param.
  destruct (as_OUT v) as [descriptor|]; intros H.
  - left. unfold bind, lift, make_var, call in H.
    destruct (resolve_type E descriptor) as [a|e]; simpl in H;
      [|discriminate H].
    destruct (cursor_var E cursor a st) as [[o|e] s2] eqn:Hv; simpl in H;
      [|discriminate H].
    inversion H; subst. exists descriptor, a, o. auto.
  - right. split; [reflexivity|]. unfold bind, lift in H.
    destruct (convert_dates E key v) as [v'|e]; simpl in H;
      [|discriminate H].
    inversion H; subst. exists v'. auto.
Qed.

Lemma for_each_positions d :
  forall acc st ps outs st' t,
    NoDup (keys d) ->
    for_each d (bind_param E cursor) acc st = (Ok (ps, outs), st', t) ->
    (exists ps', ps = fst acc ++ ps' /\ Forall2 (bound_as E outs) d ps')
    /\ (forall k o, dict_find (snd acc) k = Some o -> ~ In k (keys d) ->
                    dict_find outs k = Some o)
    /\ Forall (is_var_call cursor) t
    /\ List.length t
       = List.length (filter (fun kv => is_OUT (snd kv)) d).
Proof.
  induction d as [|[key v] d IH]; intros acc st ps outs st' t Hnd H.
  - inversion H; subst. simpl. repeat split; auto.
    exists []. rewrite app_nil_r. split; [reflexivity|constructor].
  - simpl in H. apply bind_Ok in H.
    destruct H as (acc1 & s1 & t1 & t2 & Hstep & Hrest & ->).
    inversion Hnd as [|? ? Hfresh Hnd']; subst.
    destruct (IH acc1 s1 ps outs st' t2 Hnd' Hrest)
      as ((ps' & Hps & HF) & Hkeep & Hev & Hlen).
    apply bind_param_run in Hstep.
    destruct Hstep as [(descriptor & a & o & Hout & _ & -> & ->)
                      | (Hout & v' & Hconv & -> & _ & ->)];
      simpl in *; unfold is_OUT; rewrite Hout.
    + assert (Ho : dict_find outs key = Some o).
      { apply Hkeep; [|exact Hfresh].
        rewrite dict_find_dict_set, str_eqb_refl. reflexivity. }
      split; [|split; [|split]].
      * exists (VVar o :: ps'). split.
        -- rewrite Hps, <- app_assoc. reflexivity.
        -- constructor; [|exact HF]. unfold bound_as. simpl. rewrite Hout.
           exists o. auto.
      * intros k o' Hk Hnot. apply Hkeep; [|tauto].
        rewrite dict_find_dict_set.
        destruct (str_eqb key k) eqn:Heq; [|exact Hk].
        apply str_eqb_eq in Heq. tauto.
      * constructor; [exists a; reflexivity|exact Hev].
      * simpl. rewrite Hlen. reflexivity.
    + split; [|split; [|split]].
      * exists (v' :: ps'). split.
        -- rewrite Hps, <- app_assoc. reflexivity.
        -- constructor; [|exact HF]. unfold bound_as. simpl. rewrite Hout.
           exact Hconv.
      * intros k o' Hk Hnot. apply Hkeep; [exact Hk|tauto].
      * exact Hev.
      * exact Hlen.
Qed.
End BinderPositions.

(** X6. What [prepare_proc_params] returns for a mapping with any mix of
    values and OUT descriptors: a list as long as the mapping, whose
    [i]-th element belongs to the [i]-th entry, the converted value for a
    value, and for an OUT descriptor the very variable that is kept under
    the entry's name in the second result. The only calls made are
    [cursor.var], one per OUT descriptor, so that there are as many
    variables as calls. *)
Theorem prepare_proc_params_positions (E : Env) (cursor : Cursor)
    (d : dict value) (st st' : db E) (ps : list value) (outs : dict Var)
    (t : list event) :
  wf_dict d ->
  prepare_proc_params E cursor (VDict d) st = (Ok (ps, outs), st', t) ->
  List.length ps = List.length d
  /\ Forall2 (bound_as E outs) d ps
  /\ Forall (is_var_call cursor) t
  /\ List.length t = List.length outs
  /\ List.length outs
     = List.length (filter (fun kv => is_OUT (snd kv)) d).
Proof.
  intros Hwf H. simpl in H.
  destruct (for_each_positions E cursor d ([], []) st Hwf H)
    as ((ps' & Hps & HF) & _ & Hev & Hlen).
  simpl in Hps. subst ps'.
  pose proof (for_each_out_keys E cursor d ([], []) st Hwf H) as Hk.
  simpl in Hk.
  assert (Hn : List.length outs
               = List.length (filter (fun kv => is_OUT (snd kv)) d)).
  { rewrite <- (length_map fst outs), <- (length_map fst (filter _ d)).
    unfold keys in Hk. rewrite Hk. reflexivity. }
  split; [symmetry; exact (Forall2_length HF)|].
  split; [exact HF|split; [exact Hev|split; [|exact Hn]]].
  rewrite Hlen, Hn. reflexivity.
Qed.

(** On the sample driver: a value, a number OUT and a cursor OUT. *)
Lemma prepare_proc_params_positions_witness :
  exists ps outs st' t,
    prepare_proc_params Sample.env 0
      (VDict [(py "in", VInt 1);
              (py "total",
               VDict [(py "dir", VStr (py "OUT"));
                      (py "type", VStr (py "NUMBER"))]);
              (py "people",
               VDict [(py "dir", VStr (py "OUT"));
                      (py "type", VStr (py "CURSOR"))])]) Sample.fresh
    = (Ok (ps, outs), st', t)
    /\ List.length ps = 3 /\ List.length t = List.length outs.
Proof.
  pose (d := [(py "in", VInt 1);
              (py "total",
               VDict [(py "dir", VStr (py "OUT"));
                      (py "type", VStr (py "NUMBER"))]);
              (py "people",
               VDict [(py "dir", VStr (py "OUT"));
                      (py "type", VStr (py "CURSOR"))])]).
  assert (Hd : wf_dict d).
  { constructor; [intros [H|[H|[]]]; discriminate H|].
    constructor; [intros [H|[]]; discriminate H|].
    constructor; [intros []|constructor]. }
  do 4 eexists. split; [reflexivity|].
  destruct (@prepare_proc_params_positions Sample.env 0 d Sample.fresh
              _ _ _ _ Hd eq_refl) as (Hlen & _ & _ & Ht & _).
  split; [exact Hlen|exact Ht].
Defined.

(** ** Calling a procedure *)

Lemma filter_nil A (p : A -> bool) (l : list A) :
  filter p l = [] <-> forall a, In a l -> p a = false.
Proof.
  induction l as [|a l IH]; simpl.
  - split; [intros _ a []|reflexivity].
  - destruct (p a) eqn:Hp.
    + split; [discriminate|]. intros H. rewrite (H a (or_introl eq_refl)) in Hp.
      discriminate Hp.
    + rewrite IH. split.
      * intros H x [<-|Hx]; auto.
      * intros H x Hx. apply H. auto.
Qed.

(** X7. A call that goes through. After the binder, [callproc] gets the
    procedure's name and the binder's list as it is, and then comes the
    commit. Without OUT descriptors the answer is the message alone,
    nothing is read back; with OUT descriptors the answer has the
    message and, under ['output'], what [get_proc_output] returns, read
    after the commit. There are OUT variables exactly when the request
    has an OUT descriptor. *)
Theorem call_procedure_result (E : Env) (self : View E) (cursor : Cursor)
    (proc_name : str) (d : dict value) (st s1 s2 s3 : db E)
    (ps : list value) (outs : dict Var) (t1 : list event) :
  wf_dict d ->
  prepare_proc_params E cursor (VDict d) st = (Ok (ps, outs), s1, t1) ->
  cursor_callproc E cursor proc_name ps s1 = (Ok tt, s2) ->
  connection_commit E s2 = (Ok tt, s3) ->
  (outs = [] <-> forall key v, In (key, v) d -> is_OUT v = false)
  /\ (outs = [] ->
      call_procedure self cursor proc_name (VDict d) st
      = (Ok (VDict [(py "message",
                     VStr (py "Вызов процедуры выполнен успешно"))]),
         s3, t1 ++ [ECallproc cursor proc_name ps; ECommit]))
  /\ (forall out s4 t4,
        outs <> [] ->
        get_proc_output self cursor outs s3 = (Ok out, s4, t4) ->
        call_procedure self cursor proc_name (VDict d) st
        = (Ok (VDict [(py "message",
                       VStr (py "Вызов процедуры выполнен успешно"));
                      (py "output", VDict out)]),
           s4, t1 ++ [ECallproc cursor proc_name ps; ECommit] ++ t4)).
Proof.
  intros Hwf Hprep Hcall Hcommit. split; [|split].
  - pose proof (for_each_out_keys E cursor d ([], []) st Hwf Hprep) as Hk.
    simpl in Hk. split.
    + intros -> key v Hin. simpl in Hk. symmetry in Hk.
      apply map_eq_nil in Hk.
      exact (proj1 (filter_nil _ d) Hk (key, v) Hin).
    + intros Hno.
      assert (Hf : filter (fun kv => is_OUT (snd kv)) d = []).
      { apply filter_nil. intros [key v] Hin. exact (Hno key v Hin). }
      rewrite Hf in Hk. unfold keys in Hk. apply map_eq_nil in Hk. exact Hk.
  - intros ->. unfold call_procedure, bind at 1. rewrite Hprep.
    unfold bind, callproc, commit, call. rewrite Hcall, Hcommit. reflexivity.
  - intros out s4 t4 Hne Hout. unfold call_procedure, bind at 1.
    rewrite Hprep. destruct outs as [|o outs]; [destruct (Hne eq_refl)|].
    unfold bind, callproc, commit, call. rewrite Hcall, Hcommit, Hout.
    simpl. rewrite app_nil_r. reflexivity.
Qed.

(** On the sample driver: a call without OUT descriptors. *)
Lemma call_procedure_result_witness :
  call_procedure (QueryView Sample.env) 0 (py "my_proc")
    (VDict [(py "since", VStr (py "2024-02-29"))]) Sample.fresh
  = (Ok (VDict [(py "message",
                 VStr (py "Вызов процедуры выполнен успешно"))]),
     Sample.mksession 0 1 None,
     [ECallproc 0 (py "my_proc") [VDatetime (mkdatetime 2024 2 29 0 0 0)];
      ECommit]).
Proof.
  assert (Hd : wf_dict [(py "since", VStr (py "2024-02-29"))]).
  { constructor; [intros []|constructor]. }
  exact (proj1 (proj2
           (@call_procedure_result Sample.env (QueryView Sample.env) 0
              (py "my_proc") [(py "since", VStr (py "2024-02-29"))]
              Sample.fresh Sample.fresh Sample.fresh
              (Sample.mksession 0 1 None)
              [VDatetime (mkdatetime 2024 2 29 0 0 0)] [] []
              Hd eq_refl eq_refl eq_refl)) eq_refl).
Defined.

(** X8. A call never commits what failed. If the binder raises, neither
    [callproc] nor [commit] is called: the only calls made are the
    [cursor.var] of the parameters before the failing one. If [callproc]
    raises, there is no commit; if the commit raises, nothing is read
    back. In each case the exception is passed on as it is. *)
Theorem call_procedure_failure_order (E : Env) (self : View E)
    (cursor : Cursor) (proc_name : str) (params : value) (st : db E) :
  (forall e s1 t1,
     prepare_proc_params E cursor params st = (Raise e, s1, t1) ->
     call_procedure self cursor proc_name params st = (Raise e, s1, t1)
     /\ Forall (is_var_call cursor) t1)
  /\ (forall ps outs s1 t1,
        prepare_proc_params E cursor params st = (Ok (ps, outs), s1, t1) ->
        (forall e s2,
           cursor_callproc E cursor proc_name ps s1 = (Raise e, s2) ->
           call_procedure self cursor proc_name params st
           = (Raise e, s2, t1 ++ [ECallproc cursor proc_name ps]))
        /\ (forall e s2 s3,
              cursor_callproc E cursor proc_name ps s1 = (Ok tt, s2) ->
              connection_commit E s2 = (Raise e, s3) ->
              call_procedure self cursor proc_name params st
              = (Raise e, s3,
                 t1 ++ [ECallproc cursor proc_name ps; ECommit]))).
Proof.
  split.
  - intros e s1 t1 Hprep. split.
    + unfold call_procedure, bind at 1. rewrite Hprep. reflexivity.
    + pose proof (@emits_prepare_proc_params E (is_var_call cursor) cursor
                    params (fun t => ex_intro _ t eq_refl) st) as Hev.
      rewrite Hprep in Hev. exact Hev.
  - intros ps outs s1 t1 Hprep. split.
    + intros e s2 Hcall. unfold call_procedure, bind at 1. rewrite Hprep.
      unfold bind, callproc, call. rewrite Hcall. reflexivity.
    + intros e s2 s3 Hcall Hcommit. unfold call_procedure, bind at 1.
      rewrite Hprep. unfold bind, callproc, commit, call.
      rewrite Hcall, Hcommit. reflexivity.
Qed.

(** On the sample driver: a procedure the database does not know. *)
Lemma call_procedure_failure_order_witness :
  call_procedure (QueryView Sample.env) 0 (py "no_such_proc")
    (VDict [(py "n", VInt 1)]) Sample.fresh
  = (Raise (OracleError (py "ORA-06550: identifier must be declared")),
     Sample.fresh, [ECallproc 0 (py "no_such_proc") [VInt 1]]).
Proof.
  exact (proj1 (proj2
           (call_procedure_failure_order (QueryView Sample.env) 0
              (py "no_such_proc") (VDict [(py "n", VInt 1)]) Sample.fresh)
           [VInt 1] [] Sample.fresh [] eq_refl)
           (OracleError (py "ORA-06550: identifier must be declared"))
           Sample.fresh eq_refl).
Defined.

(** X9. Reading the OUT variables comes after the commit: when
    [get_proc_output] raises, the request fails although the procedure
    has run and its work is committed. *)
Theorem call_procedure_fails_after_commit (E : Env) (self : View E)
    (cursor : Cursor) (proc_name : str) (params : value)
    (st s1 s2 s3 s4 : db E) (ps : list value) (item : str * Var)
    (outs : dict Var) (t1 t4 : list event) (e : exn) :
  prepare_proc_params E cursor params st = (Ok (ps, item :: outs), s1, t1) ->
  cursor_callproc E cursor proc_name ps s1 = (Ok tt, s2) ->
  connection_commit E s2 = (Ok tt, s3) ->
  get_proc_output self cursor (item :: outs) s3 = (Raise e, s4, t4) ->
  call_procedure self cursor proc_name params st
  = (Raise e, s4, t1 ++ [ECallproc cursor proc_name ps; ECommit] ++ t4).
Proof.
  intros Hprep Hcall Hcommit Hout. unfold call_procedure, bind at 1.
  rewrite Hprep. unfold bind, callproc, commit, call.
  rewrite Hcall, Hcommit, Hout. reflexivity.
Qed.

(** With procedures that leave the cursor unopened: the call is
    committed, and then the request fails. *)
Lemma call_procedure_fails_after_commit_witness :
  call_procedure (DataTableView unopened_env) 0 (py "my_proc")
    (VDict [(py "people",
             VDict [(py "dir", VStr (py "OUT"));
                    (py "type", VStr (py "CURSOR"))])]) Sample.fresh
  = (Raise (TypeError (py "'NoneType' object is not iterable")),
     Sample.mksession 1 1 None,
     [EVar 0 (AttrDbType DB_TYPE_CURSOR)]
     ++ [ECallproc 0 (py "my_proc") [VVar (mkVar 0 DB_TYPE_CURSOR)]; ECommit]
     ++ [EGetvalue (mkVar 0 DB_TYPE_CURSOR)]).
Proof.
  exact (@call_procedure_fails_after_commit unopened_env
           (DataTableView unopened_env) 0 (py "my_proc")
           (VDict [(py "people",
                    VDict [(py "dir", VStr (py "OUT"));
                           (py "type", VStr (py "CURSOR"))])])
           Sample.fresh (Sample.mksession 1 0 None)
           (Sample.mksession 1 0 None) (Sample.mksession 1 1 None)
           (Sample.mksession 1 1 None)
           [VVar (mkVar 0 DB_TYPE_CURSOR)]
           (py "people", mkVar 0 DB_TYPE_CURSOR) []
           [EVar 0 (AttrDbType DB_TYPE_CURSOR)]
           [EGetvalue (mkVar 0 DB_TYPE_CURSOR)]
           (TypeError (py "'NoneType' object is not iterable"))
           eq_refl eq_refl eq_refl eq_refl).
Defined.

(** ** Reading the OUT variables *)

(** X10. A cursor-typed OUT variable that cannot be read ends the
    extraction, on either endpoint: if its cursor has no description
    (the procedure never opened it) with [TypeError], if its value is no
    cursor at all with [AttributeError], and if [getvalue] raises with
    that exception. Nothing is fetched, the variables after it are not
    read, and what was read before is not returned. *)
Theorem get_proc_output_unreadable_cursor (E : Env) (self : View E)
    (cursor : Cursor) (before after : dict Var) (key : str) (out_param : Var)
    (st s1 : db E) (acc : dict value) (t1 : list event) :
  self = QueryView E \/ self = DataTableView E ->
  get_proc_output self cursor before st = (Ok acc, s1, t1) ->
  DbType_eqb (var_type out_param) DB_TYPE_CURSOR = true ->
  (forall c s2,
     var_getvalue E out_param s1 = (Ok (VCursor c), s2) ->
     cursor_description E c s2 = None ->
     get_proc_output self cursor (before ++ (key, out_param) :: after) st
     = (Raise (TypeError (py "'NoneType' object is not iterable")), s2,
        t1 ++ [EGetvalue out_param]))
  /\ (forall v s2,
        var_getvalue E out_param s1 = (Ok v, s2) ->
        (forall c, v <> VCursor c) ->
        get_proc_output self cursor (before ++ (key, out_param) :: after) st
        = (Raise (no_attribute v (py "description")), s2,
           t1 ++ [EGetvalue out_param]))
  /\ (forall e s2,
        var_getvalue E out_param s1 = (Raise e, s2) ->
        get_proc_output self cursor (before ++ (key, out_param) :: after) st
        = (Raise e, s2, t1 ++ [EGetvalue out_param])).
Proof.
  intros Hself Hpre Htype.
  destruct Hself as [-> | ->]; simpl in *;
    [unfold QueryView_get_proc_output in *
    |unfold DataTableView_get_proc_output in *];
    (split; [|split]).
  - intros c s2 Hget Hdesc. rewrite for_each_app. unfold bind at 1.
    rewrite Hpre. simpl. rewrite Htype. unfold bind at 1 2.
    unfold getvalue, call. rewrite Hget. simpl.
    unfold bind, description. rewrite Hdesc. reflexivity.
  - intros v s2 Hget Hv. rewrite for_each_app. unfold bind at 1.
    rewrite Hpre. simpl. rewrite Htype. unfold bind at 1 2.
    unfold getvalue, call. rewrite Hget.
    destruct v; try reflexivity. destruct (Hv c eq_refl).
  - intros e s2 Hget. rewrite for_each_app. unfold bind at 1.
    rewrite Hpre. simpl. rewrite Htype. unfold bind at 1 2.
    unfold getvalue, call. rewrite Hget. reflexivity.
  - intros c s2 Hget Hdesc. rewrite for_each_app. unfold bind at 1.
    rewrite Hpre. simpl. rewrite Htype. unfold bind at 1 2.
    unfold getvalue, call. rewrite Hget. simpl.
    unfold bind, description. rewrite Hdesc. reflexivity.
  - intros v s2 Hget Hv. rewrite for_each_app. unfold bind at 1.
    rewrite Hpre. simpl. rewrite Htype. unfold bind at 1 2.
    unfold getvalue, call. rewrite Hget.
    destruct v; try reflexivity. destruct (Hv c eq_refl).
  - intros e s2 Hget. rewrite for_each_app. unfold bind at 1.
    rewrite Hpre. simpl. rewrite Htype. unfold bind at 1 2.
    unfold getvalue, call. rewrite Hget. reflexivity.
Qed.

(** With procedures that leave the cursor unopened: the number is read,
    the cursor cannot be, and the number is lost with it. *)
Lemma get_proc_output_unreadable_cursor_witness :
  get_proc_output (DataTableView unopened_env) 0
    ([(py "total", mkVar 0 Sample.DB_TYPE_NUMBER)]
     ++ (py "people", mkVar 1 DB_TYPE_CURSOR) :: []) Sample.fresh
  = (Raise (TypeError (py "'NoneType' object is not iterable")),
     Sample.fresh,
     [EGetvalue (mkVar 0 Sample.DB_TYPE_NUMBER)]
     ++ [EGetvalue (mkVar 1 DB_TYPE_CURSOR)]).
Proof.
  exact (proj1
           (@get_proc_output_unreadable_cursor unopened_env
              (DataTableView unopened_env) 0
              [(py "total", mkVar 0 Sample.DB_TYPE_NUMBER)] []
              (py "people") (mkVar 1 DB_TYPE_CURSOR)
              Sample.fresh Sample.fresh [(py "total", VInt 7)]
              [EGetvalue (mkVar 0 Sample.DB_TYPE_NUMBER)]
              (or_intror eq_refl) eq_refl eq_refl)
           2 Sample.fresh eq_refl eq_refl).
Defined.

(** ** The session of a request *)

(** X11. The session is given back on every path. If [pool.acquire()]
    raises, nothing else is called. Once it has returned, the
    connection's [__exit__] is the last call of the transaction whatever
    happens in between; and once the cursor is open, it is closed just
    before, also when the statement raises, in which case [post] does
    not commit. If [connection.cursor()] raises, the connection is still
    given back. *)
Theorem transaction_releases (E : Env) (self : View E) (sql params : value)
    (st : db E) :
  (forall e s1,
     pool_acquire E st = (Raise e, s1) ->
     transaction self sql params st = (Raise e, s1, [EAcquire]))
  /\ (forall s1,
        pool_acquire E st = (Ok tt, s1) ->
        (exists t,
           snd (transaction self sql params st) = EAcquire :: t ++ [ERelease])
        /\ (forall e s2,
              connection_cursor E s1 = (Raise e, s2) ->
              snd (transaction self sql params st)
              = [EAcquire; EOpenCursor; ERelease])
        /\ (forall c s2,
              connection_cursor E s1 = (Ok c, s2) ->
              snd (transaction self sql params st)
              = EAcquire :: EOpenCursor
                :: snd (bind (execute_sql self c sql params)
                          (fun result => bind (commit E)
                                           (fun _ => ret result)) s2)
                   ++ [ECloseCursor c; ERelease]
              /\ forall e s3 t3 s4 s5,
                   execute_sql self c sql params s2 = (Raise e, s3, t3) ->
                   cursor_exit E c s3 = (Ok tt, s4) ->
                   connection_exit E s4 = (Ok tt, s5) ->
                   transaction self sql params st
                   = (Raise e, s5,
                      EAcquire :: EOpenCursor
                      :: t3 ++ [ECloseCursor c; ERelease]))).
Proof.
  split.
  - intros e s1 Hacq. unfold transaction, with_, acquire, call.
    rewrite Hacq. reflexivity.
  - intros s1 Hacq.
    assert (Hcur_fail : forall e s2,
              connection_cursor E s1 = (Raise e, s2) ->
              snd (transaction self sql params st)
              = [EAcquire; EOpenCursor; ERelease]).
    { intros e s2 Hcur.
      unfold transaction, with_, acquire, open_cursor, connection_close, call.
      rewrite Hacq, Hcur.
      destruct (connection_exit E s2) as [[[]|e2] s3]; reflexivity. }
    assert (Hcur_ok : forall c s2,
              connection_cursor E s1 = (Ok c, s2) ->
              snd (transaction self sql params st)
              = EAcquire :: EOpenCursor
                :: snd (bind (execute_sql self c sql params)
                          (fun result => bind (commit E)
                                           (fun _ => ret result)) s2)
                   ++ [ECloseCursor c; ERelease]).
    { intros c s2 Hcur.
      rewrite (transaction_opened self sql params st Hacq Hcur).
      reflexivity. }
    split; [|split; [exact Hcur_fail|]].
    + destruct (connection_cursor E s1) as [[c|e] s2] eqn:Hcur.
      * rewrite (Hcur_ok c s2 eq_refl).
        exists (EOpenCursor
                :: snd (bind (execute_sql self c sql params)
                          (fun result => bind (commit E)
                                           (fun _ => ret result)) s2)
                   ++ [ECloseCursor c]).
        simpl. rewrite <- app_assoc. reflexivity.
      * rewrite (Hcur_fail e s2 eq_refl). exists [EOpenCursor]. reflexivity.
    + intros c s2 Hcur. split; [exact (Hcur_ok c s2 Hcur)|].
      intros e s3 t3 s4 s5 Hex Hcx Hrx.
      rewrite (transaction_opened self sql params st Hacq Hcur).
      unfold bind. rewrite Hex. simpl. rewrite Hcx. simpl. rewrite Hrx.
      reflexivity.
Qed.

(** On the sample driver: a statement the database refuses; the cursor
    is closed and the session given back, without a commit. *)
Lemma transaction_releases_witness :
  transaction (QueryView Sample.env) (VStr (py "DROP TABLE people"))
    (VDict []) Sample.fresh
  = (Raise (OracleError (py "ORA-00900: invalid SQL statement")),
     Sample.fresh,
     EAcquire :: EOpenCursor
     :: [EExecute 0 (py "DROP TABLE people") (VDict [])]
        ++ [ECloseCursor 0; ERelease]).
Proof.
  exact (proj2 (proj2 (proj2 (proj2
           (transaction_releases (QueryView Sample.env)
              (VStr (py "DROP TABLE people")) (VDict []) Sample.fresh)
           Sample.fresh eq_refl)) 0 Sample.fresh eq_refl)
           (OracleError (py "ORA-00900: invalid SQL statement"))
           Sample.fresh [EExecute 0 (py "DROP TABLE people") (VDict [])]
           Sample.fresh Sample.fresh eq_refl eq_refl eq_refl).
Defined.

(** X12. A transaction that succeeds has committed: its last three
    calls are the commit of [post], the closing of the cursor and the
    return of the session, in this order; and the commit succeeded. *)
Theorem transaction_success_commits (E : Env) (self : View E)
    (sql params : value) (st st' : db E) (result : value) (t : list event) :
  transaction self sql params st = (Ok result, st', t) ->
  exists c t0,
    t = EAcquire :: EOpenCursor :: t0 ++ [ECommit; ECloseCursor c; ERelease].
Proof.
  intros H.
  destruct (pool_acquire E st) as [[[]|e] s1] eqn:Hacq.
  - destruct (connection_cursor E s1) as [[c|e] s2] eqn:Hcur.
    + rewrite (transaction_opened self sql params st Hacq Hcur) in H.
      destruct (bind (execute_sql self c sql params)
                  (fun result => bind (commit E) (fun _ => ret result)) s2)
        as [[r s3] t3] eqn:Hwork.
      simpl in H.
      destruct (connection_exit E (snd (cursor_exit E c s3)))
        as [[[]|e2] s5]; simpl in H; [|discriminate H].
      destruct (cursor_exit E c s3) as [[[]|e1] s4]; simpl in H;
        [|discriminate H].
      inversion H; subst. clear H.
      apply bind_Ok in Hwork.
      destruct Hwork as (a & sa & ta & tb & _ & Hrest & ->).
      apply bind_Ok in Hrest.
      destruct Hrest as ([] & sb & tc & td & Hcommit & Hret & ->).
      inversion Hret; subst.
      unfold commit, call in Hcommit.
      destruct (connection_commit E sa) as [rc sc]. inversion Hcommit; subst.
      exists c, ta. rewrite app_nil_r, <- app_assoc. reflexivity.
    + exfalso. unfold transaction, with_, acquire, open_cursor,
        connection_close, call in H.
      rewrite Hacq, Hcur in H.
      destruct (connection_exit E s2) as [[[]|e2] s3]; discriminate H.
  - unfold transaction, with_, acquire, call in H. rewrite Hacq in H.
    discriminate H.
Qed.

(** On the sample driver: an UPDATE, committed by the method and again
    by [post]. *)
Lemma transaction_success_commits_witness :
  exists c t0,
    [EAcquire; EOpenCursor;
     EExecute 0 (py "UPDATE people SET id = 1") (VDict []);
     ECommit; ECommit; ECloseCursor 0; ERelease]
    = EAcquire :: EOpenCursor :: t0 ++ [ECommit; ECloseCursor c; ERelease].
Proof.
  exact (@transaction_success_commits Sample.env (DataTableView Sample.env)
           (VStr (py "UPDATE people SET id = 1")) (VDict []) Sample.fresh
           _ _ _ eq_refl).
Defined.

(** ** The answers of [post] *)

(** X13. [post] answers with status 200 or 400 and nothing else: an
    error of the database is a 400 like a bad request. The status is 200
    exactly when the request is a dict with a true ['sql'] and the
    transaction returned a value, and the response is then
    [{'data': value}]. *)
Theorem post_status (E : Env) (self : View E) (request_data : value)
    (st : db E) :
  (status (fst (fst (post self request_data st))) = HTTP_200_OK
   \/ status (fst (fst (post self request_data st))) = HTTP_400_BAD_REQUEST)
  /\ (status (fst (fst (post self request_data st))) = HTTP_200_OK
      <-> exists body result st' t,
            request_data = VDict body
            /\ truthy (dict_get body (py "sql") VNone) = true
            /\ transaction self (dict_get body (py "sql") VNone)
                 (dict_get body (py "params") (VDict [])) st
               = (Ok result, st', t)
            /\ post self request_data st
               = (mkResponse [(py "data", result)] HTTP_200_OK, st', t)).
Proof.
  destruct request_data;
    try (split; [right; reflexivity|];
         split; [intros H; discriminate H
                |intros (body & ? & ? & ? & Hb & _); discriminate Hb]).
  unfold post.
  destruct (truthy (dict_get d (py "sql") VNone)) eqn:Hsql; simpl.
  - destruct (transaction self (dict_get d (py "sql") VNone)
                (dict_get d (py "params") (VDict [])) st)
      as [[[result|e] st'] t] eqn:Hrun; simpl.
    + split; [left; reflexivity|]. split; [|reflexivity].
      intros _. exists d, result, st', t. auto.
    + assert (Hst : status (fst (handle E e)) = HTTP_400_BAD_REQUEST).
      { unfold handle. destruct (is_oracledb_Error e); reflexivity. }
      split; [right; exact Hst|]. split.
      * intros H. rewrite Hst in H. discriminate H.
      * intros (body & result & st2 & t2 & Hb & _ & Hrun2 & _).
        inversion Hb; subst. rewrite Hrun in Hrun2. discriminate Hrun2.
  - split; [right; reflexivity|]. split; [intros H; discriminate H|].
    intros (body & result & st2 & t2 & Hb & Hs & _).
    inversion Hb; subst. rewrite Hsql in Hs. discriminate Hs.
Qed.

(** On the sample driver: a SELECT is answered with 200. *)
Lemma post_status_witness :
  exists body result st' t,
    VDict [(py "sql", VStr (py "SELECT * FROM people"))] = VDict body
    /\ truthy (dict_get body (py "sql") VNone) = true
    /\ transaction (QueryView Sample.env) (dict_get body (py "sql") VNone)
         (dict_get body (py "params") (VDict [])) Sample.fresh
       = (Ok result, st', t)
    /\ post (QueryView Sample.env)
         (VDict [(py "sql", VStr (py "SELECT * FROM people"))]) Sample.fresh
       = (mkResponse [(py "data", result)] HTTP_200_OK, st', t).
Proof.
  exact (proj1 (proj2 (post_status (QueryView Sample.env)
                         (VDict [(py "sql",
                                  VStr (py "SELECT * FROM people"))])
                         Sample.fresh)) eq_refl).
Defined.

Section Logging.
Variable E : Env.

Lemma emits_with X A (P : event -> Prop) (enter : M E X)
    (exit : X -> M E unit) (body : X -> M E A) :
  emits P enter -> (forall x, emits P (exit x)) ->
  (forall x, emits P (body x)) -> emits P (with_ enter exit body).
Proof.
  intros He Hx Hb s. unfold with_. specialize (He s).
  destruct (enter s) as [[[x|e] s1] t1]; simpl in *; [|exact He].
  specialize (Hb x s1). destruct (body x s1) as [[r s2] t2]. simpl in Hb.
  specialize (Hx x s2). destruct (exit x s2) as [[[[]|e] s3] t3];
    simpl in *; repeat (apply Forall_app; split); assumption.
Qed.

Lemma transaction_not_logged (self : View E) sql params :
  self = QueryView E \/ self = DataTableView E ->
  emits not_logged (transaction self sql params).
Proof.
  intros Hself. unfold transaction.
  apply emits_with; [apply emits_call; exact I
                    |intros; apply emits_call; exact I|].
  intros _. apply emits_with; [apply emits_call; exact I
                              |intros; apply emits_call; exact I|].
  intros cursor. apply emits_bind.
  - destruct sql; try apply emits_raise. unfold execute_sql.
    destruct (startswith s (py "CALL")).
    + apply emits_call_procedure; simpl; auto.
    + apply emits_execute_query; simpl; auto.
  - intros result. apply emits_bind; [apply emits_call; exact I|].
    intros; apply emits_ret.
Qed.
End Logging.

(** X14. On both endpoints the log gets a line only for an exception,
    one line, after all the calls of the request: a request that is
    answered with 200 and a request rejected before [try] write nothing,
    and a request whose transaction raises writes one line as its last
    act. *)
Theorem post_logs_once (E : Env) (self : View E) (request_data : value)
    (st : db E) :
  self = QueryView E \/ self = DataTableView E ->
  (status (fst (fst (post self request_data st))) = HTTP_200_OK ->
   Forall not_logged (snd (post self request_data st)))
  /\ (forall body e st' t,
        request_data = VDict body ->
        truthy (dict_get body (py "sql") VNone) = true ->
        transaction self (dict_get body (py "sql") VNone)
          (dict_get body (py "params") (VDict [])) st = (Raise e, st', t) ->
        Forall not_logged t
        /\ exists msg, snd (post self request_data st) = t ++ [ELogError msg])
  /\ ((forall body, request_data <> VDict body) ->
      snd (post self request_data st) = [])
  /\ (forall body,
        request_data = VDict body ->
        truthy (dict_get body (py "sql") VNone) = false ->
        snd (post self request_data st) = []).
Proof.
  intros Hself. split; [|split; [|split]].
  - destruct request_data; simpl; try (intros H; discriminate H).
    destruct (truthy (dict_get d (py "sql") VNone)); simpl;
      [|intros H; discriminate H].
    pose proof (transaction_not_logged (dict_get d (py "sql") VNone)
                  (dict_get d (py "params") (VDict [])) Hself st) as Hev.
    destruct (transaction self _ _ st) as [[[result|e] st'] t]; simpl in *.
    + intros _. exact Hev.
    + unfold handle. destruct (is_oracledb_Error e); intros H;
        discriminate H.
  - intros body e st' t -> Hsql Hrun.
    pose proof (transaction_not_logged (dict_get body (py "sql") VNone)
                  (dict_get body (py "params") (VDict [])) Hself st) as Hev.
    rewrite Hrun in Hev. split; [exact Hev|].
    unfold post. rewrite Hsql. simpl. rewrite Hrun. simpl.
    unfold handle. destruct (is_oracledb_Error e); eexists; reflexivity.
  - intros Hnot. destruct request_data; try reflexivity.
    destruct (Hnot d eq_refl).
  - intros body -> Hsql. unfold post. rewrite Hsql. reflexivity.
Qed.

(** On the sample driver: the one line of a refused statement. *)
Lemma post_logs_once_witness :
  exists msg,
    snd (post (QueryView Sample.env)
           (VDict [(py "sql", VStr (py "DROP TABLE people"))]) Sample.fresh)
    = [EAcquire; EOpenCursor; EExecute 0 (py "DROP TABLE people") (VDict []);
       ECloseCursor 0; ERelease] ++ [ELogError msg].
Proof.
  exact (proj2 (proj1 (proj2
           (@post_logs_once Sample.env (QueryView Sample.env)
              (VDict [(py "sql", VStr (py "DROP TABLE people"))])
              Sample.fresh (or_introl eq_refl)))
           [(py "sql", VStr (py "DROP TABLE people"))]
           (OracleError (py "ORA-00900: invalid SQL statement"))
           Sample.fresh
           [EAcquire; EOpenCursor;
            EExecute 0 (py "DROP TABLE people") (VDict []);
            ECloseCursor 0; ERelease] eq_refl eq_refl eq_refl)).
Defined.

(** X15. Values of the wrong type are not rejected before [try]. A true
    ['sql'] that is no text (a number, a list) fails on [startswith]
    with [AttributeError] once the session is acquired and the cursor
    open; nothing is executed, and [post] answers with [str(e)]. A call
    whose ['params'] is no dict fails in the binder with
    [AttributeError] on [items], and the procedure is not called. *)
Theorem post_wrong_types (E : Env) (self : View E) (cursor : Cursor)
    (st : db E) :
  (forall sql params,
     (forall s, sql <> VStr s) ->
     execute_sql self cursor sql params st
     = (Raise (no_attribute sql (py "startswith")), st, []))
  /\ (forall rest params,
        (forall d, params <> VDict d) ->
        execute_sql self cursor (VStr (py "CALL" ++ rest)) params st
        = (Raise (no_attribute params (py "items")), st, []))
  /\ (forall body s1 s2 s3 s4,
        truthy (dict_get body (py "sql") VNone) = true ->
        (forall s, dict_get body (py "sql") VNone <> VStr s) ->
        pool_acquire E st = (Ok tt, s1) ->
        connection_cursor E s1 = (Ok cursor, s2) ->
        cursor_exit E cursor s2 = (Ok tt, s3) ->
        connection_exit E s3 = (Ok tt, s4) ->
        post self (VDict body) st
        = (error_response
             (str_exn E (no_attribute (dict_get body (py "sql") VNone)
                           (py "startswith"))),
           s4,
           [EAcquire; EOpenCursor; ECloseCursor cursor; ERelease;
            ELogError
              (py "Unexpected error: "
               ++ str_exn E (no_attribute (dict_get body (py "sql") VNone)
                               (py "startswith")))])).
Proof.
  assert (Hsql : forall sql params,
            (forall s, sql <> VStr s) ->
            execute_sql self cursor sql params st
            = (Raise (no_attribute sql (py "startswith")), st, [])).
  { intros sql params Hnot. destruct sql; try reflexivity.
    destruct (Hnot s eq_refl). }
  split; [exact Hsql|split].
  - intros rest params Hnot. unfold execute_sql. simpl.
    unfold call_procedure, bind.
    destruct params; try reflexivity. destruct (Hnot d eq_refl).
  - intros body s1 s2 s3 s4 Htruthy Hnot Hacq Hcur Hcx Hrx.
    unfold post. rewrite Htruthy. simpl.
    rewrite (transaction_opened self _ _ st Hacq Hcur).
    assert (Hex : forall params,
              execute_sql self cursor (dict_get body (py "sql") VNone) params
                s2
              = (Raise (no_attribute (dict_get body (py "sql") VNone)
                          (py "startswith")), s2, [])).
    { intros params. destruct (dict_get body (py "sql") VNone);
        try reflexivity. destruct (Hnot s eq_refl). }
    unfold bind. rewrite Hex. simpl. rewrite Hcx. simpl. rewrite Hrx.
    reflexivity.
Qed.

(** On the sample driver: the number 5 as ['sql']. *)
Lemma post_wrong_types_witness :
  post (QueryView Sample.env) (VDict [(py "sql", VInt 5)]) Sample.fresh
  = (error_response (py "'int' object has no attribute 'startswith'"),
     Sample.fresh,
     [EAcquire; EOpenCursor; ECloseCursor 0; ERelease;
      ELogError
        (py "Unexpected error: 'int' object has no attribute 'startswith'")]).
Proof.
  refine (proj2 (proj2 (post_wrong_types (QueryView Sample.env) 0
                          Sample.fresh))
            [(py "sql", VInt 5)] Sample.fresh Sample.fresh Sample.fresh
            Sample.fresh eq_refl _ eq_refl eq_refl eq_refl eq_refl).
  intros s H. discriminate H.
Defined.

(** ** The older views *)
Section OlderFacts.
Variable E : Env.
Variable get_connection : M E unit.
Variable execute_other : Cursor -> value -> value -> M E unit.
Variable str_value : value -> str.

Lemma OracleBaseView_execute_sql_first_call cursor sql params st :
  exists t,
    snd (OracleBaseView_execute_sql E cursor sql params st)
    = EExecute cursor sql params :: t.
Proof.
  unfold OracleBaseView_execute_sql. unfold bind at 1. unfold execute, call.
  destruct (cursor_execute E cursor sql params st) as [[[]|e] s1];
    [|eexists; reflexivity].
  match goal with
  | |- context [bind ?m ?k s1] => destruct (bind m k s1) as [[r s2] t2]
  end.
  eexists. reflexivity.
Qed.

Lemma Oracle_transaction_opened sql params st s0 t0 c s1 :
  get_connection st = (Ok tt, s0, t0) ->
  connection_cursor E s0 = (Ok c, s1) ->
  Oracle_transaction get_connection execute_other sql params st
  = (match fst (connection_exit E
                  (snd (cursor_exit E c
                          (snd (fst (OracleBaseView_execute_sql_of
                                       execute_other c sql params s1))))))
     with
     | Raise e => Raise e
     | Ok _ =>
       match fst (cursor_exit E c
                    (snd (fst (OracleBaseView_execute_sql_of
                                 execute_other c sql params s1)))) with
       | Raise e => Raise e
       | Ok _ => fst (fst (OracleBaseView_execute_sql_of
                             execute_other c sql params s1))
       end
     end,
     snd (connection_exit E
            (snd (cursor_exit E c
                    (snd (fst (OracleBaseView_execute_sql_of
                                 execute_other c sql params s1)))))),
     t0 ++ EOpenCursor
        :: snd (OracleBaseView_execute_sql_of execute_other c sql params s1)
           ++ [ECloseCursor c; ERelease]).
Proof.
  intros Hconn Hcur.
  unfold Oracle_transaction, with_, open_cursor, connection_close,
    cursor_close, call.
  rewrite Hconn, Hcur.
  destruct (OracleBaseView_execute_sql_of execute_other c sql params s1)
    as [[r s3] t3]. simpl.
  destruct (cursor_exit E c s3) as [[[]|e1] s4]; simpl;
    destruct (connection_exit E s4) as [[[]|e2] s5]; simpl;
    rewrite <- ?app_assoc; reflexivity.
Qed.
End OlderFacts.

(** X16. The older [OracleBaseView.execute_sql] does not dispatch: every
    text, also one that starts with [CALL], goes to [execute] with the
    parameters of the request as they are (no date is converted, no
    variable made), and at most one call follows, a [fetchall] or a
    [commit]. *)
Theorem OracleBaseView_execute_sql_no_dispatch (E : Env) (cursor : Cursor)
    (sql : str) (params : value) (st : db E) :
  exists t,
    snd (OracleBaseView_execute_sql E cursor sql params st)
    = EExecute cursor sql params :: t
    /\ Forall (fetch_or_commit cursor) t
    /\ List.length t <= 1.
Proof.
  unfold OracleBaseView_execute_sql, bind, execute, call, description.
  destruct (cursor_execute E cursor sql params st) as [[[]|e] s1]; simpl.
  - destruct (cursor_description E cursor s1) as [[|col desc]|]; simpl.
    + unfold commit, call. destruct (connection_commit E s1) as [[[]|e] s2];
        simpl; eexists; (split; [reflexivity|]); split;
        try (constructor; [right; reflexivity|constructor]); apply le_n.
    + unfold fetchall, call.
      destruct (cursor_fetchall E cursor s1) as [[rows|e] s2];
        simpl; eexists; (split; [reflexivity|]); split;
        try (constructor; [left; reflexivity|constructor]); apply le_n.
    + unfold commit, call. destruct (connection_commit E s1) as [[[]|e] s2];
        simpl; eexists; (split; [reflexivity|]); split;
        try (constructor; [right; reflexivity|constructor]); apply le_n.
  - exists []. split; [reflexivity|]. split; [constructor|]. apply le_S, le_n.
Qed.

(** X17. [OracleQueryView.post] has no commit of its own. With the
    connection made, the cursor open and the statement executed: for a
    result set it fetches, closes and answers
    [{'columns': names, 'rows': objects}] without any commit; without a
    result set the one commit is that of [execute_sql]. *)
Theorem OracleQueryView_post_commits (E : Env) (get_connection : M E unit)
    (execute_other : Cursor -> value -> value -> M E unit)
    (body : dict value) (sql : str) (st s0 s1 s2 : db E)
    (t0 : list event) (c : Cursor) :
  dict_get body (py "sql") VNone = VStr sql ->
  sql <> [] ->
  get_connection st = (Ok tt, s0, t0) ->
  connection_cursor E s0 = (Ok c, s1) ->
  cursor_execute E c sql (dict_get body (py "params") (VDict [])) s1
  = (Ok tt, s2) ->
  (forall col desc rows s3 s4 s5,
     cursor_description E c s2 = Some (col :: desc) ->
     cursor_fetchall E c s2 = (Ok rows, s3) ->
     cursor_exit E c s3 = (Ok tt, s4) ->
     connection_exit E s4 = (Ok tt, s5) ->
     OracleQueryView_post get_connection execute_other (VDict body) st
     = (mkResponse
          [(py "data",
            VDict [(py "columns", VList (map VStr (map fst (col :: desc))));
                   (py "rows",
                    VList (map (row_dict (map fst (col :: desc))) rows))])]
          HTTP_200_OK,
        s5,
        t0 ++ [EOpenCursor;
               EExecute c sql (dict_get body (py "params") (VDict []));
               EFetchall c; ECloseCursor c; ERelease]))
  /\ (forall s3 s4 s5,
        cursor_description E c s2 = None ->
        connection_commit E s2 = (Ok tt, s3) ->
        cursor_exit E c s3 = (Ok tt, s4) ->
        connection_exit E s4 = (Ok tt, s5) ->
        OracleQueryView_post get_connection execute_other (VDict body) st
        = (mkResponse
             [(py "data",
               VDict [(py "columns", VList []); (py "rows", VList [])])]
             HTTP_200_OK,
           s5,
           t0 ++ [EOpenCursor;
                  EExecute c sql (dict_get body (py "params") (VDict []));
                  ECommit; ECloseCursor c; ERelease])).
Proof.
  intros Hsql Hne Hconn Hcur Hex.
  assert (Htruthy : truthy (dict_get body (py "sql") VNone) = true).
  { rewrite Hsql. destruct sql; [destruct (Hne eq_refl)|reflexivity]. }
  split.
  - intros col desc rows s3 s4 s5 Hdesc Hfetch Hcx Hrx.
    unfold OracleQueryView_post. rewrite Htruthy. simpl.
    rewrite (@Oracle_transaction_opened E get_connection execute_other _ _
               st s0 t0 c s1 Hconn Hcur).
    rewrite Hsql. simpl.
    unfold OracleBaseView_execute_sql, bind, execute, call, description,
      fetchall.
    rewrite Hex, Hdesc. simpl. unfold call. rewrite Hfetch. simpl.
    rewrite Hcx. simpl. rewrite Hrx. reflexivity.
  - intros s3 s4 s5 Hdesc Hcommit Hcx Hrx.
    unfold OracleQueryView_post. rewrite Htruthy. simpl.
    rewrite (@Oracle_transaction_opened E get_connection execute_other _ _
               st s0 t0 c s1 Hconn Hcur).
    rewrite Hsql. simpl.
    unfold OracleBaseView_execute_sql, bind, execute, call, description,
      commit.
    rewrite Hex, Hdesc. simpl. unfold call. rewrite Hcommit. simpl.
    rewrite Hcx. simpl. rewrite Hrx. reflexivity.
Qed.

(** On the sample driver: a SELECT through the older view, answered
    without any commit. *)
Lemma OracleQueryView_post_commits_witness :
  OracleQueryView_post sample_connect sample_execute_other
    (VDict [(py "sql", VStr (py "SELECT * FROM people"))]) Sample.fresh
  = (mkResponse
       [(py "data",
         VDict [(py "columns", VList [VStr (py "ID"); VStr (py "NAME")]);
                (py "rows",
                 VList (map (row_dict [py "ID"; py "NAME"])
                          (snd Sample.people)))])]
       HTTP_200_OK,
     Sample.mksession 0 0 (Some Sample.people),
     [] ++ [EOpenCursor; EExecute 0 (py "SELECT * FROM people") (VDict []);
            EFetchall 0; ECloseCursor 0; ERelease]).
Proof.
  exact (proj1
           (@OracleQueryView_post_commits Sample.env sample_connect
              sample_execute_other
              [(py "sql", VStr (py "SELECT * FROM people"))]
              (py "SELECT * FROM people") Sample.fresh Sample.fresh
              Sample.fresh (Sample.mksession 0 0 (Some Sample.people)) [] 0
              eq_refl (fun H => eq_ind (py "SELECT * FROM people")
                                  (fun l => match l with
                                            | [] => False
                                            | _ :: _ => True
                                            end) I [] H)
              eq_refl eq_refl eq_refl)
           (py "ID", Sample.DB_TYPE_NUMBER)
           [(py "NAME", Sample.DB_TYPE_VARCHAR)] (snd Sample.people)
           (Sample.mksession 0 0 (Some Sample.people))
           (Sample.mksession 0 0 (Some Sample.people))
           (Sample.mksession 0 0 (Some Sample.people))
           eq_refl eq_refl eq_refl eq_refl).
Defined.

(** X18. [OracleDataTableView.post]. A request that is no dict, or whose
    ['table_name'] is missing or false, is rejected without any call; a
    ['sql'] in the request plays no part. A table name that is a text is
    put after ["SELECT * FROM "] as it is written, and that text is what
    the driver is given to execute, with the request's parameters, as
    the first statement after the cursor is open. *)
Theorem OracleDataTableView_post_statement (E : Env)
    (get_connection : M E unit)
    (execute_other : Cursor -> value -> value -> M E unit)
    (str_value : value -> str) (st : db E) :
  (forall request_data,
     (forall body, request_data <> VDict body) ->
     OracleDataTableView_post get_connection execute_other str_value
       request_data st
     = (bad_format, st, []))
  /\ (forall body,
        truthy (dict_get body (py "table_name") VNone) = false ->
        OracleDataTableView_post get_connection execute_other str_value
          (VDict body) st
        = (no_table_name, st, []))
  /\ (forall body table_name s0 t0 c s1,
        dict_get body (py "table_name") VNone = VStr table_name ->
        table_name <> [] ->
        get_connection st = (Ok tt, s0, t0) ->
        connection_cursor E s0 = (Ok c, s1) ->
        exists t,
          snd (OracleDataTableView_post get_connection execute_other
                 str_value (VDict body) st)
          = t0 ++ EOpenCursor
               :: EExecute c (py "SELECT * FROM " ++ table_name)
                    (dict_get body (py "params") (VDict []))
               :: t).
Proof.
  split; [|split].
  - intros request_data Hnot. destruct request_data; try reflexivity.
    destruct (Hnot d eq_refl).
  - intros body Hfalse. unfold OracleDataTableView_post. rewrite Hfalse.
    reflexivity.
  - intros body table_name s0 t0 c s1 Hname Hne Hconn Hcur.
    unfold OracleDataTableView_post. rewrite Hname.
    assert (Htruthy : truthy (VStr table_name) = true).
    { destruct table_name; [destruct (Hne eq_refl)|reflexivity]. }
    rewrite Htruthy. cbv beta iota zeta delta [negb format_value].
    destruct (respond_events E
                (Oracle_transaction get_connection execute_other
                   (VStr (py "SELECT * FROM " ++ table_name))
                   (dict_get body (py "params") (VDict [])) st))
      as [tlog Hlog].
    rewrite Hlog.
    rewrite (@Oracle_transaction_opened E get_connection execute_other _ _
               st s0 t0 c s1 Hconn Hcur).
    cbn [snd OracleBaseView_execute_sql_of].
    destruct (OracleBaseView_execute_sql_first_call E c
                (py "SELECT * FROM " ++ table_name)
                (dict_get body (py "params") (VDict [])) s1) as [t Ht].
    rewrite Ht. eexists. rewrite <- app_assoc. simpl. reflexivity.
Qed.

(** On the sample driver: a table name with a condition after it. *)
Lemma OracleDataTableView_post_statement_witness :
  exists t,
    snd (OracleDataTableView_post sample_connect sample_execute_other
           sample_str
           (VDict [(py "table_name", VStr (py "people WHERE id = 1"))])
           Sample.fresh)
    = [] ++ EOpenCursor
         :: EExecute 0 (py "SELECT * FROM people WHERE id = 1") (VDict [])
         :: t.
Proof.
  refine (proj2 (proj2
            (OracleDataTableView_post_statement sample_connect
               sample_execute_other sample_str Sample.fresh))
            [(py "table_name", VStr (py "people WHERE id = 1"))]
            (py "people WHERE id = 1") Sample.fresh [] 0 Sample.fresh
            eq_refl _ eq_refl eq_refl).
  intros H. discriminate H.
Defined.
